(** * The serial control plane of gensio's termios endpoint

    A shallow embedding of [gensio/sergensio_termios.c]: the bidirectional
    modem-control accessors, the operation queue ([termios_set_get],
    [termios_process], [sterm_deferred_op]), the modem-state poller
    ([termios_timeout], [sterm_modemstate]) and the life cycle
    ([sterm_sub_open], [sterm_check_close_drain]).

    The endpoint record [sterm_data] is threaded explicitly.  Every call a
    function makes to one of its collaborators (the OS, the allocator, the
    timer, the runner, the UUCP lock, the user's callbacks) is recorded, in
    program order, in the list of [action]s the function returns; what the
    collaborator answers is an input of the function (the record [env]).

    A function that dereferences or calls a NULL pointer has no value
    ([None]).  Each entry point runs to its end before the next one starts:
    the endpoint lock makes this so for everything but the user's callbacks,
    which run with the lock released.  A completion that calls back into the
    endpoint is covered by [termios_process_one] (one turn of the runner's
    loop, the calls of the completion following it in the sequence);
    [termios_process] and [termios_timeout] are the whole functions for
    callbacks that return without calling the endpoint. *)

From Stdlib Require Import ZArith List Bool Lia.
Import ListNotations.
Local Open Scope Z_scope.

(** ** What the system and gensio headers provide

    The constants below are declared in headers that are not part of the
    translated file ([<sys/ioctl.h>], [<errno.h>], [<termios.h>],
    [gensio/sergensio.h]); the development is parametric in them. *)

Class Platform : Type := {
  termios : Type;                       (* struct termios *)
  (* modem-control bits of TIOCMGET / TIOCMSET *)
  TIOCM_DTR : Z;
  TIOCM_RTS : Z;
  TIOCM_CTS : Z;
  TIOCM_CD : Z;
  TIOCM_RI : Z;
  TIOCM_DSR : Z;
  (* error numbers *)
  ENOTSUP : Z;
  ENOMEM : Z;
  EBUSY : Z;
  EINVAL : Z;
  EAGAIN : Z;
  (* values of the serial operations *)
  SERGENSIO_BREAK_ON : Z;
  SERGENSIO_BREAK_OFF : Z;
  SERGENSIO_DTR_ON : Z;
  SERGENSIO_DTR_OFF : Z;
  SERGENSIO_RTS_ON : Z;
  SERGENSIO_RTS_OFF : Z
}.

(** The values of a Linux system (asm-generic) and of gensio's header. *)
Record linux_termios : Type := {
  c_iflag : Z;
  c_oflag : Z;
  c_cflag : Z;
  c_lflag : Z;
  c_ispeed : Z;
  c_ospeed : Z
}.

#[export] Instance linux : Platform := {|
  termios := linux_termios;
  TIOCM_DTR := 0x002;
  TIOCM_RTS := 0x004;
  TIOCM_CTS := 0x020;
  TIOCM_CD := 0x040;
  TIOCM_RI := 0x080;
  TIOCM_DSR := 0x100;
  ENOTSUP := 95;
  ENOMEM := 12;
  EBUSY := 16;
  EINVAL := 22;
  EAGAIN := 11;
  SERGENSIO_BREAK_ON := 1;
  SERGENSIO_BREAK_OFF := 2;
  SERGENSIO_DTR_ON := 1;
  SERGENSIO_DTR_OFF := 2;
  SERGENSIO_RTS_ON := 1;
  SERGENSIO_RTS_OFF := 2
|}.

(** C's truth value of an [int]. *)
Definition nonzero (z : Z) : bool := negb (z =? 0).

(** The answer of a system call: its result, or failure with [errno]
    (a positive number). *)
Inductive sysret (A : Type) : Type :=
| sys_ok (a : A)
| sys_err (errno : positive).
Arguments sys_ok {A} a.
Arguments sys_err {A} errno.

Section Endpoint.
Context {P : Platform}.

(** ** Accessors

    The function pointer [getset] takes a [termio], an [mctl] and a [val]
    pointer and returns an [int].  The
    three pointers are modelled by the contents they point to, [None] for a
    NULL [termio] or [mctl]; the result holds the returned error and the
    contents afterwards.  An accessor that reads or writes through a NULL
    pointer has no result ([None]). *)

Record getset_out : Type := {
  g_err : Z;
  g_termio : option termios;
  g_mctl : option Z;
  g_val : Z
}.

Definition getset_t : Type :=
  option termios -> option Z -> Z -> option getset_out.

Definition termios_get_set_dtr : getset_t :=
  fun termio mctl ival =>
    if nonzero ival then
      if ival =? SERGENSIO_DTR_ON then
        match mctl with
        | Some m => Some {| g_err := 0; g_termio := termio;
                            g_mctl := Some (Z.lor m TIOCM_DTR); g_val := ival |}
        | None => None
        end
      else if ival =? SERGENSIO_DTR_OFF then
        match mctl with
        | Some m => Some {| g_err := 0; g_termio := termio;
                            g_mctl := Some (Z.land m TIOCM_DTR); g_val := ival |}
        | None => None
        end
      else
        Some {| g_err := EINVAL; g_termio := termio; g_mctl := mctl;
                g_val := ival |}
    else
      match mctl with
      | Some m =>
          Some {| g_err := 0; g_termio := termio; g_mctl := mctl;
                  g_val := if nonzero (Z.land m TIOCM_DTR)
                           then SERGENSIO_DTR_ON else SERGENSIO_DTR_OFF |}
      | None => None
      end.

Definition termios_get_set_rts : getset_t :=
  fun termio mctl ival =>
    if nonzero ival then
      if ival =? SERGENSIO_RTS_ON then
        match mctl with
        | Some m => Some {| g_err := 0; g_termio := termio;
                            g_mctl := Some (Z.lor m TIOCM_RTS); g_val := ival |}
        | None => None
        end
      else if ival =? SERGENSIO_RTS_OFF then
        match mctl with
        | Some m => Some {| g_err := 0; g_termio := termio;
                            g_mctl := Some (Z.land m TIOCM_RTS); g_val := ival |}
        | None => None
        end
      else
        Some {| g_err := EINVAL; g_termio := termio; g_mctl := mctl;
                g_val := ival |}
    else
      match mctl with
      | Some m =>
          Some {| g_err := 0; g_termio := termio; g_mctl := mctl;
                  g_val := if nonzero (Z.land m TIOCM_RTS)
                           then SERGENSIO_RTS_ON else SERGENSIO_RTS_OFF |}
      | None => None
      end.

(** ** The endpoint

    [enum termio_op]; an entry of the operation queue ([struct termio_op_q],
    the [next] link is the tail of the list); the endpoint
    ([struct sterm_data]) without the handles of its collaborators. *)

Inductive termio_op : Type :=
| TERMIO_OP_TERMIO
| TERMIO_OP_MCTL
| TERMIO_OP_BRK.

Record termio_op_q : Type := {
  op : termio_op;
  getset : option getset_t;             (* None: a NULL function pointer *)
  done : nat;                           (* the identity of the completion *)
  cb_data : Z
}.

Record sterm_data : Type := {
  timer_stopped : bool;
  open : bool;
  close_timeouts_left : Z;              (* unsigned int *)
  fd : Z;
  write_only : bool;
  default_termios : termios;
  deferred_op_pending : bool;
  termio_q : list termio_op_q;
  break_set : bool;
  last_modemstate : Z;                  (* unsigned int *)
  modemstate_mask : Z;                  (* unsigned int *)
  handling_modemstate : bool;
  sent_first_modemstate : bool
}.

Definition set_timer_stopped (v : bool) (s : sterm_data) : sterm_data :=
  {| timer_stopped := v; open := open s;
     close_timeouts_left := close_timeouts_left s; fd := fd s;
     write_only := write_only s; default_termios := default_termios s;
     deferred_op_pending := deferred_op_pending s; termio_q := termio_q s;
     break_set := break_set s; last_modemstate := last_modemstate s;
     modemstate_mask := modemstate_mask s;
     handling_modemstate := handling_modemstate s;
     sent_first_modemstate := sent_first_modemstate s |}.

Definition set_open (v : bool) (s : sterm_data) : sterm_data :=
  {| timer_stopped := timer_stopped s; open := v;
     close_timeouts_left := close_timeouts_left s; fd := fd s;
     write_only := write_only s; default_termios := default_termios s;
     deferred_op_pending := deferred_op_pending s; termio_q := termio_q s;
     break_set := break_set s; last_modemstate := last_modemstate s;
     modemstate_mask := modemstate_mask s;
     handling_modemstate := handling_modemstate s;
     sent_first_modemstate := sent_first_modemstate s |}.

Definition set_close_timeouts_left (v : Z) (s : sterm_data) : sterm_data :=
  {| timer_stopped := timer_stopped s; open := open s;
     close_timeouts_left := v; fd := fd s;
     write_only := write_only s; default_termios := default_termios s;
     deferred_op_pending := deferred_op_pending s; termio_q := termio_q s;
     break_set := break_set s; last_modemstate := last_modemstate s;
     modemstate_mask := modemstate_mask s;
     handling_modemstate := handling_modemstate s;
     sent_first_modemstate := sent_first_modemstate s |}.

Definition set_fd (v : Z) (s : sterm_data) : sterm_data :=
  {| timer_stopped := timer_stopped s; open := open s;
     close_timeouts_left := close_timeouts_left s; fd := v;
     write_only := write_only s; default_termios := default_termios s;
     deferred_op_pending := deferred_op_pending s; termio_q := termio_q s;
     break_set := break_set s; last_modemstate := last_modemstate s;
     modemstate_mask := modemstate_mask s;
     handling_modemstate := handling_modemstate s;
     sent_first_modemstate := sent_first_modemstate s |}.

Definition set_deferred_op_pending (v : bool) (s : sterm_data) : sterm_data :=
  {| timer_stopped := timer_stopped s; open := open s;
     close_timeouts_left := close_timeouts_left s; fd := fd s;
     write_only := write_only s; default_termios := default_termios s;
     deferred_op_pending := v; termio_q := termio_q s;
     break_set := break_set s; last_modemstate := last_modemstate s;
     modemstate_mask := modemstate_mask s;
     handling_modemstate := handling_modemstate s;
     sent_first_modemstate := sent_first_modemstate s |}.

Definition set_termio_q (v : list termio_op_q) (s : sterm_data) : sterm_data :=
  {| timer_stopped := timer_stopped s; open := open s;
     close_timeouts_left := close_timeouts_left s; fd := fd s;
     write_only := write_only s; default_termios := default_termios s;
     deferred_op_pending := deferred_op_pending s; termio_q := v;
     break_set := break_set s; last_modemstate := last_modemstate s;
     modemstate_mask := modemstate_mask s;
     handling_modemstate := handling_modemstate s;
     sent_first_modemstate := sent_first_modemstate s |}.

Definition set_break_set (v : bool) (s : sterm_data) : sterm_data :=
  {| timer_stopped := timer_stopped s; open := open s;
     close_timeouts_left := close_timeouts_left s; fd := fd s;
     write_only := write_only s; default_termios := default_termios s;
     deferred_op_pending := deferred_op_pending s; termio_q := termio_q s;
     break_set := v; last_modemstate := last_modemstate s;
     modemstate_mask := modemstate_mask s;
     handling_modemstate := handling_modemstate s;
     sent_first_modemstate := sent_first_modemstate s |}.

Definition set_last_modemstate (v : Z) (s : sterm_data) : sterm_data :=
  {| timer_stopped := timer_stopped s; open := open s;
     close_timeouts_left := close_timeouts_left s; fd := fd s;
     write_only := write_only s; default_termios := default_termios s;
     deferred_op_pending := deferred_op_pending s; termio_q := termio_q s;
     break_set := break_set s; last_modemstate := v;
     modemstate_mask := modemstate_mask s;
     handling_modemstate := handling_modemstate s;
     sent_first_modemstate := sent_first_modemstate s |}.

Definition set_modemstate_mask (v : Z) (s : sterm_data) : sterm_data :=
  {| timer_stopped := timer_stopped s; open := open s;
     close_timeouts_left := close_timeouts_left s; fd := fd s;
     write_only := write_only s; default_termios := default_termios s;
     deferred_op_pending := deferred_op_pending s; termio_q := termio_q s;
     break_set := break_set s; last_modemstate := last_modemstate s;
     modemstate_mask := v;
     handling_modemstate := handling_modemstate s;
     sent_first_modemstate := sent_first_modemstate s |}.

Definition set_handling_modemstate (v : bool) (s : sterm_data) : sterm_data :=
  {| timer_stopped := timer_stopped s; open := open s;
     close_timeouts_left := close_timeouts_left s; fd := fd s;
     write_only := write_only s; default_termios := default_termios s;
     deferred_op_pending := deferred_op_pending s; termio_q := termio_q s;
     break_set := break_set s; last_modemstate := last_modemstate s;
     modemstate_mask := modemstate_mask s;
     handling_modemstate := v;
     sent_first_modemstate := sent_first_modemstate s |}.

Definition set_sent_first_modemstate (v : bool) (s : sterm_data) : sterm_data :=
  {| timer_stopped := timer_stopped s; open := open s;
     close_timeouts_left := close_timeouts_left s; fd := fd s;
     write_only := write_only s; default_termios := default_termios s;
     deferred_op_pending := deferred_op_pending s; termio_q := termio_q s;
     break_set := break_set s; last_modemstate := last_modemstate s;
     modemstate_mask := modemstate_mask s;
     handling_modemstate := handling_modemstate s;
     sent_first_modemstate := v |}.

(** ** Collaborators

    The calls the endpoint makes, as they appear in a trace.  In
    [act_gensio_cb_modemstate] the flag is the local variable [force_send]
    at the dispatch, kept so that a forced report can be told from an edge
    report; the consumer only receives [modemstate]. *)

Inductive action : Type :=
| act_zalloc (ok : bool)                (* o->zalloc of a queue entry *)
| act_free                              (* o->free of a queue entry *)
| act_run                               (* o->run(deferred_op_runner) *)
| act_tcgetattr
| act_tcsetattr (t : termios)
| act_TIOCMGET
| act_TIOCMSET (mctl : Z)
| act_TIOCSBRK
| act_TIOCCBRK
| act_TIOCOUTQ
| act_done (d : nat) (err val : Z) (data : Z)   (* qe->done(sio, err, val, data) *)
| act_start_timer (sec usec : Z)
| act_stop_timer
| act_stop_timer_with_done
| act_gensio_cb_modemstate (force_send : bool) (modemstate : Z)
| act_uucp_mk_lock
| act_uucp_rm_lock
| act_open (wronly : bool)
| act_close (closed_fd : Z).

(** What the collaborators answer during one call of the endpoint. *)

Record env : Type := {
  e_zalloc : bool;                      (* o->zalloc returned an entry *)
  e_tcgetattr : sysret termios;
  e_tcsetattr : sysret unit;
  e_TIOCMGET : sysret Z;
  e_TIOCMSET : sysret unit;
  e_BRK : sysret unit;                  (* ioctl TIOCSBRK or TIOCCBRK *)
  e_TIOCOUTQ : sysret Z;
  e_uucp_mk_lock : Z;                   (* its return value *)
  e_errno : positive;                   (* errno, uucp_mk_lock or open failing *)
  e_open : Z;                           (* the descriptor, or -1 *)
  e_stop_timer_with_done : Z
}.

(** ** The operation queue *)

Definition sterm_start_deferred_op (sdata : sterm_data)
  : sterm_data * list action :=
  if deferred_op_pending sdata then (sdata, [])
  else (set_deferred_op_pending true sdata, [act_run]).

(** The contents behind a pointer after an accessor returned. *)
Definition contents {A : Type} (before : A) (after : option A) : A :=
  match after with
  | Some a => a
  | None => before
  end.

(** The body of [if (val) { ... }] in [termios_set_get]: the synchronous
    set.  The result is the endpoint, [err], whether control left through
    [goto out_unlock], and the calls made; [None] when a NULL pointer is
    dereferenced or called. *)
Definition termios_set (sdata : sterm_data) (val : Z) (o : termio_op)
    (gs : option getset_t) (qe : option termio_op_q) (e : env)
  : option (sterm_data * Z * bool * list action) :=
  match o with
  | TERMIO_OP_TERMIO =>
      match e_tcgetattr e with
      | sys_err en => Some (sdata, Z.pos en, true, [act_tcgetattr])
      | sys_ok termio =>
          match gs with
          | None => None
          | Some f =>
              match f (Some termio) None val with
              | None => None
              | Some r =>
                  if nonzero (g_err r)
                  then Some (sdata, g_err r, true, [act_tcgetattr])
                  else Some (sdata, g_err r, false,
                             [act_tcgetattr;
                              act_tcsetattr (contents termio (g_termio r))])
              end
          end
      end
  | TERMIO_OP_MCTL =>
      match e_TIOCMGET e with
      | sys_err en => Some (sdata, Z.pos en, true, [act_TIOCMGET])
      | sys_ok mctl =>
          match qe with
          | None => None                (* qe->getset with qe == NULL *)
          | Some q =>
              match getset q with
              | None => None
              | Some f =>
                  match f None (Some mctl) val with
                  | None => None
                  | Some r =>
                      if nonzero (g_err r)
                      then Some (sdata, g_err r, true, [act_TIOCMGET])
                      else
                        let set := act_TIOCMSET (contents mctl (g_mctl r)) in
                        match e_TIOCMSET e with
                        | sys_err en =>
                            Some (sdata, Z.pos en, true, [act_TIOCMGET; set])
                        | sys_ok _ =>
                            Some (sdata, g_err r, false, [act_TIOCMGET; set])
                        end
                  end
              end
          end
      end
  | TERMIO_OP_BRK =>
      if val =? SERGENSIO_BREAK_ON then
        match e_BRK e with
        | sys_err en => Some (sdata, Z.pos en, true, [act_TIOCSBRK])
        | sys_ok _ => Some (set_break_set true sdata, 0, false, [act_TIOCSBRK])
        end
      else if val =? SERGENSIO_BREAK_OFF then
        match e_BRK e with
        | sys_err en => Some (sdata, Z.pos en, true, [act_TIOCCBRK])
        | sys_ok _ => Some (set_break_set false sdata, 0, false, [act_TIOCCBRK])
        end
      else Some (sdata, EINVAL, true, [])
  end.

(** [if (qe) { ... }]: append the entry, starting the runner when the queue
    was empty. *)
Definition termios_enqueue (sdata : sterm_data) (qe : option termio_op_q)
  : sterm_data * list action :=
  match qe with
  | None => (sdata, [])
  | Some q =>
      match termio_q sdata with
      | [] => sterm_start_deferred_op (set_termio_q [q] sdata)
      | _ :: _ => (set_termio_q (termio_q sdata ++ [q]) sdata, [])
      end
  end.

(** The label [out_unlock]. *)
Definition out_unlock (sdata : sterm_data) (err : Z)
    (qe : option termio_op_q) (acts : list action)
  : option (sterm_data * Z * list action) :=
  Some (sdata, err,
        acts ++ match qe with
                | Some _ => if nonzero err then [act_free] else []
                | None => []
                end).

Definition termios_set_get (sdata : sterm_data) (val : Z) (o : termio_op)
    (gs : option getset_t) (dn : option nat) (data : Z) (e : env)
  : option (sterm_data * Z * list action) :=
  if write_only sdata then Some (sdata, ENOTSUP, [])
  else
    match dn, e_zalloc e with
    | Some _, false => Some (sdata, ENOMEM, [act_zalloc false])
    | _, _ =>
        let qe :=
          match dn with
          | Some d => Some {| op := o; getset := gs; done := d;
                              cb_data := data |}
          | None => None
          end in
        let a0 := match dn with
                  | Some _ => [act_zalloc true]
                  | None => []
                  end in
        if negb (open sdata) then out_unlock sdata EBUSY qe a0
        else
          match (if nonzero val then termios_set sdata val o gs qe e
                 else Some (sdata, 0, false, [])) with
          | None => None
          | Some (sdata1, err, true, a1) => out_unlock sdata1 err qe (a0 ++ a1)
          | Some (sdata1, err, false, a1) =>
              let (sdata2, a2) := termios_enqueue sdata1 qe in
              out_unlock sdata2 err qe (a0 ++ a1 ++ a2)
          end
    end.

(** One iteration of the loop of [termios_process] on the entry [qe] that was
    just removed from the queue: [err], [val] and the calls made before the
    completion runs. *)
Definition termios_get (sdata : sterm_data) (qe : termio_op_q) (e : env)
  : option (Z * Z * list action) :=
  match op qe with
  | TERMIO_OP_TERMIO =>
      match e_tcgetattr e with
      | sys_err en => Some (Z.pos en, 0, [act_tcgetattr])
      | sys_ok termio =>
          match getset qe with
          | None => None
          | Some f =>
              match f (Some termio) None 0 with
              | None => None
              | Some r => Some (g_err r, g_val r, [act_tcgetattr])
              end
          end
      end
  | TERMIO_OP_MCTL =>
      match e_TIOCMGET e with
      | sys_err en => Some (Z.pos en, 0, [act_TIOCMGET])
      | sys_ok mctl =>
          match getset qe with
          | None => None
          | Some f =>
              match f None (Some mctl) 0 with
              | None => None
              | Some r => Some (g_err r, g_val r, [act_TIOCMGET])
              end
          end
      end
  | TERMIO_OP_BRK =>
      Some (0, if break_set sdata then SERGENSIO_BREAK_ON
               else SERGENSIO_BREAK_OFF, [])
  end.

(** The loop body with the completion and the release of the entry.  The
    endpoint lock is dropped around the completion: what the completion
    calls on the endpoint happens after this step. *)
Definition termios_process_one (sdata : sterm_data) (e : env)
  : option (sterm_data * list action) :=
  match termio_q sdata with
  | [] => Some (sdata, [])
  | qe :: next =>
      let sdata1 := set_termio_q next sdata in
      match termios_get sdata1 qe e with
      | None => None
      | Some (err, val, acts) =>
          Some (sdata1, acts ++ [act_done (done qe) err val (cb_data qe);
                                 act_free])
      end
  end.

(** [termios_process] when no completion calls back into the endpoint: the
    loop runs over the entries queued at entry; [os i] is what the OS answers
    in iteration [i]. *)
Fixpoint termios_process_q (q : list termio_op_q) (sdata : sterm_data)
    (os : nat -> env) : option (sterm_data * list action) :=
  match q with
  | [] => Some (sdata, [])
  | _ :: next =>
      match termios_process_one sdata (os 0%nat) with
      | None => None
      | Some (sdata1, a1) =>
          match termios_process_q next sdata1 (fun i => os (S i)) with
          | None => None
          | Some (sdata2, a2) => Some (sdata2, a1 ++ a2)
          end
      end
  end.

Definition termios_process (sdata : sterm_data) (os : nat -> env)
  : option (sterm_data * list action) :=
  termios_process_q (termio_q sdata) sdata os.

(** [sterm_deferred_op]: [termios_process] returns with an empty queue, so
    the jump to [restart] is not taken. *)
Definition sterm_deferred_op (sdata : sterm_data) (os : nat -> env)
  : option (sterm_data * list action) :=
  match termios_process sdata os with
  | None => None
  | Some (sdata1, acts) => Some (set_deferred_op_pending false sdata1, acts)
  end.

(** ** The modem-state poller *)

(** The word composed from the sampled lines: bit 7 CD, 6 RI, 5 DSR,
    4 CTS. *)
Definition sampled_levels (val : Z) : Z :=
  let modemstate := 0 in
  let modemstate := if nonzero (Z.land val TIOCM_CD)
                    then Z.lor modemstate 0x80 else modemstate in
  let modemstate := if nonzero (Z.land val TIOCM_RI)
                    then Z.lor modemstate 0x40 else modemstate in
  let modemstate := if nonzero (Z.land val TIOCM_DSR)
                    then Z.lor modemstate 0x20 else modemstate in
  let modemstate := if nonzero (Z.land val TIOCM_CTS)
                    then Z.lor modemstate 0x10 else modemstate in
  modemstate.

Definition termios_timeout (sdata : sterm_data) (e : env)
  : sterm_data * list action :=
  if handling_modemstate sdata then (sdata, [])
  else
    let sdata := set_handling_modemstate true sdata in
    match e_TIOCMGET e with
    | sys_err _ => (sdata, [act_TIOCMGET])
    | sys_ok val =>
        let modemstate := sampled_levels val in
        (* Bits for things that changed. *)
        let modemstate :=
          Z.lor modemstate
                (Z.shiftr (Z.lxor modemstate (last_modemstate sdata)) 4) in
        let sdata :=
          set_last_modemstate (Z.land modemstate (modemstate_mask sdata))
                              sdata in
        let modemstate := Z.land modemstate (last_modemstate sdata) in
        let force_send := negb (sent_first_modemstate sdata) in
        let sdata := set_sent_first_modemstate true sdata in
        let report :=
          if force_send || nonzero (Z.land modemstate 0xf)
          then [act_gensio_cb_modemstate force_send modemstate] else [] in
        let restart :=
          if nonzero (modemstate_mask sdata)
          then [act_start_timer 1 0] else [] in
        (set_handling_modemstate false sdata,
         [act_TIOCMGET] ++ report ++ restart)
    end.

Definition sterm_modemstate (sdata : sterm_data) (val : Z)
  : sterm_data * Z * list action :=
  let sdata := set_modemstate_mask val sdata in
  (sdata, 0,
   if nonzero (modemstate_mask sdata)
   then [act_start_timer 0 1] else [act_stop_timer]).

(** ** Life cycle *)

Definition sterm_timer_stopped (sdata : sterm_data) : sterm_data :=
  set_timer_stopped true sdata.

Inductive gensio_ll_close_state : Type :=
| GENSIO_LL_CLOSE_STATE_START
| GENSIO_LL_CLOSE_STATE_DONE.

(** The labels [out_rm_uucp] and [out_eagain]; the third component is what
    is written to [next_timeout] (seconds, microseconds). *)
Definition out_rm_uucp (sdata : sterm_data) (err : Z)
    (next_timeout : option (Z * Z)) (acts : list action)
  : sterm_data * Z * option (Z * Z) * list action :=
  (sdata, err, next_timeout,
   acts ++ if nonzero err then [] else [act_uucp_rm_lock]).

Definition out_eagain (sdata : sterm_data) (acts : list action)
  : sterm_data * Z * option (Z * Z) * list action :=
  out_rm_uucp sdata EAGAIN (Some (0, 10000)) acts.

Definition sterm_check_close_drain (sdata : sterm_data)
    (state : gensio_ll_close_state) (e : env)
  : sterm_data * Z * option (Z * Z) * list action :=
  match state with
  | GENSIO_LL_CLOSE_STATE_START =>
      let sdata := set_open false sdata in
      (* FIXME - this should be calculated. *)
      let sdata := set_close_timeouts_left 200 sdata in
      let rv := e_stop_timer_with_done e in
      let sdata := if nonzero rv then set_timer_stopped true sdata
                   else sdata in
      (sdata, 0, None, [act_stop_timer_with_done])
  | GENSIO_LL_CLOSE_STATE_DONE =>
      let sdata := set_open false sdata in
      match termio_q sdata with
      | _ :: _ => out_eagain sdata []
      | [] =>
          if negb (timer_stopped sdata) then out_eagain sdata []
          else
            match e_TIOCOUTQ e with
            | sys_err _ => out_rm_uucp sdata 0 None [act_TIOCOUTQ]
            | sys_ok count =>
                if count =? 0 then out_rm_uucp sdata 0 None [act_TIOCOUTQ]
                else
                  let sdata :=
                    set_close_timeouts_left
                      ((close_timeouts_left sdata - 1) mod 2 ^ 32) sdata in
                  if close_timeouts_left sdata =? 0
                  then out_rm_uucp sdata 0 None [act_TIOCOUTQ]
                  else out_eagain sdata [act_TIOCOUTQ]
            end
      end
  end.

(** The labels [out] and [out_uucp] of [sterm_sub_open]. *)
Definition sub_open_out (sdata : sterm_data) (err : Z) (acts : list action)
  : sterm_data * Z * list action :=
  if fd sdata =? -1 then (sdata, err, acts)
  else (set_fd (-1) sdata, err, acts ++ [act_close (fd sdata)]).

Definition sub_open_out_uucp (sdata : sterm_data) (err : Z)
    (acts : list action) : sterm_data * Z * list action :=
  sub_open_out sdata err (acts ++ [act_uucp_rm_lock]).

Definition sterm_sub_open (sdata : sterm_data) (e : env)
  : sterm_data * Z * list action :=
  let err := e_uucp_mk_lock e in
  if err >? 0 then sub_open_out sdata EBUSY [act_uucp_mk_lock]
  else if err <? 0
  then sub_open_out sdata (Z.pos (e_errno e)) [act_uucp_mk_lock]
  else
    let sdata := set_timer_stopped false sdata in
    let a0 := [act_uucp_mk_lock; act_open (write_only sdata)] in
    let sdata := set_fd (e_open e) sdata in
    if fd sdata =? -1 then sub_open_out_uucp sdata (Z.pos (e_errno e)) a0
    else
      let a1 := if write_only sdata then a0
                else a0 ++ [act_tcsetattr (default_termios sdata)] in
      match (if write_only sdata then sys_ok tt else e_tcsetattr e) with
      | sys_err en => sub_open_out_uucp sdata (Z.pos en) a1
      | sys_ok _ =>
          let a2 := a1 ++ [act_TIOCCBRK] in
          let sdata := set_open true sdata in
          let sdata := set_sent_first_modemstate false sdata in
          if write_only sdata then (sdata, 0, a2)
          else
            let '(sdata, _, a3) := sterm_modemstate sdata 255 in
            (sdata, 0, a2 ++ a3)
      end.

(** ** Sequences of calls

    The entry points of the endpoint as the framework and the user call
    them, each with what the collaborators answer during the call. *)

Inductive call : Type :=
| c_sub_open (e : env)
| c_check_close (state : gensio_ll_close_state) (e : env)
| c_timer_stopped
| c_set_get (val : Z) (o : termio_op) (gs : option getset_t)
            (dn : option nat) (data : Z) (e : env)
| c_process_one (e : env)
| c_deferred_op (os : nat -> env)
| c_modemstate (val : Z)
| c_timeout (e : env).

(** The returned value (0 for the [void] functions) and the calls made. *)
Definition do_call (sdata : sterm_data) (c : call)
  : option (sterm_data * (Z * list action)) :=
  match c with
  | c_sub_open e =>
      let '(sdata1, err, acts) := sterm_sub_open sdata e in
      Some (sdata1, (err, acts))
  | c_check_close state e =>
      let '(sdata1, err, _, acts) := sterm_check_close_drain sdata state e in
      Some (sdata1, (err, acts))
  | c_timer_stopped => Some (sterm_timer_stopped sdata, (0, []))
  | c_set_get val o gs dn data e =>
      match termios_set_get sdata val o gs dn data e with
      | None => None
      | Some (sdata1, err, acts) => Some (sdata1, (err, acts))
      end
  | c_process_one e =>
      match termios_process_one sdata e with
      | None => None
      | Some (sdata1, acts) => Some (sdata1, (0, acts))
      end
  | c_deferred_op os =>
      match sterm_deferred_op sdata os with
      | None => None
      | Some (sdata1, acts) => Some (sdata1, (0, acts))
      end
  | c_modemstate val =>
      let '(sdata1, err, acts) := sterm_modemstate sdata val in
      Some (sdata1, (err, acts))
  | c_timeout e =>
      let (sdata1, acts) := termios_timeout sdata e in
      Some (sdata1, (0, acts))
  end.

(** The endpoint after a sequence of calls and what each call returned and
    did; [None] when a call dereferences NULL. *)
Fixpoint run (sdata : sterm_data) (cs : list call)
  : option (sterm_data * list (Z * list action)) :=
  match cs with
  | [] => Some (sdata, [])
  | c :: cs' =>
      match do_call sdata c with
      | None => None
      | Some (sdata1, out) =>
          match run sdata1 cs' with
          | None => None
          | Some (sdata2, outs) => Some (sdata2, out :: outs)
          end
      end
  end.

(** Observations on a trace. *)
Definition is_modemstate_event (a : action) : bool :=
  match a with
  | act_gensio_cb_modemstate _ _ => true
  | _ => false
  end.


Definition is_start_timer (a : action) : bool :=
  match a with
  | act_start_timer _ _ => true
  | _ => false
  end.

Definition is_zalloc (a : action) : bool :=
  match a with
  | act_zalloc _ => true
  | _ => false
  end.

(** Calls on the device or the lock file. *)
Definition is_os_action (a : action) : bool :=
  match a with
  | act_tcgetattr | act_tcsetattr _ | act_TIOCMGET | act_TIOCMSET _
  | act_TIOCSBRK | act_TIOCCBRK | act_TIOCOUTQ | act_uucp_mk_lock
  | act_uucp_rm_lock | act_open _ | act_close _ => true
  | _ => false
  end.

Definition is_uucp_rm_lock (a : action) : bool :=
  match a with
  | act_uucp_rm_lock => true
  | _ => false
  end.

Definition all_actions (outs : list (Z * list action)) : list action :=
  flat_map snd outs.

Definition count_actions (f : action -> bool) (acts : list action) : nat :=
  length (filter f acts).

Definition events_per_call (outs : list (Z * list action)) : list nat :=
  map (fun out => count_actions is_modemstate_event (snd out)) outs.

(** The poll of the modem lines succeeds. *)
Definition sampled (e : env) : Prop :=
  exists val, e_TIOCMGET e = sys_ok val.



(** The CTS line as the poll of [e] sees it. *)
Definition cts_level (e : env) : bool :=
  match e_TIOCMGET e with
  | sys_ok val => nonzero (Z.land val TIOCM_CTS)
  | sys_err _ => false
  end.

(** For a sequence of levels of a line, starting from the level [prev]:
    1 where the level differs from the one before it, else 0. *)
Fixpoint edge_marks (prev : bool) (levels : list bool) : list nat :=
  match levels with
  | [] => []
  | l :: ls => (if xorb prev l then 1%nat else 0%nat) :: edge_marks l ls
  end.

(** What the poll of a draining endpoint decides on. *)
Definition drain_complete (sdata : sterm_data) (e : env) : bool :=
  match termio_q sdata with
  | [] =>
      timer_stopped sdata &&
      match e_TIOCOUTQ e with
      | sys_err _ => true
      | sys_ok count =>
          (count =? 0) || ((close_timeouts_left sdata - 1) mod 2 ^ 32 =? 0)
      end
  | _ :: _ => false
  end.

(** The poll of the output queue finds bytes waiting. *)
Definition output_pending (e : env) : Prop :=
  exists count, e_TIOCOUTQ e = sys_ok count /\ count <> 0.

(** The BREAK latch the caller expects after the call [c] returned [ret]
    when it was [b] before: a successful BREAK set replaces it. *)
Definition break_after (b : bool) (c : call) (ret : Z) : bool :=
  match c with
  | c_set_get val TERMIO_OP_BRK _ _ _ _ =>
      if nonzero val && (ret =? 0) then
        if val =? SERGENSIO_BREAK_ON then true
        else if val =? SERGENSIO_BREAK_OFF then false
        else b
      else b
  | _ => b
  end.

Fixpoint last_break_set (b : bool) (cs : list call)
    (outs : list (Z * list action)) : bool :=
  match cs, outs with
  | c :: cs', out :: outs' => last_break_set (break_after b c (fst out)) cs' outs'
  | _, _ => b
  end.

Definition is_tick (c : call) : bool :=
  match c with
  | c_timeout _ => true
  | _ => false
  end.

(** The error numbers are not zero. *)
Definition errno_nonzero : Prop :=
  ENOTSUP <> 0 /\ ENOMEM <> 0 /\ EBUSY <> 0 /\ EINVAL <> 0 /\ EAGAIN <> 0.

(** ON and OFF are set values, and differ. *)
Definition break_values_ok : Prop :=
  SERGENSIO_BREAK_ON <> 0 /\ SERGENSIO_BREAK_OFF <> 0 /\
  SERGENSIO_BREAK_ON <> SERGENSIO_BREAK_OFF.

Definition is_brk (qe : termio_op_q) : Prop := op qe = TERMIO_OP_BRK.

(** What the runner reports for a queue of BREAK entries. *)
Definition brk_completions (b : bool) (q : list termio_op_q) : list action :=
  flat_map (fun qe =>
              [act_done (done qe) 0
                        (if b then SERGENSIO_BREAK_ON else SERGENSIO_BREAK_OFF)
                        (cb_data qe);
               act_free]) q.

End Endpoint.

(** ** Concrete endpoints and answers (Linux values) *)

Definition raw_9600 : linux_termios :=
  {| c_iflag := 1; c_oflag := 0; c_cflag := 0xbd; c_lflag := 0;
     c_ispeed := 13; c_ospeed := 13 |}.

(** The endpoint as [termios_gensio_alloc] leaves it: zeroed, no
    descriptor. *)
Definition sdata_alloc : sterm_data :=
  {| timer_stopped := false; open := false; close_timeouts_left := 0;
     fd := -1; write_only := false; default_termios := raw_9600;
     deferred_op_pending := false; termio_q := []; break_set := false;
     last_modemstate := 0; modemstate_mask := 0;
     handling_modemstate := false; sent_first_modemstate := false |}.

(** Every collaborator succeeds; the modem lines read [mctl]; [outq] bytes
    wait in the output queue. *)
Definition env_ok (mctl outq : Z) : env :=
  {| e_zalloc := true; e_tcgetattr := sys_ok raw_9600;
     e_tcsetattr := sys_ok tt; e_TIOCMGET := sys_ok mctl;
     e_TIOCMSET := sys_ok tt; e_BRK := sys_ok tt;
     e_TIOCOUTQ := sys_ok outq; e_uucp_mk_lock := 0; e_errno := 5%positive;
     e_open := 3; e_stop_timer_with_done := 0 |}.

(** As [env_ok], but the ioctls TIOCMGET and TIOCOUTQ fail with EIO. *)
Definition env_ioctl_fails : env :=
  {| e_zalloc := true; e_tcgetattr := sys_ok raw_9600;
     e_tcsetattr := sys_ok tt; e_TIOCMGET := sys_err 5%positive;
     e_TIOCMSET := sys_ok tt; e_BRK := sys_ok tt;
     e_TIOCOUTQ := sys_err 5%positive; e_uucp_mk_lock := 0;
     e_errno := 5%positive; e_open := 3; e_stop_timer_with_done := 0 |}.

(** The endpoint after a first successful open. *)
Definition sdata_open : sterm_data :=
  fst (fst (sterm_sub_open sdata_alloc (env_ok 0 0))).

(** The open endpoint after the first tick, which sent the forced report
    with all lines low. *)
Definition sdata_reported : sterm_data :=
  fst (termios_timeout sdata_open (env_ok 0 0)).

(** ... and after a subscription with [mask]. *)
Definition sdata_subscribed (mask : Z) : sterm_data :=
  fst (fst (sterm_modemstate sdata_reported mask)).

(** The open endpoint after a tick that saw CTS high under the mask 0xFF of
    the open: the stored word is 0x11. *)
Definition sdata_cts_high : sterm_data :=
  fst (termios_timeout sdata_open (env_ok 0x20 0)).

(** ... then subscribed to the CTS change bit alone. *)
Definition sdata_cts_change_only : sterm_data :=
  fst (fst (sterm_modemstate sdata_cts_high 0x01)).

(** ... then, after a tick under that mask with CTS still high (which
    stores 0), subscribed to the CTS level and change bits: the stored
    word says CTS is low while the line is high. *)
Definition sdata_cts_resubscribed : sterm_data :=
  fst (fst (sterm_modemstate
              (fst (termios_timeout sdata_cts_change_only (env_ok 0x20 0)))
              0x11)).

(** Three polls: CTS raised, then CD raised, then CTS dropped. *)
Definition cts_cd_polls : list env :=
  [env_ok 0x20 0; env_ok 0x60 0; env_ok 0x40 0].

(** The endpoint after the close request, the timer having reported
    stopped. *)
Definition sdata_draining : sterm_data :=
  sterm_timer_stopped
    (fst (fst (fst (sterm_check_close_drain sdata_open
                      GENSIO_LL_CLOSE_STATE_START (env_ok 0 0))))).

(** Open, latch BREAK, close. *)
Definition break_then_close : list call :=
  [c_sub_open (env_ok 0 0);
   c_set_get SERGENSIO_BREAK_ON TERMIO_OP_BRK None None 0 (env_ok 0 0);
   c_check_close GENSIO_LL_CLOSE_STATE_START (env_ok 0 0);
   c_timer_stopped;
   c_check_close GENSIO_LL_CLOSE_STATE_DONE (env_ok 0 0)].

Definition sdata_closed_in_break : sterm_data :=
  match run sdata_alloc break_then_close with
  | Some (sdata, _) => sdata
  | None => sdata_alloc
  end.

(** * The termios adapter and the control operations

    The accessors of the line settings, the entry points built on them and
    the dispatcher [sergensio_sterm_func]. *)

(** What [<termios.h>], [gensio/sergensio.h] and [utils/utils.h] provide
    beyond [Platform]: the [c_cflag] member of [struct termios] (a
    [tcflag_t], unsigned, its bit operations stay within its width), the
    flag and action constants, the speed functions and the baud-rate tables
    of utils. *)
Class TermiosPlatform {P : Platform} : Type := {
  tio_cflag : termios -> Z;                     (* termio->c_cflag *)
  tio_set_cflag : Z -> termios -> termios;      (* termio->c_cflag = v *)
  tio_cflag_set : forall v t, tio_cflag (tio_set_cflag v t) = v;
  cfgetispeed : termios -> Z;
  cfsetispeed : Z -> termios -> termios;
  cfsetospeed : Z -> termios -> termios;
  (* get_baud_rate(rate, &val): the speed code, None when it returns 0 *)
  get_baud_rate : Z -> option Z;
  (* get_rate_from_baud_rate(speed, ival): what it leaves in *ival *)
  get_rate_from_baud_rate : Z -> Z -> Z;
  CSIZE : Z;
  CS5 : Z;
  CS6 : Z;
  CS7 : Z;
  CS8 : Z;
  CSTOPB : Z;
  PARENB : Z;
  PARODD : Z;
  CMSPAR : option Z;                            (* None: not defined *)
  CRTSCTS : Z;
  IXON : Z;
  IXOFF : Z;
  TCOOFF : Z;
  TCOON : Z;
  TCIFLUSH : Z;
  TCOFLUSH : Z;
  TCIOFLUSH : Z;
  SERGENSIO_PARITY_NONE : Z;
  SERGENSIO_PARITY_ODD : Z;
  SERGENSIO_PARITY_EVEN : Z;
  SERGENSIO_PARITY_MARK : Z;
  SERGENSIO_PARITY_SPACE : Z;
  SERGENSIO_FLOWCONTROL_NONE : Z;
  SERGENSIO_FLOWCONTROL_XON_XOFF : Z;
  SERGENSIO_FLOWCONTROL_RTS_CTS : Z;
  SERGIO_FLUSH_RCV_BUFFER : Z;
  SERGIO_FLUSH_XMIT_BUFFER : Z;
  SERGIO_FLUSH_RCV_XMIT_BUFFERS : Z
}.

(** The Linux values; of the baud-rate tables of utils only the rows of
    9600 and 115200. *)
Definition linux_set_cflag (v : Z) (t : linux_termios) : linux_termios :=
  {| c_iflag := c_iflag t; c_oflag := c_oflag t; c_cflag := v;
     c_lflag := c_lflag t; c_ispeed := c_ispeed t; c_ospeed := c_ospeed t |}.

(** The speed functions of the C library (glibc up to 2.41,
    sysdeps/unix/sysv/linux/speed.c).  The speed code lives in the CBAUD and
    CBAUDEX bits of [c_cflag]; [c_ispeed] and [c_ospeed] are written along
    with it; an input speed of 0 ("as the output speed") is recorded in the
    bit IBAUD0 of [c_iflag]; a speed that is no speed code is refused and
    the termios left as it was (the callers here ignore the result). *)
Definition linux_CBAUD : Z := 0x100F.
Definition linux_CBAUDEX : Z := 0x1000.
Definition linux_IBAUD0 : Z := 0x80000000.
Definition linux_B57600 : Z := 0x1001.
Definition linux_MAX_BAUD : Z := 0x100F.

(** [(speed & ~CBAUD) != 0 && (speed < B57600 || speed > __MAX_BAUD)]
    does not hold. *)
Definition linux_speed_ok (speed : Z) : bool :=
  negb (nonzero (Z.land speed (Z.lnot linux_CBAUD))
        && ((speed <? linux_B57600) || (speed >? linux_MAX_BAUD))).

(** [c_cflag &= ~(CBAUD | CBAUDEX); c_cflag |= speed]. *)
Definition linux_speed_cflag (speed : Z) (t : linux_termios) : Z :=
  Z.lor (Z.land (c_cflag t) (Z.lnot (Z.lor linux_CBAUD linux_CBAUDEX))) speed.

Definition linux_cfgetispeed (t : linux_termios) : Z :=
  if nonzero (Z.land (c_iflag t) linux_IBAUD0) then 0
  else Z.land (c_cflag t) (Z.lor linux_CBAUD linux_CBAUDEX).

Definition linux_cfsetispeed (speed : Z) (t : linux_termios)
  : linux_termios :=
  if linux_speed_ok speed then
    if speed =? 0 then
      {| c_iflag := Z.lor (c_iflag t) linux_IBAUD0; c_oflag := c_oflag t;
         c_cflag := c_cflag t; c_lflag := c_lflag t;
         c_ispeed := c_ispeed t; c_ospeed := c_ospeed t |}
    else
      {| c_iflag := Z.land (c_iflag t) (Z.lnot linux_IBAUD0);
         c_oflag := c_oflag t; c_cflag := linux_speed_cflag speed t;
         c_lflag := c_lflag t; c_ispeed := speed; c_ospeed := c_ospeed t |}
  else t.

Definition linux_cfsetospeed (speed : Z) (t : linux_termios)
  : linux_termios :=
  if linux_speed_ok speed then
    {| c_iflag := c_iflag t; c_oflag := c_oflag t;
       c_cflag := linux_speed_cflag speed t; c_lflag := c_lflag t;
       c_ispeed := c_ispeed t; c_ospeed := speed |}
  else t.

#[export] Instance linux_termios_platform : TermiosPlatform (P := linux) := {|
  tio_cflag := c_cflag;
  tio_set_cflag := linux_set_cflag;
  tio_cflag_set := fun _ _ => eq_refl;
  cfgetispeed := linux_cfgetispeed;
  cfsetispeed := linux_cfsetispeed;
  cfsetospeed := linux_cfsetospeed;
  get_baud_rate := fun rate =>
    if rate =? 9600 then Some 13
    else if rate =? 115200 then Some 0x1002 else None;
  get_rate_from_baud_rate := fun speed ival =>
    if speed =? 13 then 9600
    else if speed =? 0x1002 then 115200 else ival;
  CSIZE := 0x30;
  CS5 := 0x00;
  CS6 := 0x10;
  CS7 := 0x20;
  CS8 := 0x30;
  CSTOPB := 0x40;
  PARENB := 0x100;
  PARODD := 0x200;
  CMSPAR := Some 0x40000000;
  CRTSCTS := 0x80000000;
  IXON := 0x400;
  IXOFF := 0x1000;
  TCOOFF := 0;
  TCOON := 1;
  TCIFLUSH := 0;
  TCOFLUSH := 1;
  TCIOFLUSH := 2;
  SERGENSIO_PARITY_NONE := 1;
  SERGENSIO_PARITY_ODD := 2;
  SERGENSIO_PARITY_EVEN := 3;
  SERGENSIO_PARITY_MARK := 4;
  SERGENSIO_PARITY_SPACE := 5;
  SERGENSIO_FLOWCONTROL_NONE := 1;
  SERGENSIO_FLOWCONTROL_XON_XOFF := 2;
  SERGENSIO_FLOWCONTROL_RTS_CTS := 3;
  SERGIO_FLUSH_RCV_BUFFER := 1;
  SERGIO_FLUSH_XMIT_BUFFER := 2;
  SERGIO_FLUSH_RCV_XMIT_BUFFERS := 3
|}.

(** The same values under headers that do not define CMSPAR. *)
Definition linux_termios_no_cmspar : TermiosPlatform (P := linux) := {|
  tio_cflag := c_cflag;
  tio_set_cflag := linux_set_cflag;
  tio_cflag_set := fun _ _ => eq_refl;
  cfgetispeed := linux_cfgetispeed;
  cfsetispeed := linux_cfsetispeed;
  cfsetospeed := linux_cfsetospeed;
  get_baud_rate := get_baud_rate (TermiosPlatform := linux_termios_platform);
  get_rate_from_baud_rate :=
    get_rate_from_baud_rate (TermiosPlatform := linux_termios_platform);
  CSIZE := 0x30;
  CS5 := 0x00;
  CS6 := 0x10;
  CS7 := 0x20;
  CS8 := 0x30;
  CSTOPB := 0x40;
  PARENB := 0x100;
  PARODD := 0x200;
  CMSPAR := None;
  CRTSCTS := 0x80000000;
  IXON := 0x400;
  IXOFF := 0x1000;
  TCOOFF := 0;
  TCOON := 1;
  TCIFLUSH := 0;
  TCOFLUSH := 1;
  TCIOFLUSH := 2;
  SERGENSIO_PARITY_NONE := 1;
  SERGENSIO_PARITY_ODD := 2;
  SERGENSIO_PARITY_EVEN := 3;
  SERGENSIO_PARITY_MARK := 4;
  SERGENSIO_PARITY_SPACE := 5;
  SERGENSIO_FLOWCONTROL_NONE := 1;
  SERGENSIO_FLOWCONTROL_XON_XOFF := 2;
  SERGENSIO_FLOWCONTROL_RTS_CTS := 3;
  SERGIO_FLUSH_RCV_BUFFER := 1;
  SERGIO_FLUSH_XMIT_BUFFER := 2;
  SERGIO_FLUSH_RCV_XMIT_BUFFERS := 3
|}.

Section Adapter.
Context {P : Platform} {T : TermiosPlatform}.

(** The result of an accessor that returns [err] with the pointed-to
    contents as given. *)
Definition getset_ret (err : Z) (termio : option termios) (mctl : option Z)
    (ival : Z) : option getset_out :=
  Some {| g_err := err; g_termio := termio; g_mctl := mctl; g_val := ival |}.

(** [termio->c_cflag &= ~clear; termio->c_cflag |= set]. *)
Definition cflag_replace (clear set : Z) (t : termios) : termios :=
  let t := tio_set_cflag (Z.land (tio_cflag t) (Z.lnot clear)) t in
  tio_set_cflag (Z.lor (tio_cflag t) set) t.

Definition termios_get_set_baud : getset_t :=
  fun termio mctl ival =>
    let val := ival in
    if nonzero val then
      match get_baud_rate val with
      | None => getset_ret EINVAL termio mctl ival
      | Some val =>
          match termio with
          | None => None
          | Some t =>
              getset_ret 0 (Some (cfsetospeed val (cfsetispeed val t))) mctl
                         ival
          end
      end
    else
      match termio with
      | None => None
      | Some t =>
          getset_ret 0 termio mctl
                     (get_rate_from_baud_rate (cfgetispeed t) ival)
      end.

Definition termios_get_set_datasize : getset_t :=
  fun termio mctl ival =>
    if nonzero ival then
      match (if ival =? 5 then Some CS5
             else if ival =? 6 then Some CS6
             else if ival =? 7 then Some CS7
             else if ival =? 8 then Some CS8
             else None) with
      | None => getset_ret EINVAL termio mctl ival
      | Some val =>
          match termio with
          | None => None
          | Some t => getset_ret 0 (Some (cflag_replace CSIZE val t)) mctl ival
          end
      end
    else
      match termio with
      | None => None
      | Some t =>
          let size := Z.land (tio_cflag t) CSIZE in
          if size =? CS5 then getset_ret 0 termio mctl 5
          else if size =? CS6 then getset_ret 0 termio mctl 6
          else if size =? CS7 then getset_ret 0 termio mctl 7
          else if size =? CS8 then getset_ret 0 termio mctl 8
          else getset_ret EINVAL termio mctl ival
      end.

(** The [switch] of the parity set; the MARK and SPACE cases exist when
    CMSPAR is defined. *)
Definition parity_flags (ival : Z) : option Z :=
  if ival =? SERGENSIO_PARITY_NONE then Some 0
  else if ival =? SERGENSIO_PARITY_ODD then Some (Z.lor PARENB PARODD)
  else if ival =? SERGENSIO_PARITY_EVEN then Some PARENB
  else
    match CMSPAR with
    | Some cmspar =>
        if ival =? SERGENSIO_PARITY_MARK
        then Some (Z.lor (Z.lor PARENB PARODD) cmspar)
        else if ival =? SERGENSIO_PARITY_SPACE then Some (Z.lor PARENB cmspar)
        else None
    | None => None
    end.

Definition termios_get_set_parity : getset_t :=
  fun termio mctl ival =>
    if nonzero ival then
      match parity_flags ival with
      | None => getset_ret EINVAL termio mctl ival
      | Some val =>
          match termio with
          | None => None
          | Some t =>
              let t := tio_set_cflag
                         (Z.land (tio_cflag t) (Z.lnot (Z.lor PARENB PARODD)))
                         t in
              let t := match CMSPAR with
                       | Some cmspar =>
                           tio_set_cflag
                             (Z.land (tio_cflag t) (Z.lnot cmspar)) t
                       | None => t
                       end in
              let t := tio_set_cflag (Z.lor (tio_cflag t) val) t in
              getset_ret 0 (Some t) mctl ival
          end
      end
    else
      match termio with
      | None => None
      | Some t =>
          let has_cmspar :=
            match CMSPAR with
            | Some cmspar => nonzero (Z.land (tio_cflag t) cmspar)
            | None => false
            end in
          if negb (nonzero (Z.land (tio_cflag t) PARENB))
          then getset_ret 0 termio mctl SERGENSIO_PARITY_NONE
          else if nonzero (Z.land (tio_cflag t) PARODD) then
            if has_cmspar then getset_ret 0 termio mctl SERGENSIO_PARITY_MARK
            else getset_ret 0 termio mctl SERGENSIO_PARITY_ODD
          else
            if has_cmspar then getset_ret 0 termio mctl SERGENSIO_PARITY_SPACE
            else getset_ret 0 termio mctl SERGENSIO_PARITY_EVEN
      end.

Definition termios_get_set_stopbits : getset_t :=
  fun termio mctl ival =>
    if nonzero ival then
      if ival =? 1 then
        match termio with
        | None => None
        | Some t =>
            getset_ret 0
              (Some (tio_set_cflag (Z.land (tio_cflag t) (Z.lnot CSTOPB)) t))
              mctl ival
        end
      else if ival =? 2 then
        match termio with
        | None => None
        | Some t =>
            getset_ret 0 (Some (tio_set_cflag (Z.lor (tio_cflag t) CSTOPB) t))
                       mctl ival
        end
      else getset_ret EINVAL termio mctl ival
    else
      match termio with
      | None => None
      | Some t =>
          if nonzero (Z.land (tio_cflag t) CSTOPB)
          then getset_ret 0 termio mctl 2
          else getset_ret 0 termio mctl 1
      end.

Definition termios_get_set_flowcontrol : getset_t :=
  fun termio mctl ival =>
    if nonzero ival then
      match (if ival =? SERGENSIO_FLOWCONTROL_NONE then Some 0
             else if ival =? SERGENSIO_FLOWCONTROL_XON_XOFF
             then Some (Z.lor IXON IXOFF)
             else if ival =? SERGENSIO_FLOWCONTROL_RTS_CTS then Some CRTSCTS
             else None) with
      | None => getset_ret EINVAL termio mctl ival
      | Some val =>
          match termio with
          | None => None
          | Some t =>
              getset_ret 0
                (Some (cflag_replace (Z.lor (Z.lor IXON IXOFF) CRTSCTS) val t))
                mctl ival
          end
      end
    else
      match termio with
      | None => None
      | Some t =>
          if nonzero (Z.land (tio_cflag t) CRTSCTS)
          then getset_ret 0 termio mctl SERGENSIO_FLOWCONTROL_RTS_CTS
          else if nonzero (Z.land (tio_cflag t) (Z.lor IXON IXOFF))
          then getset_ret 0 termio mctl SERGENSIO_FLOWCONTROL_XON_XOFF
          else getset_ret 0 termio mctl SERGENSIO_FLOWCONTROL_NONE
      end.

Definition termios_get_set_iflowcontrol : getset_t :=
  fun termio mctl ival =>
    if nonzero ival then
      (* We can only independently set XON/XOFF. *)
      match (if ival =? SERGENSIO_FLOWCONTROL_NONE then Some 0
             else if ival =? SERGENSIO_FLOWCONTROL_XON_XOFF then Some IXOFF
             else None) with
      | None => getset_ret EINVAL termio mctl ival
      | Some val =>
          match termio with
          | None => None
          | Some t => getset_ret 0 (Some (cflag_replace IXOFF val t)) mctl ival
          end
      end
    else
      match termio with
      | None => None
      | Some t =>
          if nonzero (Z.land (tio_cflag t) IXOFF)
          then getset_ret 0 termio mctl SERGENSIO_FLOWCONTROL_XON_XOFF
          else getset_ret 0 termio mctl SERGENSIO_FLOWCONTROL_NONE
      end.

(** ** The entry points behind the dispatcher *)

Definition sterm_baud (sdata : sterm_data) (baud : Z) (dn : option nat)
    (data : Z) (e : env) :=
  termios_set_get sdata baud TERMIO_OP_TERMIO (Some termios_get_set_baud)
                  dn data e.

Definition sterm_datasize (sdata : sterm_data) (datasize : Z)
    (dn : option nat) (data : Z) (e : env) :=
  termios_set_get sdata datasize TERMIO_OP_TERMIO
                  (Some termios_get_set_datasize) dn data e.

Definition sterm_parity (sdata : sterm_data) (parity : Z) (dn : option nat)
    (data : Z) (e : env) :=
  termios_set_get sdata parity TERMIO_OP_TERMIO (Some termios_get_set_parity)
                  dn data e.

Definition sterm_stopbits (sdata : sterm_data) (stopbits : Z)
    (dn : option nat) (data : Z) (e : env) :=
  termios_set_get sdata stopbits TERMIO_OP_TERMIO
                  (Some termios_get_set_stopbits) dn data e.

Definition sterm_flowcontrol (sdata : sterm_data) (flowcontrol : Z)
    (dn : option nat) (data : Z) (e : env) :=
  termios_set_get sdata flowcontrol TERMIO_OP_TERMIO
                  (Some termios_get_set_flowcontrol) dn data e.

Definition sterm_iflowcontrol (sdata : sterm_data) (iflowcontrol : Z)
    (dn : option nat) (data : Z) (e : env) :=
  termios_set_get sdata iflowcontrol TERMIO_OP_TERMIO
                  (Some termios_get_set_iflowcontrol) dn data e.

Definition sterm_sbreak (sdata : sterm_data) (breakv : Z) (dn : option nat)
    (data : Z) (e : env) :=
  termios_set_get sdata breakv TERMIO_OP_BRK None dn data e.

Definition sterm_dtr (sdata : sterm_data) (dtr : Z) (dn : option nat)
    (data : Z) (e : env) :=
  termios_set_get sdata dtr TERMIO_OP_MCTL (Some termios_get_set_dtr)
                  dn data e.

Definition sterm_rts (sdata : sterm_data) (rts : Z) (dn : option nat)
    (data : Z) (e : env) :=
  termios_set_get sdata rts TERMIO_OP_MCTL (Some termios_get_set_rts)
                  dn data e.

(** The calls of the control operations that are not queued, beside those
    of [action]. *)
Inductive ctl_action : Type :=
| ctl_act (a : action)
| ctl_tcflow (tval : Z)
| ctl_tcflush (tval : Z)
| ctl_tcsendbreak.

(** What [tcflow] and [tcflush] answer. *)
Record ctl_env : Type := {
  e_tcflow : sysret unit;
  e_tcflush : sysret unit
}.

Definition sterm_flowcontrol_state (sdata : sterm_data) (val : bool)
    (ce : ctl_env) : Z * list ctl_action :=
  let tval := if val then TCOOFF else TCOON in
  match e_tcflow ce with
  | sys_err en => (Z.pos en, [ctl_tcflow tval])
  | sys_ok _ => (0, [ctl_tcflow tval])
  end.

Definition sterm_flush (sdata : sterm_data) (val : Z) (ce : ctl_env)
  : Z * list ctl_action :=
  match (if val =? SERGIO_FLUSH_RCV_BUFFER then Some TCIFLUSH
         else if val =? SERGIO_FLUSH_XMIT_BUFFER then Some TCOFLUSH
         else if val =? SERGIO_FLUSH_RCV_XMIT_BUFFERS then Some TCIOFLUSH
         else None) with
  | None => (EINVAL, [])
  | Some tval =>
      match e_tcflush ce with
      | sys_err en => (Z.pos en, [ctl_tcflush tval])
      | sys_ok _ => (0, [ctl_tcflush tval])
      end
  end.

Definition sterm_send_break (sdata : sterm_data) : Z * list ctl_action :=
  (0, [ctl_tcsendbreak]).

(** ** The dispatcher *)

(** The operation codes of [gensio/sergensio_class.h], and any other
    [int]. *)
Inductive sergensio_func : Type :=
| SERGENSIO_FUNC_BAUD
| SERGENSIO_FUNC_DATASIZE
| SERGENSIO_FUNC_PARITY
| SERGENSIO_FUNC_STOPBITS
| SERGENSIO_FUNC_FLOWCONTROL
| SERGENSIO_FUNC_IFLOWCONTROL
| SERGENSIO_FUNC_SBREAK
| SERGENSIO_FUNC_DTR
| SERGENSIO_FUNC_RTS
| SERGENSIO_FUNC_MODEMSTATE
| SERGENSIO_FUNC_FLOWCONTROL_STATE
| SERGENSIO_FUNC_FLUSH
| SERGENSIO_FUNC_SEND_BREAK
| SERGENSIO_FUNC_SIGNATURE
| SERGENSIO_FUNC_LINESTATE
| SERGENSIO_FUNC_other.

Definition queued_result (r : option (sterm_data * Z * list action))
  : option (sterm_data * Z * list ctl_action) :=
  match r with
  | Some (sdata, err, acts) => Some (sdata, err, map ctl_act acts)
  | None => None
  end.

(** [val] is an [int]: it is passed on as it is to the queued operations,
    converted to [unsigned int] for the mask and the flush kind, and to
    [bool] for the flow-control state. *)
Definition sergensio_sterm_func (sdata : sterm_data) (fn : sergensio_func)
    (val : Z) (dn : option nat) (data : Z) (e : env) (ce : ctl_env)
  : option (sterm_data * Z * list ctl_action) :=
  if write_only sdata then Some (sdata, ENOTSUP, [])
  else
    match fn with
    | SERGENSIO_FUNC_BAUD => queued_result (sterm_baud sdata val dn data e)
    | SERGENSIO_FUNC_DATASIZE =>
        queued_result (sterm_datasize sdata val dn data e)
    | SERGENSIO_FUNC_PARITY => queued_result (sterm_parity sdata val dn data e)
    | SERGENSIO_FUNC_STOPBITS =>
        queued_result (sterm_stopbits sdata val dn data e)
    | SERGENSIO_FUNC_FLOWCONTROL =>
        queued_result (sterm_flowcontrol sdata val dn data e)
    | SERGENSIO_FUNC_IFLOWCONTROL =>
        queued_result (sterm_iflowcontrol sdata val dn data e)
    | SERGENSIO_FUNC_SBREAK => queued_result (sterm_sbreak sdata val dn data e)
    | SERGENSIO_FUNC_DTR => queued_result (sterm_dtr sdata val dn data e)
    | SERGENSIO_FUNC_RTS => queued_result (sterm_rts sdata val dn data e)
    | SERGENSIO_FUNC_MODEMSTATE =>
        let '(sdata1, err, acts) := sterm_modemstate sdata (val mod 2 ^ 32) in
        Some (sdata1, err, map ctl_act acts)
    | SERGENSIO_FUNC_FLOWCONTROL_STATE =>
        let (err, acts) := sterm_flowcontrol_state sdata (nonzero val) ce in
        Some (sdata, err, acts)
    | SERGENSIO_FUNC_FLUSH =>
        let (err, acts) := sterm_flush sdata (val mod 2 ^ 32) ce in
        Some (sdata, err, acts)
    | SERGENSIO_FUNC_SEND_BREAK =>
        let (err, acts) := sterm_send_break sdata in
        Some (sdata, err, acts)
    | SERGENSIO_FUNC_SIGNATURE
    | SERGENSIO_FUNC_LINESTATE
    | SERGENSIO_FUNC_other => Some (sdata, ENOTSUP, [])
    end.

(** ** Assumptions on the constants, as the headers satisfy them *)

(** The four size codes lie under the mask CSIZE and differ. *)
Definition datasize_codes_ok : Prop :=
  Z.land CS5 CSIZE = CS5 /\ Z.land CS6 CSIZE = CS6 /\
  Z.land CS7 CSIZE = CS7 /\ Z.land CS8 CSIZE = CS8 /\
  NoDup [CS5; CS6; CS7; CS8].

(** PARENB, PARODD and CMSPAR (here [cmspar]) are flags of their own, the
    five parity values are set values and differ. *)
Definition parity_consts_ok (cmspar : Z) : Prop :=
  PARENB <> 0 /\ PARODD <> 0 /\ cmspar <> 0 /\
  Z.land PARENB PARODD = 0 /\ Z.land PARENB cmspar = 0 /\
  Z.land PARODD cmspar = 0 /\
  NoDup [0; SERGENSIO_PARITY_NONE; SERGENSIO_PARITY_ODD;
         SERGENSIO_PARITY_EVEN; SERGENSIO_PARITY_MARK;
         SERGENSIO_PARITY_SPACE].

(** The flow-control flags are not empty, CRTSCTS shares no bit with IXON
    and IXOFF, and the three flow-control values are set values and
    differ. *)
Definition flow_consts_ok : Prop :=
  CRTSCTS <> 0 /\ IXOFF <> 0 /\ Z.land (Z.lor IXON IXOFF) CRTSCTS = 0 /\
  NoDup [0; SERGENSIO_FLOWCONTROL_NONE; SERGENSIO_FLOWCONTROL_XON_XOFF;
         SERGENSIO_FLOWCONTROL_RTS_CTS].

(** The bits of [c_cflag] outside [mask]. *)
Definition cflag_outside (mask : Z) (t : termios) : Z :=
  Z.land (tio_cflag t) (Z.lnot mask).

(** ** Observations on the queue *)

Definition is_free (a : action) : bool :=
  match a with
  | act_free => true
  | _ => false
  end.

Definition is_run (a : action) : bool :=
  match a with
  | act_run => true
  | _ => false
  end.

(** A call that changes the device: tcsetattr, TIOCMSET, TIOCSBRK,
    TIOCCBRK. *)
Definition is_device_write (a : action) : bool :=
  match a with
  | act_tcsetattr _ | act_TIOCMSET _ | act_TIOCSBRK | act_TIOCCBRK => true
  | _ => false
  end.

(** The entry a submit with completion [dn] queues. *)
Definition queued_entry (o : termio_op) (gs : option getset_t)
    (dn : option nat) (data : Z) : list termio_op_q :=
  match dn with
  | Some d => [{| op := o; getset := gs; done := d; cb_data := data |}]
  | None => []
  end.

(** The completions called in a trace, in order: which one, with which
    [cb_data]. *)
Definition completions (acts : list action) : list (nat * Z) :=
  flat_map (fun a => match a with
                     | act_done d _ _ data => [(d, data)]
                     | _ => []
                     end) acts.

(** An entry as the entry points behind the dispatcher queue it: the
    accessor belongs to the kind of the operation. *)
Definition well_paired (qe : termio_op_q) : Prop :=
  match op qe with
  | TERMIO_OP_TERMIO =>
      In (getset qe)
         [Some termios_get_set_baud; Some termios_get_set_datasize;
          Some termios_get_set_parity; Some termios_get_set_stopbits;
          Some termios_get_set_flowcontrol;
          Some termios_get_set_iflowcontrol]
  | TERMIO_OP_MCTL =>
      In (getset qe) [Some termios_get_set_dtr; Some termios_get_set_rts]
  | TERMIO_OP_BRK => True
  end.

(** A queue that is not empty has its runner scheduled. *)
Definition runner_scheduled (sdata : sterm_data) : Prop :=
  termio_q sdata = [] \/ deferred_op_pending sdata = true.

(** ** The line settings through the dispatcher *)



(** The calls of a successful queued set, [write] being its device
    write. *)
Definition set_trace (sdata : sterm_data) (read write : action)
  : list ctl_action :=
  map ctl_act ([act_zalloc true; read; write]
               ++ if deferred_op_pending sdata then [] else [act_run]).

(** ** Observations on the operations that are not queued *)

Definition is_queued_call (a : ctl_action) : bool :=
  match a with
  | ctl_act _ => true
  | _ => false
  end.

Definition answered {A : Type} (r : sysret A) : bool :=
  match r with
  | sys_ok _ => true
  | sys_err _ => false
  end.

(** The device call behind an operation that is not queued succeeded. *)
Definition ctl_call_ok (fn : sergensio_func) (ce : ctl_env) : bool :=
  match fn with
  | SERGENSIO_FUNC_FLOWCONTROL_STATE => answered (e_tcflow ce)
  | SERGENSIO_FUNC_FLUSH => answered (e_tcflush ce)
  | _ => true
  end.

(** ** Observations on the open *)

Definition is_uucp_mk_lock (a : action) : bool :=
  match a with
  | act_uucp_mk_lock => true
  | _ => false
  end.

Definition is_close (a : action) : bool :=
  match a with
  | act_close _ => true
  | _ => false
  end.

End Adapter.

(** Both device calls of the operations that are not queued succeed. *)
Definition ctl_env_ok : ctl_env :=
  {| e_tcflow := sys_ok tt; e_tcflush := sys_ok tt |}.

(** The open endpoint with two operations waiting for the runner: a data
    size with completion 7, then a BREAK with completion 8. *)
Definition sdata_queued : sterm_data (P := linux) :=
  set_deferred_op_pending true
    (set_termio_q
       [ {| op := TERMIO_OP_TERMIO; getset := Some termios_get_set_datasize;
            done := 7%nat; cb_data := 70 |};
         {| op := TERMIO_OP_BRK; getset := None; done := 8%nat;
            cb_data := 80 |} ]
       sdata_open).

(** A session: open, queue a data-size get and a DTR get, one poller
    tick. *)
Definition queued_session : list (call (P := linux)) :=
  [ c_sub_open (env_ok 0 0);
    c_set_get 0 TERMIO_OP_TERMIO (Some termios_get_set_datasize) (Some 7%nat)
      70 (env_ok 0 0);
    c_set_get 0 TERMIO_OP_MCTL (Some termios_get_set_dtr) (Some 8%nat) 80
      (env_ok 0 0);
    c_timeout (env_ok 0x20 0) ].

(** * Properties *)

Section Properties.
Context {P : Platform}.

(** Case analysis on every [match] of the embedded code. *)
Ltac break_hyp :=
  match goal with
  | H : context [match ?x with _ => _ end] |- _ => destruct x eqn:?
  end.

Ltac break_goal :=
  match goal with
  | |- context [match ?x with _ => _ end] => destruct x eqn:?
  end.

Ltac some_inv :=
  repeat match goal with
         | H : Some _ = Some _ |- _ => inversion H; clear H; subst
         | H : (_, _) = (_, _) |- _ => inversion H; clear H; subst
         | H : None = Some _ |- _ => discriminate H
         | H : Some _ = None |- _ => discriminate H
         end.

Ltac rewrite_bools :=
  repeat match goal with
         | H : ?b = true |- context [?b] => rewrite H
         | H : ?b = false |- context [?b] => rewrite H
         end.

Lemma nonzero_true (z : Z) : nonzero z = true <-> z <> 0.
Proof.
  unfold nonzero. rewrite negb_true_iff, Z.eqb_neq. reflexivity.
Qed.

Lemma nonzero_false (z : Z) : nonzero z = false <-> z = 0.
Proof.
  unfold nonzero. rewrite negb_false_iff, Z.eqb_eq. reflexivity.
Qed.

(** *** The modem-control accessors *)

(** What the OFF branch of the two accessors computes, on any platform on
    which OFF is a set value distinct from ON. *)
Lemma termios_get_set_dtr_off termio m :
  SERGENSIO_DTR_OFF <> 0 -> SERGENSIO_DTR_OFF <> SERGENSIO_DTR_ON ->
  termios_get_set_dtr termio (Some m) SERGENSIO_DTR_OFF =
  Some {| g_err := 0; g_termio := termio;
          g_mctl := Some (Z.land m TIOCM_DTR);
          g_val := SERGENSIO_DTR_OFF |}.
Proof.
  intros Hnz Hne. unfold termios_get_set_dtr.
  apply nonzero_true in Hnz. rewrite Hnz.
  apply Z.eqb_neq in Hne. rewrite Hne, Z.eqb_refl. reflexivity.
Qed.

Lemma termios_get_set_rts_off termio m :
  SERGENSIO_RTS_OFF <> 0 -> SERGENSIO_RTS_OFF <> SERGENSIO_RTS_ON ->
  termios_get_set_rts termio (Some m) SERGENSIO_RTS_OFF =
  Some {| g_err := 0; g_termio := termio;
          g_mctl := Some (Z.land m TIOCM_RTS);
          g_val := SERGENSIO_RTS_OFF |}.
Proof.
  intros Hnz Hne. unfold termios_get_set_rts.
  apply nonzero_true in Hnz. rewrite Hnz.
  apply Z.eqb_neq in Hne. rewrite Hne, Z.eqb_refl. reflexivity.
Qed.

(** *** The poller: one tick *)

Lemma sampled_levels_cases val :
  exists cd ri dsr cts : bool,
    cd = nonzero (Z.land val TIOCM_CD) /\
    ri = nonzero (Z.land val TIOCM_RI) /\
    dsr = nonzero (Z.land val TIOCM_DSR) /\
    cts = nonzero (Z.land val TIOCM_CTS) /\
    sampled_levels val =
    (if cd then 0x80 else 0) + (if ri then 0x40 else 0) +
    (if dsr then 0x20 else 0) + (if cts then 0x10 else 0).
Proof.
  unfold sampled_levels.
  exists (nonzero (Z.land val TIOCM_CD)), (nonzero (Z.land val TIOCM_RI)),
         (nonzero (Z.land val TIOCM_DSR)), (nonzero (Z.land val TIOCM_CTS)).
  repeat split.
  destruct (nonzero (Z.land val TIOCM_CD)), (nonzero (Z.land val TIOCM_RI)),
           (nonzero (Z.land val TIOCM_DSR)), (nonzero (Z.land val TIOCM_CTS));
    reflexivity.
Qed.

Lemma sampled_levels_bits val :
  Z.testbit (sampled_levels val) 7 = nonzero (Z.land val TIOCM_CD) /\
  Z.testbit (sampled_levels val) 6 = nonzero (Z.land val TIOCM_RI) /\
  Z.testbit (sampled_levels val) 5 = nonzero (Z.land val TIOCM_DSR) /\
  Z.testbit (sampled_levels val) 4 = nonzero (Z.land val TIOCM_CTS) /\
  Z.land (sampled_levels val) 0xF0 = sampled_levels val.
Proof.
  destruct (sampled_levels_cases val)
    as (cd & ri & dsr & cts & <- & <- & <- & <- & ->).
  destruct cd, ri, dsr, cts; repeat split; reflexivity.
Qed.

Lemma land_absorb a b : Z.land a (Z.land a b) = Z.land a b.
Proof. rewrite Z.land_assoc, Z.land_diag. reflexivity. Qed.

(** The tick that passes the guard and samples [val]. *)
Lemma termios_timeout_sampled sdata e val :
  handling_modemstate sdata = false ->
  e_TIOCMGET e = sys_ok val ->
  let cur := sampled_levels val in
  let edges := Z.shiftr (Z.lxor cur (last_modemstate sdata)) 4 in
  let new_state := Z.land (Z.lor cur edges) (modemstate_mask sdata) in
  let force_send := negb (sent_first_modemstate sdata) in
  termios_timeout sdata e =
  (set_handling_modemstate false
     (set_sent_first_modemstate true
        (set_last_modemstate new_state
           (set_handling_modemstate true sdata))),
   [act_TIOCMGET]
   ++ (if force_send || nonzero (Z.land new_state 0xf)
       then [act_gensio_cb_modemstate force_send new_state] else [])
   ++ (if nonzero (modemstate_mask sdata) then [act_start_timer 1 0]
       else [])).
Proof.
  intros Hh He. unfold termios_timeout. rewrite Hh, He. cbn.
  rewrite land_absorb. reflexivity.
Qed.

(** C2.  A tick that passes the re-entrancy guard and samples the lines
    composes [cur] with CD, RI, DSR and CTS in bits 7 to 4, computes
    [edges = (cur ^ last_modemstate) >> 4], stores
    [new_state = (cur | edges) & modemstate_mask] as [last_modemstate], and
    dispatches a modem-state event, carrying [new_state], exactly when this
    is the first report since open or the bottom nibble of [new_state] is
    not zero. *)
Theorem termios_timeout_edges sdata e val :
  handling_modemstate sdata = false ->
  e_TIOCMGET e = sys_ok val ->
  let cur := sampled_levels val in
  let edges := Z.shiftr (Z.lxor cur (last_modemstate sdata)) 4 in
  let new_state := Z.land (Z.lor cur edges) (modemstate_mask sdata) in
  let force_send := negb (sent_first_modemstate sdata) in
  (Z.testbit cur 7 = nonzero (Z.land val TIOCM_CD) /\
   Z.testbit cur 6 = nonzero (Z.land val TIOCM_RI) /\
   Z.testbit cur 5 = nonzero (Z.land val TIOCM_DSR) /\
   Z.testbit cur 4 = nonzero (Z.land val TIOCM_CTS) /\
   Z.land cur 0xF0 = cur) /\
  last_modemstate (fst (termios_timeout sdata e)) = new_state /\
  filter is_modemstate_event (snd (termios_timeout sdata e)) =
    (if force_send || nonzero (Z.land new_state 0xf)
     then [act_gensio_cb_modemstate force_send new_state] else []) /\
  (In (act_gensio_cb_modemstate force_send new_state)
      (snd (termios_timeout sdata e)) <->
   sent_first_modemstate sdata = false \/ Z.land new_state 0xf <> 0).
Proof.
  intros Hh He cur edges new_state force_send.
  split; [apply sampled_levels_bits|].
  rewrite (termios_timeout_sampled sdata e val Hh He).
  fold cur. fold edges. fold new_state. fold force_send.
  cbn [fst snd]. split; [reflexivity|].
  assert (Hd : (force_send || nonzero (Z.land new_state 0xf) = true) <->
               (sent_first_modemstate sdata = false \/
                Z.land new_state 0xf <> 0)).
  { unfold force_send. rewrite orb_true_iff, negb_true_iff, nonzero_true.
    reflexivity. }
  destruct (force_send || nonzero (Z.land new_state 0xf)) eqn:Hc;
    destruct (nonzero (modemstate_mask sdata)); cbn.
  - split; [reflexivity|]. split; [intros _; apply Hd; reflexivity|auto].
  - split; [reflexivity|]. split; [intros _; apply Hd; reflexivity|auto].
  - split; [reflexivity|]. split.
    + intros [H|[H|[]]]; discriminate H.
    + intros H. apply Hd in H. discriminate H.
  - split; [reflexivity|]. split.
    + intros [H|[]]; discriminate H.
    + intros H. apply Hd in H. discriminate H.
Qed.

(** *** The poller: sequences of ticks *)

Lemma land_16_low x : Z.land (Z.land x 0x10) 0xf = 0.
Proof. rewrite <- Z.land_assoc. apply Z.land_0_r. Qed.

Lemma testbit_high_256 x n : 0 <= x < 256 -> 8 <= n -> Z.testbit x n = false.
Proof.
  intros Hx Hn. destruct (Z.eq_dec x 0) as [->|Hnz].
  - apply Z.bits_0.
  - apply Z.bits_above_log2; [lia|].
    assert (Z.log2 x < 8); [|lia].
    apply Z.log2_lt_pow2; lia.
Qed.

Lemma levels_testbit cur n :
  Z.land cur 0xF0 = cur -> Z.testbit cur n = true -> 4 <= n < 8.
Proof.
  intros Hc Hb. rewrite <- Hc, Z.land_spec in Hb.
  apply andb_true_iff in Hb. destruct Hb as [_ Hb].
  destruct (Z_lt_le_dec n 0) as [Hn|Hn].
  - rewrite Z.testbit_neg_r in Hb by assumption. discriminate.
  - destruct (Z_lt_le_dec n 8) as [H8|H8].
    + destruct (Z_lt_le_dec n 4) as [H4|H4]; [|lia].
      assert (n = 0 \/ n = 1 \/ n = 2 \/ n = 3) as [-> | [-> | [-> | ->]]] by lia;
        discriminate Hb.
    + rewrite (testbit_high_256 0xF0 n) in Hb by lia. discriminate.
Qed.

(** With the mask 0x11 the stored word is the CTS level and the CTS change
    bit. *)
Lemma cts_word cur last :
  Z.land cur 0xF0 = cur -> 0 <= last < 256 ->
  Z.land (Z.lor cur (Z.shiftr (Z.lxor cur last) 4)) 0x11 =
  Z.lor (if Z.testbit cur 4 then 0x10 else 0)
        (if xorb (Z.testbit cur 4) (Z.testbit last 4) then 1 else 0).
Proof.
  intros Hc Hl. apply Z.bits_inj'. intros n Hn.
  change 0x11 with (Z.lor (2 ^ 4) (2 ^ 0)).
  rewrite Z.land_spec, !Z.lor_spec, Z.shiftr_spec, Z.lxor_spec by assumption.
  rewrite !Z.pow2_bits_eqb by lia.
  destruct (Z.eqb_spec 4 n) as [<-|H4].
  - change (4 + 4) with 8. change (0 =? 4) with false.
    cbn [orb]. rewrite andb_true_r.
    rewrite (testbit_high_256 last 8) by lia.
    destruct (Z.testbit cur 8) eqn:H8.
    { apply (levels_testbit _ _ Hc) in H8. lia. }
    cbn [xorb orb]. rewrite orb_false_r.
    destruct (Z.testbit cur 4), (xorb _ _); reflexivity.
  - destruct (Z.eqb_spec 0 n) as [<-|H0].
    + change (0 + 4) with 4. cbn [orb]. rewrite andb_true_r.
      destruct (Z.testbit cur 0) eqn:Hc0.
      { apply (levels_testbit _ _ Hc) in Hc0. lia. }
      cbn [orb]. destruct (Z.testbit cur 4), (xorb _ _); reflexivity.
    + cbn [orb]. rewrite andb_false_r.
      assert (Hk : forall k, k = 0 \/ k = 1 \/ k = 16 \/ k = 17 ->
                             Z.testbit k n = false).
      { intros k Hk.
        destruct (Z_lt_le_dec n 8).
        - assert (n = 1 \/ n = 2 \/ n = 3 \/ n = 5 \/ n = 6 \/ n = 7)
            as [-> | [-> | [-> | [-> | [-> | ->]]]]] by lia;
            destruct Hk as [-> | [-> | [-> | ->]]]; reflexivity.
        - apply testbit_high_256; lia. }
      symmetry.
      destruct (Z.testbit cur 4), (xorb _ _); rewrite !Hk by lia; reflexivity.
Qed.

Lemma cts_word_low cur last :
  Z.land cur 0xF0 = cur -> 0 <= last < 256 ->
  nonzero (Z.land (Z.land (Z.lor cur (Z.shiftr (Z.lxor cur last) 4)) 0x11)
                  0xf) =
  xorb (Z.testbit last 4) (Z.testbit cur 4).
Proof.
  intros Hc Hl. rewrite (cts_word cur last Hc Hl).
  destruct (Z.testbit cur 4), (Z.testbit last 4); reflexivity.
Qed.

Lemma cts_word_level cur last :
  Z.land cur 0xF0 = cur -> 0 <= last < 256 ->
  let w := Z.land (Z.lor cur (Z.shiftr (Z.lxor cur last) 4)) 0x11 in
  Z.testbit w 4 = Z.testbit cur 4 /\ 0 <= w < 256.
Proof.
  intros Hc Hl w. unfold w. rewrite (cts_word cur last Hc Hl).
  destruct (Z.testbit cur 4), (Z.testbit last 4); cbn; split;
    (reflexivity || lia).
Qed.

Lemma run_cons sdata c cs sdata1 out sdata2 outs :
  do_call sdata c = Some (sdata1, out) ->
  run sdata1 cs = Some (sdata2, outs) ->
  run sdata (c :: cs) = Some (sdata2, out :: outs).
Proof. intros H1 H2. cbn [run]. rewrite H1, H2. reflexivity. Qed.

(** Ticks under the mask 0x10: none reports. *)
Lemma timeouts_mask_0x10 es : forall sdata,
  handling_modemstate sdata = false ->
  sent_first_modemstate sdata = true ->
  modemstate_mask sdata = 0x10 ->
  Forall sampled es ->
  exists sdata' outs,
    run sdata (map c_timeout es) = Some (sdata', outs) /\
    events_per_call outs = map (fun _ => 0%nat) es.
Proof.
  induction es as [|e es IH]; intros sdata Hh Hs Hm Hes.
  - exists sdata, []. split; reflexivity.
  - inversion Hes as [|? ? [val He] Hes']; subst.
    pose proof (termios_timeout_sampled sdata e val Hh He) as Ht.
    cbv zeta in Ht. rewrite Hs, Hm, land_16_low in Ht. cbn in Ht.
    destruct (IH (fst (termios_timeout sdata e))) as (s' & outs & Hr & Hev);
      [rewrite Ht; reflexivity | rewrite Ht; reflexivity
       | rewrite Ht; exact Hm | exact Hes' |].
    exists s', ((0, snd (termios_timeout sdata e)) :: outs). split.
    + cbn [map]. apply run_cons with (sdata1 := fst (termios_timeout sdata e));
        [|exact Hr].
      cbn [do_call]. destruct (termios_timeout sdata e). reflexivity.
    + cbn [events_per_call map]. fold (events_per_call outs).
      rewrite Hev, Ht. reflexivity.
Qed.

(** Ticks under the mask 0x11: a tick reports exactly when the CTS level
    differs from the level stored by the tick before. *)
Lemma timeouts_mask_0x11 es : forall sdata,
  handling_modemstate sdata = false ->
  sent_first_modemstate sdata = true ->
  modemstate_mask sdata = 0x11 ->
  0 <= last_modemstate sdata < 256 ->
  Forall sampled es ->
  exists sdata' outs,
    run sdata (map c_timeout es) = Some (sdata', outs) /\
    events_per_call outs =
    edge_marks (Z.testbit (last_modemstate sdata) 4) (map cts_level es).
Proof.
  induction es as [|e es IH]; intros sdata Hh Hs Hm Hl Hes.
  - exists sdata, []. split; reflexivity.
  - inversion Hes as [|? ? [val He] Hes']; subst.
    pose proof (termios_timeout_sampled sdata e val Hh He) as Ht.
    destruct (sampled_levels_bits val) as (_ & _ & _ & Hcts & Hcur).
    pose proof (cts_word_low _ _ Hcur Hl) as Hlow.
    destruct (cts_word_level _ _ Hcur Hl) as [Hlev Hrange].
    cbv zeta in Ht. rewrite Hs, Hm, Hlow in Ht. cbn [negb orb] in Ht.
    destruct (IH (fst (termios_timeout sdata e))) as (s' & outs & Hr & Hev);
      [rewrite Ht; reflexivity | rewrite Ht; reflexivity
       | rewrite Ht; exact Hm | rewrite Ht; exact Hrange | exact Hes' |].
    exists s', ((0, snd (termios_timeout sdata e)) :: outs). split.
    + cbn [map]. apply run_cons with (sdata1 := fst (termios_timeout sdata e));
        [|exact Hr].
      cbn [do_call]. destruct (termios_timeout sdata e). reflexivity.
    + cbn [events_per_call map edge_marks]. fold (events_per_call outs).
      rewrite Hev. f_equal.
      * rewrite Ht. cbn [snd]. unfold cts_level. rewrite He, <- Hcts.
        destruct (xorb _ _); reflexivity.
      * rewrite Ht. cbn [fst last_modemstate set_handling_modemstate
                         set_sent_first_modemstate set_last_modemstate].
        rewrite Hlev, Hcts. unfold cts_level. rewrite He. reflexivity.
Qed.

(** C3 (amended).  The first forced report sent, the poller sampling, and a
    sequence of ticks under one mask.  Under the mask 0x10 (the CTS level
    bit alone) no tick dispatches an event, whatever the lines do.  Under
    the mask 0x11 (the CTS level bit and the CTS change bit) every tick
    after the first dispatches exactly one event when the CTS level it
    samples differs from the level the tick before it sampled, and none
    otherwise, so CD toggles alone dispatch nothing.  The first tick of the
    sequence is measured against bit 4 of the stored word, which is the
    level last sampled only if the mask then in force held that bit. *)
Theorem cts_edge_events sdata e0 es :
  handling_modemstate sdata = false ->
  sent_first_modemstate sdata = true ->
  0 <= last_modemstate sdata < 256 ->
  sampled e0 -> Forall sampled es ->
  (modemstate_mask sdata = 0x10 ->
   exists sdata' outs,
     run sdata (map c_timeout (e0 :: es)) = Some (sdata', outs) /\
     events_per_call outs = map (fun _ => 0%nat) (e0 :: es)) /\
  (modemstate_mask sdata = 0x11 ->
   exists sdata' out0 outs,
     run sdata (map c_timeout (e0 :: es)) = Some (sdata', out0 :: outs) /\
     events_per_call [out0] =
     [if xorb (Z.testbit (last_modemstate sdata) 4) (cts_level e0)
      then 1%nat else 0%nat] /\
     events_per_call outs = edge_marks (cts_level e0) (map cts_level es)).
Proof.
  intros Hh Hs Hl He0 Hes.
  assert (Hall : Forall sampled (e0 :: es)) by (constructor; assumption).
  split; intros Hm.
  - apply timeouts_mask_0x10; assumption.
  - destruct (timeouts_mask_0x11 (e0 :: es) sdata Hh Hs Hm Hl Hall)
      as (sdata' & outs & Hr & Hev).
    destruct outs as [|out0 outs]; [discriminate Hev|].
    cbn [map edge_marks events_per_call] in Hev.
    injection Hev as Hev0 Hevs.
    exists sdata', out0, outs. split; [exact Hr|]. split.
    + cbn [events_per_call map]. rewrite Hev0. reflexivity.
    + exact Hevs.
Qed.

(** *** Drain on close *)

Lemma check_close_start sdata e :
  sterm_check_close_drain sdata GENSIO_LL_CLOSE_STATE_START e =
  ((if nonzero (e_stop_timer_with_done e)
    then set_timer_stopped true
           (set_close_timeouts_left 200 (set_open false sdata))
    else set_close_timeouts_left 200 (set_open false sdata)),
   0, None, [act_stop_timer_with_done]).
Proof. reflexivity. Qed.

Lemma check_close_done sdata e :
  EAGAIN <> 0 ->
  sterm_check_close_drain sdata GENSIO_LL_CLOSE_STATE_DONE e =
  (let sdata1 := set_open false sdata in
   let counted :=
     match termio_q sdata, timer_stopped sdata, e_TIOCOUTQ e with
     | [], true, sys_ok count =>
         if count =? 0 then sdata1
         else set_close_timeouts_left
                ((close_timeouts_left sdata - 1) mod 2 ^ 32) sdata1
     | _, _, _ => sdata1
     end in
   let polled :=
     match termio_q sdata with
     | [] => if timer_stopped sdata then [act_TIOCOUTQ] else []
     | _ :: _ => []
     end in
   if drain_complete sdata e
   then (counted, 0, None, polled ++ [act_uucp_rm_lock])
   else (counted, EAGAIN, Some (0, 10000), polled)).
Proof.
  intros Hnz. apply nonzero_true in Hnz.
  unfold sterm_check_close_drain, drain_complete, out_eagain, out_rm_uucp.
  cbn [termio_q set_open timer_stopped close_timeouts_left
       set_close_timeouts_left].
  destruct (termio_q sdata) as [|qe q].
  - destruct (timer_stopped sdata); cbn [negb andb].
    + destruct (e_TIOCOUTQ e) as [count|en]; [|reflexivity].
      destruct (count =? 0); [reflexivity|].
      cbn [orb].
      destruct ((close_timeouts_left sdata - 1) mod 2 ^ 32 =? 0);
        rewrite ?Hnz, ?app_nil_r; reflexivity.
    + rewrite Hnz. reflexivity.
  - rewrite Hnz. reflexivity.
Qed.

(** With [n + 1] tries left, queue empty and timer stopped, polls that find
    bytes in the output queue answer EAGAIN [n] times; the next one
    completes. *)
Lemma check_close_budget n : forall sdata es,
  EAGAIN <> 0 ->
  close_timeouts_left sdata = Z.of_nat (S n) ->
  Z.of_nat (S n) < 2 ^ 32 ->
  termio_q sdata = [] ->
  timer_stopped sdata = true ->
  length es = S n ->
  Forall output_pending es ->
  exists sdata',
    run sdata (map (c_check_close GENSIO_LL_CLOSE_STATE_DONE) es) =
    Some (sdata', repeat (EAGAIN, [act_TIOCOUTQ]) n
                  ++ [(0, [act_TIOCOUTQ; act_uucp_rm_lock])]).
Proof.
  induction n as [|n IH]; intros sdata es Hnz Hc Hlt Hq Ht Hlen Hes.
  - destruct es as [|e [|e' es]]; try discriminate Hlen.
    inversion Hes as [|? ? (count & He & Hcount) _]; subst.
    cbn [map run do_call]. rewrite (check_close_done _ _ Hnz).
    unfold drain_complete. rewrite Hq, Ht, He, Hc.
    apply Z.eqb_neq in Hcount. rewrite Hcount. cbn.
    eexists. reflexivity.
  - destruct es as [|e es]; try discriminate Hlen.
    inversion Hes as [|? ? (count & He & Hcount) Hes']; subst.
    cbn [map run do_call]. rewrite (check_close_done _ _ Hnz).
    unfold drain_complete. rewrite Hq, Ht, He, Hc.
    apply Z.eqb_neq in Hcount. rewrite Hcount.
    assert (Hdec : (Z.of_nat (S (S n)) - 1) mod 2 ^ 32 = Z.of_nat (S n)).
    { rewrite Z.mod_small; lia. }
    rewrite Hdec.
    assert (Hne : (Z.of_nat (S n) =? 0) = false) by (apply Z.eqb_neq; lia).
    rewrite Hne. cbn [andb orb app].
    edestruct (IH (set_close_timeouts_left (Z.of_nat (S n))
                     (set_open false sdata)) es) as [s' Hr];
      try eassumption; try reflexivity; try lia.
    { cbn in Hlen. lia. }
    rewrite Hr. eexists. reflexivity.
Qed.

(** C4 (amended).  The close request clears [open] and sets the budget to
    200.  A poll of the draining endpoint completes exactly when the queue
    is empty, the timer has reported stopped, and the TIOCOUTQ ioctl fails,
    or reports an empty output queue, or the budget, decremented by this
    poll, reaches zero; every other poll answers EAGAIN and asks to be
    called again in 10 ms.  The UUCP lock is released once on the completing
    poll and never on a poll that answers EAGAIN.  With queue empty and timer
    stopped, 200 polls that find output pending answer EAGAIN 199 times and
    then complete. *)
Theorem close_drain_completion sdata e :
  EAGAIN <> 0 ->
  (let '(sdata1, err, _, acts) :=
     sterm_check_close_drain sdata GENSIO_LL_CLOSE_STATE_START e in
   err = 0 /\ open sdata1 = false /\ close_timeouts_left sdata1 = 200 /\
   acts = [act_stop_timer_with_done]) /\
  (let '(sdata1, err, next_timeout, acts) :=
     sterm_check_close_drain sdata GENSIO_LL_CLOSE_STATE_DONE e in
   (err = 0 <->
    termio_q sdata = [] /\ timer_stopped sdata = true /\
    ((exists en, e_TIOCOUTQ e = sys_err en) \/ e_TIOCOUTQ e = sys_ok 0 \/
     (close_timeouts_left sdata - 1) mod 2 ^ 32 = 0)) /\
   (err <> 0 -> err = EAGAIN /\ next_timeout = Some (0, 10000)) /\
   count_actions is_uucp_rm_lock acts = (if err =? 0 then 1%nat else 0%nat) /\
   open sdata1 = false /\
   close_timeouts_left sdata1 =
   match termio_q sdata, timer_stopped sdata, e_TIOCOUTQ e with
   | [], true, sys_ok count =>
       if count =? 0 then close_timeouts_left sdata
       else (close_timeouts_left sdata - 1) mod 2 ^ 32
   | _, _, _ => close_timeouts_left sdata
   end) /\
  (forall es,
     termio_q sdata = [] -> timer_stopped sdata = true ->
     close_timeouts_left sdata = 200 ->
     length es = 200%nat -> Forall output_pending es ->
     exists sdata',
       run sdata (map (c_check_close GENSIO_LL_CLOSE_STATE_DONE) es) =
       Some (sdata', repeat (EAGAIN, [act_TIOCOUTQ]) 199
                     ++ [(0, [act_TIOCOUTQ; act_uucp_rm_lock])])).
Proof.
  intros Hnz. split; [|split].
  - rewrite check_close_start.
    destruct (nonzero (e_stop_timer_with_done e)); repeat split.
  - rewrite (check_close_done _ _ Hnz). cbv zeta.
    assert (Hdc : drain_complete sdata e = true <->
                  termio_q sdata = [] /\ timer_stopped sdata = true /\
                  ((exists en, e_TIOCOUTQ e = sys_err en) \/
                   e_TIOCOUTQ e = sys_ok 0 \/
                   (close_timeouts_left sdata - 1) mod 2 ^ 32 = 0)).
    { unfold drain_complete. destruct (termio_q sdata) as [|qe q].
      - rewrite andb_true_iff. destruct (e_TIOCOUTQ e) as [count|en].
        + rewrite orb_true_iff, !Z.eqb_eq. split.
          * intros [Ht [Hc|Hc]]; repeat split; auto. subst count. auto.
          * intros (_ & Ht & [[en Hen]|[Hc|Hc]]); split; auto; try discriminate.
            injection Hc as ->. auto.
        + split; [intros [Ht _]; repeat split; eauto|].
          intros (_ & Ht & _). auto.
      - split; [discriminate|]. intros [Hq _]. discriminate. }
    pose proof (proj2 (Z.eqb_neq EAGAIN 0) Hnz) as Hnzb.
    destruct (drain_complete sdata e) eqn:Hc.
    + split; [split; [intros _; apply Hdc; reflexivity|reflexivity]|].
      split; [intros H; contradiction H; reflexivity|].
      split; [|split; destruct (termio_q sdata), (timer_stopped sdata),
                 (e_TIOCOUTQ e) as [[| |]|]; reflexivity].
      destruct (termio_q sdata); [destruct (timer_stopped sdata)|];
        reflexivity.
    + split; [split; [intros H; contradiction Hnz
                     |intros H; apply Hdc in H; discriminate H]|].
      split; [intros _; split; reflexivity|].
      rewrite Hnzb.
      split; [|split; destruct (termio_q sdata), (timer_stopped sdata),
                 (e_TIOCOUTQ e) as [[| |]|]; reflexivity].
      destruct (termio_q sdata); [destruct (timer_stopped sdata)|];
        reflexivity.
  - intros es Hq Ht Hc Hlen Hes.
    apply (check_close_budget 199); try assumption. reflexivity.
Qed.

(** *** Frame properties of the entry points *)

Lemma termios_process_one_step sdata e sdata1 acts :
  termios_process_one sdata e = Some (sdata1, acts) ->
  sdata1 = set_termio_q (tl (termio_q sdata)) sdata /\
  filter is_modemstate_event acts = [] /\
  filter is_start_timer acts = [].
Proof.
  unfold termios_process_one, termios_get. intros H.
  destruct (termio_q sdata) as [|qe next] eqn:Hq.
  - some_inv. repeat split. destruct sdata1. cbn in Hq. subst. reflexivity.
  - repeat break_hyp; some_inv; repeat split.
Qed.

Lemma termios_process_q_frame q : forall sdata os sdata1 acts,
  termios_process_q q sdata os = Some (sdata1, acts) ->
  break_set sdata1 = break_set sdata /\
  handling_modemstate sdata1 = handling_modemstate sdata /\
  filter is_modemstate_event acts = [] /\
  filter is_start_timer acts = [] /\
  last_modemstate sdata1 = last_modemstate sdata.
Proof.
  induction q as [|qe q IH]; intros sdata os sdata1 acts H; cbn in H.
  - some_inv. repeat split.
  - destruct (termios_process_one sdata (os 0%nat)) as [[s1 a1]|] eqn:H1;
      [|discriminate].
    destruct (termios_process_q q s1 _) as [[s2 a2]|] eqn:H2; [|discriminate].
    some_inv. apply termios_process_one_step in H1.
    destruct H1 as (-> & He1 & Ht1).
    apply IH in H2. destruct H2 as (Hb & Hh & He2 & Ht2 & Hl).
    rewrite !filter_app, He1, He2, Ht1, Ht2. repeat split; assumption.
Qed.

Lemma termios_set_get_handling sdata val o gs dn data e sdata1 ret acts :
  termios_set_get sdata val o gs dn data e = Some (sdata1, ret, acts) ->
  handling_modemstate sdata1 = handling_modemstate sdata /\
  filter is_modemstate_event acts = [] /\
  filter is_start_timer acts = [].
Proof.
  unfold termios_set_get, termios_set, out_unlock, termios_enqueue,
    sterm_start_deferred_op.
  intros H. repeat break_hyp; some_inv; repeat split.
Qed.

Lemma sterm_sub_open_frame sdata e :
  let '(sdata1, ret, acts) := sterm_sub_open sdata e in
  break_set sdata1 = break_set sdata /\
  handling_modemstate sdata1 = handling_modemstate sdata /\
  filter is_modemstate_event acts = [].
Proof.
  destruct (sterm_sub_open sdata e) as [[sdata1 ret] acts] eqn:H.
  unfold sterm_sub_open, sub_open_out_uucp, sub_open_out, sterm_modemstate
    in H.
  repeat break_hyp; some_inv; repeat split.
Qed.

Lemma sterm_check_close_drain_frame sdata state e :
  let '(sdata1, ret, nt, acts) := sterm_check_close_drain sdata state e in
  break_set sdata1 = break_set sdata /\
  handling_modemstate sdata1 = handling_modemstate sdata /\
  filter is_modemstate_event acts = [].
Proof.
  destruct (sterm_check_close_drain sdata state e)
    as [[[sdata1 ret] nt] acts] eqn:H.
  unfold sterm_check_close_drain, out_eagain, out_rm_uucp in H.
  repeat break_hyp; some_inv; repeat split.
Qed.

Lemma termios_timeout_break sdata e :
  break_set (fst (termios_timeout sdata e)) = break_set sdata.
Proof.
  unfold termios_timeout. repeat break_goal; reflexivity.
Qed.

Lemma termios_timeout_guarded sdata e :
  handling_modemstate sdata = true -> termios_timeout sdata e = (sdata, []).
Proof. intros H. unfold termios_timeout. rewrite H. reflexivity. Qed.

(** The tick whose poll fails leaves the guard set. *)
Lemma termios_timeout_poll_fails sdata e en :
  handling_modemstate sdata = false ->
  e_TIOCMGET e = sys_err en ->
  termios_timeout sdata e = (set_handling_modemstate true sdata, [act_TIOCMGET]).
Proof. intros Hh He. unfold termios_timeout. rewrite Hh, He. reflexivity. Qed.

(** Once the guard is stuck, every call leaves it set, reports no modem
    state, and a tick does nothing at all. *)
Lemma do_call_guard_stuck sdata c sdata1 ret acts :
  handling_modemstate sdata = true ->
  do_call sdata c = Some (sdata1, (ret, acts)) ->
  handling_modemstate sdata1 = true /\
  filter is_modemstate_event acts = [] /\
  (is_tick c = true -> acts = []).
Proof.
  intros Hh H. destruct c; cbn [do_call is_tick] in *.
  - pose proof (sterm_sub_open_frame sdata e) as F.
    destruct (sterm_sub_open sdata e) as [[s1 r] a]. some_inv.
    destruct F as (_ & F1 & F2). rewrite F1. repeat split; auto; discriminate.
  - pose proof (sterm_check_close_drain_frame sdata state e) as F.
    destruct (sterm_check_close_drain sdata state e) as [[[s1 r] nt] a].
    some_inv. destruct F as (_ & F1 & F2). rewrite F1.
    repeat split; auto; discriminate.
  - some_inv. repeat split; auto; discriminate.
  - destruct (termios_set_get sdata val o gs dn data e) as [[[s1 r] a]|] eqn:E;
      [|discriminate].
    some_inv. apply termios_set_get_handling in E. destruct E as (E1 & E2 & _).
    rewrite E1. repeat split; auto; discriminate.
  - destruct (termios_process_one sdata e) as [[s1 a]|] eqn:E; [|discriminate].
    some_inv. apply termios_process_one_step in E. destruct E as (-> & E2 & _).
    repeat split; auto; discriminate.
  - unfold sterm_deferred_op, termios_process in H.
    destruct (termios_process_q (termio_q sdata) sdata os) as [[s1 a]|] eqn:E;
      [|discriminate].
    some_inv. apply termios_process_q_frame in E.
    destruct E as (_ & E1 & E2 & _ & _).
    cbn [handling_modemstate set_deferred_op_pending]. rewrite E1.
    repeat split; auto; discriminate.
  - unfold sterm_modemstate in H. some_inv.
    repeat split; try discriminate; try exact Hh.
    destruct (nonzero _); reflexivity.
  - rewrite (termios_timeout_guarded _ _ Hh) in H. some_inv.
    repeat split; auto.
Qed.

Lemma run_guard_stuck cs : forall sdata sdata' outs,
  handling_modemstate sdata = true ->
  run sdata cs = Some (sdata', outs) ->
  handling_modemstate sdata' = true /\
  filter is_modemstate_event (all_actions outs) = [] /\
  Forall2 (fun c out => is_tick c = true -> snd out = []) cs outs.
Proof.
  induction cs as [|c cs IH]; intros sdata sdata' outs Hh H; cbn [run] in H.
  - some_inv. repeat split; auto.
  - destruct (do_call sdata c) as [[s1 [ret acts]]|] eqn:Hc; [|discriminate].
    destruct (run s1 cs) as [[s2 outs']|] eqn:Hr; [|discriminate].
    some_inv.
    destruct (do_call_guard_stuck _ _ _ _ _ Hh Hc) as (Hh1 & He1 & Ht1).
    destruct (IH _ _ _ Hh1 Hr) as (Hh2 & He2 & Hf).
    split; [assumption|]. split.
    + unfold all_actions in *. cbn [flat_map snd].
      rewrite filter_app, He1, He2. reflexivity.
    + constructor; assumption.
Qed.

(** *** The stored word stays a byte *)

Lemma byte_of_bits x :
  0 <= x -> (forall n, 8 <= n -> Z.testbit x n = false) -> 0 <= x < 256.
Proof.
  intros Hx Hhigh.
  assert (Hm : x = x mod 2 ^ 8).
  { apply Z.bits_inj'. intros n Hn.
    destruct (Z_lt_le_dec n 8) as [Hlt|Hge].
    - rewrite Z.mod_pow2_bits_low by lia. reflexivity.
    - rewrite Z.mod_pow2_bits_high by lia. apply Hhigh. exact Hge. }
  rewrite Hm. apply Z.mod_pos_bound. reflexivity.
Qed.

Lemma tick_word_range cur last mask :
  Z.land cur 0xF0 = cur -> 0 <= last < 256 ->
  0 <= Z.land (Z.lor cur (Z.shiftr (Z.lxor cur last) 4)) mask < 256.
Proof.
  intros Hc Hl.
  assert (Hcur : 0 <= cur).
  { rewrite <- Hc. apply Z.land_nonneg. right. discriminate. }
  apply byte_of_bits.
  - apply Z.land_nonneg. left. apply Z.lor_nonneg. split; [exact Hcur|].
    apply Z.shiftr_nonneg. apply Z.lxor_nonneg. lia.
  - intros n Hn.
    rewrite Z.land_spec, Z.lor_spec, Z.shiftr_spec, Z.lxor_spec by lia.
    rewrite (testbit_high_256 last (n + 4)) by lia.
    destruct (Z.testbit cur n) eqn:H1.
    { apply (levels_testbit _ _ Hc) in H1. lia. }
    destruct (Z.testbit cur (n + 4)) eqn:H2.
    { apply (levels_testbit _ _ Hc) in H2. lia. }
    reflexivity.
Qed.

Lemma termios_timeout_range sdata e :
  0 <= last_modemstate sdata < 256 ->
  0 <= last_modemstate (fst (termios_timeout sdata e)) < 256.
Proof.
  intros Hl. unfold termios_timeout.
  destruct (handling_modemstate sdata); [exact Hl|].
  destruct (e_TIOCMGET e) as [val|en]; [|exact Hl].
  cbn. apply tick_word_range; [|exact Hl].
  apply sampled_levels_bits.
Qed.

Lemma do_call_last_modemstate sdata c sdata1 out :
  is_tick c = false ->
  do_call sdata c = Some (sdata1, out) ->
  last_modemstate sdata1 = last_modemstate sdata.
Proof.
  intros Hc H. destruct c; try discriminate Hc; cbn [do_call] in H.
  - unfold sterm_sub_open, sub_open_out_uucp, sub_open_out, sterm_modemstate
      in H.
    repeat break_hyp; some_inv; reflexivity.
  - unfold sterm_check_close_drain, out_eagain, out_rm_uucp in H.
    repeat break_hyp; some_inv; reflexivity.
  - some_inv. reflexivity.
  - unfold termios_set_get, termios_set, out_unlock, termios_enqueue,
      sterm_start_deferred_op in H.
    repeat break_hyp; some_inv; reflexivity.
  - destruct (termios_process_one sdata e) as [[s1 a]|] eqn:E; [|discriminate].
    some_inv. apply termios_process_one_step in E. destruct E as (-> & _).
    reflexivity.
  - unfold sterm_deferred_op, termios_process in H.
    destruct (termios_process_q (termio_q sdata) sdata os) as [[s1 a]|] eqn:E;
      [|discriminate].
    some_inv. apply termios_process_q_frame in E. apply E.
  - unfold sterm_modemstate in H. some_inv. reflexivity.
Qed.

Lemma do_call_range sdata c sdata1 out :
  0 <= last_modemstate sdata < 256 ->
  do_call sdata c = Some (sdata1, out) ->
  0 <= last_modemstate sdata1 < 256.
Proof.
  intros Hl H. destruct (is_tick c) eqn:Hc.
  - destruct c; try discriminate Hc. cbn [do_call] in H.
    pose proof (termios_timeout_range sdata e Hl) as Hr.
    destruct (termios_timeout sdata e) as [s1 a]. some_inv. exact Hr.
  - rewrite (do_call_last_modemstate _ _ _ _ Hc H). exact Hl.
Qed.

(** In every state the endpoint reaches from a zeroed one the stored word
    is a byte. *)
Lemma run_last_modemstate_range cs : forall sdata sdata' outs,
  0 <= last_modemstate sdata < 256 ->
  run sdata cs = Some (sdata', outs) ->
  0 <= last_modemstate sdata' < 256.
Proof.
  induction cs as [|c cs IH]; intros sdata sdata' outs Hl H; cbn [run] in H.
  - some_inv. exact Hl.
  - destruct (do_call sdata c) as [[s1 out]|] eqn:Hc; [|discriminate].
    destruct (run s1 cs) as [[s2 outs']|] eqn:Hr; [|discriminate].
    some_inv. apply (IH _ _ _ (do_call_range _ _ _ _ Hl Hc) Hr).
Qed.

(** C9.  A tick whose TIOCMGET fails returns with the guard
    [handling_modemstate] set.  From then on, whatever is called on the
    endpoint (subscriptions with a mask that restart the timer, opens and
    closes included), the guard stays set, every later tick returns at the
    guard without any call (so it never restarts the timer), and no
    modem-state event is dispatched. *)
Theorem poll_failure_sticks sdata e en cs sdata' outs :
  handling_modemstate sdata = false ->
  e_TIOCMGET e = sys_err en ->
  run sdata (c_timeout e :: cs) = Some (sdata', outs) ->
  handling_modemstate (fst (termios_timeout sdata e)) = true /\
  (exists outs',
     outs = (0, [act_TIOCMGET]) :: outs' /\
     Forall2 (fun c out => is_tick c = true -> snd out = []) cs outs') /\
  handling_modemstate sdata' = true /\
  filter is_modemstate_event (all_actions outs) = [].
Proof.
  intros Hh He H. cbn [run do_call] in H.
  rewrite (termios_timeout_poll_fails _ _ _ Hh He) in *.
  destruct (run (set_handling_modemstate true sdata) cs)
    as [[s2 outs']|] eqn:Hr; [|discriminate].
  some_inv.
  destruct (run_guard_stuck cs (set_handling_modemstate true sdata) _ _
              eq_refl Hr) as (H1 & H2 & H3).
  split; [reflexivity|]. split; [exists outs'; split; [reflexivity|exact H3]|].
  split; [exact H1|].
  unfold all_actions in *. cbn [flat_map snd app filter is_modemstate_event].
  exact H2.
Qed.

(** *** The BREAK latch *)

Lemma termios_set_get_break sdata val o gs dn data e sdata1 ret acts :
  errno_nonzero ->
  termios_set_get sdata val o gs dn data e = Some (sdata1, ret, acts) ->
  break_set sdata1 =
  break_after (break_set sdata) (c_set_get val o gs dn data e) ret.
Proof.
  intros (E1 & E2 & E3 & E4 & _).
  apply Z.eqb_neq in E1, E2, E3, E4.
  unfold termios_set_get, termios_set, out_unlock, termios_enqueue,
    sterm_start_deferred_op.
  intros H. destruct o; cbn [break_after].
  - repeat break_hyp; some_inv; reflexivity.
  - repeat break_hyp; some_inv; reflexivity.
  - repeat break_hyp; some_inv;
      cbn [break_set set_break_set set_termio_q set_deferred_op_pending];
      rewrite_bools; cbn [andb negb Z.eqb]; rewrite_bools;
      rewrite ?andb_false_r; reflexivity.
Qed.

Lemma do_call_break sdata c sdata1 ret acts :
  errno_nonzero ->
  do_call sdata c = Some (sdata1, (ret, acts)) ->
  break_set sdata1 = break_after (break_set sdata) c ret.
Proof.
  intros He H. destruct c; cbn [do_call] in H.
  - pose proof (sterm_sub_open_frame sdata e) as F.
    destruct (sterm_sub_open sdata e) as [[s1 r] a]. some_inv. apply F.
  - pose proof (sterm_check_close_drain_frame sdata state e) as F.
    destruct (sterm_check_close_drain sdata state e) as [[[s1 r] nt] a].
    some_inv. apply F.
  - some_inv. reflexivity.
  - destruct (termios_set_get sdata val o gs dn data e) as [[[s1 r] a]|] eqn:E;
      [|discriminate].
    some_inv. apply (termios_set_get_break _ _ _ _ _ _ _ _ _ _ He E).
  - destruct (termios_process_one sdata e) as [[s1 a]|] eqn:E; [|discriminate].
    some_inv. apply termios_process_one_step in E. destruct E as (-> & _).
    reflexivity.
  - unfold sterm_deferred_op, termios_process in H.
    destruct (termios_process_q (termio_q sdata) sdata os) as [[s1 a]|] eqn:E;
      [|discriminate].
    some_inv. apply termios_process_q_frame in E. apply E.
  - unfold sterm_modemstate in H. some_inv. reflexivity.
  - pose proof (termios_timeout_break sdata e) as F.
    destruct (termios_timeout sdata e) as [s1 a]. some_inv. exact F.
Qed.

Lemma run_break cs : forall sdata sdata' outs,
  errno_nonzero ->
  run sdata cs = Some (sdata', outs) ->
  break_set sdata' = last_break_set (break_set sdata) cs outs.
Proof.
  induction cs as [|c cs IH]; intros sdata sdata' outs He H; cbn [run] in H.
  - some_inv. reflexivity.
  - destruct (do_call sdata c) as [[s1 [ret acts]]|] eqn:Hc; [|discriminate].
    destruct (run s1 cs) as [[s2 outs']|] eqn:Hr; [|discriminate].
    some_inv. cbn [last_break_set fst].
    rewrite <- (do_call_break _ _ _ _ _ He Hc). apply IH; assumption.
Qed.

(** The runner on a queue of BREAK entries: each completes without error
    with the latch, in queue order. *)
Lemma termios_process_q_brk q : forall sdata os,
  termio_q sdata = q -> Forall is_brk q ->
  termios_process_q q sdata os =
  Some (set_termio_q [] sdata, brk_completions (break_set sdata) q).
Proof.
  induction q as [|qe q IH]; intros sdata os Hq Hb.
  - cbn. destruct sdata. cbn in Hq. subst. reflexivity.
  - inversion Hb as [|? ? Hqe Hb']; subst.
    cbn [termios_process_q]. unfold termios_process_one, termios_get.
    rewrite Hq, Hqe. cbn [app].
    rewrite (IH (set_termio_q q sdata) _ eq_refl Hb'). reflexivity.
Qed.

(** Whatever else is queued, the runner reports the latch for a BREAK entry
    at the end of the queue, after the entries before it. *)
Lemma termios_process_q_last_brk q : forall sdata os qe sdata1 acts,
  termio_q sdata = q ++ [qe] -> is_brk qe ->
  termios_process_q (q ++ [qe]) sdata os = Some (sdata1, acts) ->
  exists before,
    acts = before ++ brk_completions (break_set sdata) [qe].
Proof.
  induction q as [|x q IH]; intros sdata os qe sdata1 acts Hq Hb H;
    cbn [app termios_process_q] in H.
  - unfold termios_process_one, termios_get in H. cbn [app] in Hq.
    rewrite Hq, Hb in H. some_inv. exists []. reflexivity.
  - destruct (termios_process_one sdata (os 0%nat)) as [[s1 a1]|] eqn:H1;
      [|discriminate].
    destruct (termios_process_q (q ++ [qe]) s1 _) as [[s2 a2]|] eqn:H2;
      [|discriminate].
    some_inv. apply termios_process_one_step in H1. destruct H1 as (-> & _).
    apply IH in H2; [|rewrite Hq; reflexivity|exact Hb].
    destruct H2 as [before ->]. exists (a1 ++ before).
    rewrite app_assoc. reflexivity.
Qed.

Lemma brk_set_succeeds sdata v gs dn data e sdata1 acts :
  ENOMEM <> 0 ->
  open sdata = true -> write_only sdata = false ->
  v = SERGENSIO_BREAK_ON \/ v = SERGENSIO_BREAK_OFF -> v <> 0 ->
  termios_set_get sdata v TERMIO_OP_BRK gs dn data e = Some (sdata1, 0, acts) ->
  break_set sdata1 = (v =? SERGENSIO_BREAK_ON) /\
  open sdata1 = true /\ write_only sdata1 = false /\
  (Forall is_brk (termio_q sdata) -> Forall is_brk (termio_q sdata1)).
Proof.
  intros Hm Ho Hw Hv Hnz.
  assert (Hv' : (v =? SERGENSIO_BREAK_ON) = true \/
                (v =? SERGENSIO_BREAK_OFF) = true).
  { destruct Hv as [->| ->]; rewrite Z.eqb_refl; auto. }
  apply nonzero_true in Hnz.
  unfold termios_set_get, termios_set, out_unlock, termios_enqueue,
    sterm_start_deferred_op.
  rewrite Ho, Hw, Hnz. cbn [negb]. intros H.
  repeat break_hyp; some_inv; try discriminate; try contradiction;
    try (destruct Hv' as [Hv'|Hv']; discriminate Hv');
    cbn [break_set open write_only termio_q set_break_set set_termio_q
         set_deferred_op_pending] in *;
    (split; [reflexivity|]); (split; [assumption|]); (split; [assumption|]);
    intros Hq;
    repeat match goal with
           | H : termio_q _ = _ |- _ => rewrite H in Hq; clear H
           end;
    first [ exact Hq
          | constructor; [reflexivity|constructor]
          | inversion Hq; subst; constructor; [assumption|];
            apply Forall_app; split; [assumption|];
            constructor; [reflexivity|constructor] ].
Qed.

Lemma brk_get_queued sdata d data e :
  open sdata = true -> write_only sdata = false -> e_zalloc e = true ->
  exists sdata1 acts,
    termios_set_get sdata 0 TERMIO_OP_BRK None (Some d) data e =
    Some (sdata1, 0, acts) /\
    break_set sdata1 = break_set sdata /\
    termio_q sdata1 =
    termio_q sdata ++ [{| op := TERMIO_OP_BRK; getset := None; done := d;
                          cb_data := data |}].
Proof.
  intros Ho Hw Hz.
  unfold termios_set_get, out_unlock, termios_enqueue,
    sterm_start_deferred_op.
  rewrite Ho, Hw, Hz. cbn [negb nonzero Z.eqb].
  destruct (termio_q sdata) eqn:Hq; [destruct (deferred_op_pending _)|];
    do 2 eexists; (split; [reflexivity|]); cbn; rewrite ?Hq; split; reflexivity.
Qed.

Lemma brk_invalid sdata v gs dn data e :
  open sdata = true -> write_only sdata = false ->
  dn = None \/ e_zalloc e = true ->
  v <> 0 -> v <> SERGENSIO_BREAK_ON -> v <> SERGENSIO_BREAK_OFF ->
  exists acts,
    termios_set_get sdata v TERMIO_OP_BRK gs dn data e =
    Some (sdata, EINVAL, acts) /\
    filter is_os_action acts = [].
Proof.
  intros Ho Hw Hz Hnz Hon Hoff.
  apply nonzero_true in Hnz. apply Z.eqb_neq in Hon, Hoff.
  unfold termios_set_get, termios_set, out_unlock.
  rewrite Ho, Hw, Hnz, Hon, Hoff. cbn [negb].
  destruct dn as [d|]; [destruct Hz as [Hz|Hz]; [discriminate|rewrite Hz]|];
    try destruct (nonzero EINVAL); eexists; split; reflexivity.
Qed.

(** C5 (amended).  On an open endpoint a BREAK set with ON or OFF that
    succeeds latches that value, and a BREAK get queued next completes without
    error with that value; after any sequence of calls [break_set] is the
    value of the last successful BREAK set; a BREAK submit with a nonzero
    value other than ON and OFF (its queue entry, if a completion is given,
    being allocated) returns EINVAL, calls nothing on the device and leaves
    the endpoint unchanged.  The value zero is the get. *)
Theorem break_latch :
  errno_nonzero -> break_values_ok ->
  (forall sdata v gs dn data e sdata1 acts,
     open sdata = true -> write_only sdata = false ->
     v = SERGENSIO_BREAK_ON \/ v = SERGENSIO_BREAK_OFF ->
     termios_set_get sdata v TERMIO_OP_BRK gs dn data e =
     Some (sdata1, 0, acts) ->
     break_set sdata1 = (v =? SERGENSIO_BREAK_ON) /\
     forall d data' e', e_zalloc e' = true ->
       exists sdata2 acts2,
         termios_set_get sdata1 0 TERMIO_OP_BRK None (Some d) data' e' =
         Some (sdata2, 0, acts2) /\
         (forall os sdata3 acts3,
            sterm_deferred_op sdata2 os = Some (sdata3, acts3) ->
            exists before,
              acts3 = before ++ [act_done d 0 v data'; act_free]) /\
         (Forall is_brk (termio_q sdata) ->
          forall os, exists sdata3 before,
            sterm_deferred_op sdata2 os =
            Some (sdata3, before ++ [act_done d 0 v data'; act_free]))) /\
  (forall sdata cs sdata' outs,
     run sdata cs = Some (sdata', outs) ->
     break_set sdata' = last_break_set (break_set sdata) cs outs) /\
  (forall sdata v gs dn data e,
     open sdata = true -> write_only sdata = false ->
     dn = None \/ e_zalloc e = true ->
     v <> 0 -> v <> SERGENSIO_BREAK_ON -> v <> SERGENSIO_BREAK_OFF ->
     exists acts,
       termios_set_get sdata v TERMIO_OP_BRK gs dn data e =
       Some (sdata, EINVAL, acts) /\
       filter is_os_action acts = []).
Proof.
  intros He (Hon & Hoff & Hne). split; [|split].
  - intros sdata v gs dn data e sdata1 acts Ho Hw Hv H.
    assert (Hnz : v <> 0) by (destruct Hv; subst; assumption).
    destruct He as (_ & Hm & _).
    destruct (brk_set_succeeds _ _ _ _ _ _ _ _ Hm Ho Hw Hv Hnz H)
      as (Hb & Ho1 & Hw1 & Hq1).
    split; [exact Hb|]. intros d data' e' Hz.
    destruct (brk_get_queued sdata1 d data' e' Ho1 Hw1 Hz)
      as (sdata2 & acts2 & Hg & Hb2 & Hq2).
    assert (Hlatch : (if break_set sdata2 then SERGENSIO_BREAK_ON
                      else SERGENSIO_BREAK_OFF) = v).
    { rewrite Hb2, Hb.
      destruct Hv as [->| ->]; [rewrite Z.eqb_refl; reflexivity|].
      destruct (Z.eqb_spec SERGENSIO_BREAK_OFF SERGENSIO_BREAK_ON);
        congruence. }
    exists sdata2, acts2. split; [exact Hg|]. split.
    + intros os sdata3 acts3 Hd.
      unfold sterm_deferred_op, termios_process in Hd. rewrite Hq2 in Hd.
      destruct (termios_process_q _ sdata2 os) as [[s3 a3]|] eqn:Hp;
        [|discriminate].
      injection Hd as _ <-.
      apply termios_process_q_last_brk in Hp;
        [|exact Hq2|reflexivity].
      destruct Hp as [before ->]. exists before.
      unfold brk_completions. cbn [flat_map done cb_data app].
      rewrite Hlatch. reflexivity.
    + intros Hq os. unfold sterm_deferred_op, termios_process.
      rewrite (termios_process_q_brk (termio_q sdata2) sdata2 os eq_refl).
      * rewrite Hq2. unfold brk_completions. rewrite flat_map_app.
        cbn [flat_map done cb_data app]. rewrite Hlatch.
        do 2 eexists. reflexivity.
      * rewrite Hq2. apply Forall_app. split; [auto|].
        repeat constructor.
  - intros sdata cs sdata' outs. apply run_break. exact He.
  - apply brk_invalid.
Qed.

(** *** Submitting on a closed endpoint *)

(** C7 (amended).  On a non-write-only endpoint that is not open a submit
    of any kind first allocates the queue entry when a completion is given:
    if that fails it returns ENOMEM; otherwise it returns EBUSY and frees the
    entry again.  In every case nothing is called on the device or the lock
    file, the endpoint is unchanged and nothing is queued; without a
    completion nothing is allocated. *)
Theorem submit_closed_busy sdata val o gs dn data e :
  EBUSY <> 0 ->
  write_only sdata = false -> open sdata = false ->
  termios_set_get sdata val o gs dn data e =
  match dn with
  | None => Some (sdata, EBUSY, [])
  | Some _ =>
      if e_zalloc e then Some (sdata, EBUSY, [act_zalloc true; act_free])
      else Some (sdata, ENOMEM, [act_zalloc false])
  end /\
  exists ret acts,
    termios_set_get sdata val o gs dn data e = Some (sdata, ret, acts) /\
    filter is_os_action acts = [] /\
    (dn = None \/ e_zalloc e = true -> ret = EBUSY) /\
    (dn = None -> acts = []).
Proof.
  intros Hb Hw Ho. apply nonzero_true in Hb.
  unfold termios_set_get, out_unlock. rewrite Hw, Ho. cbn [negb].
  destruct dn as [d|]; [destruct (e_zalloc e) eqn:Hz|]; rewrite ?Hb; cbn [app].
  - split; [reflexivity|]. do 2 eexists. repeat split.
    intros H. discriminate H.
  - split; [reflexivity|]. do 2 eexists.
    split; [reflexivity|]. split; [reflexivity|].
    split; [intros [H|H]; discriminate H|intros H; discriminate H].
  - split; [reflexivity|]. do 2 eexists. repeat split.
Qed.

(** *** Opening *)

Lemma sub_open_success sdata e sdata1 acts :
  EBUSY <> 0 ->
  sterm_sub_open sdata e = (sdata1, 0, acts) ->
  open sdata1 = true /\ sent_first_modemstate sdata1 = false /\
  write_only sdata1 = write_only sdata /\
  termio_q sdata1 = termio_q sdata /\
  In act_TIOCCBRK acts.
Proof.
  intros Hb H.
  unfold sterm_sub_open, sub_open_out_uucp, sub_open_out, sterm_modemstate
    in H.
  repeat break_hyp; some_inv; try contradiction; try discriminate;
    cbn; repeat split; auto 10.
Qed.

(** C6.  On the code the open clears BREAK on the device (TIOCCBRK) but
    leaves [break_set] as it was: after an endpoint is opened again with
    [break_set] still set from before the close, a BREAK get queued right
    after the open completes with ON. *)
Theorem reopen_keeps_break_latch sdata e sdata1 acts d data e' :
  EBUSY <> 0 ->
  write_only sdata = false ->
  break_set sdata = true ->
  termio_q sdata = [] ->
  sterm_sub_open sdata e = (sdata1, 0, acts) ->
  e_zalloc e' = true ->
  In act_TIOCCBRK acts /\
  break_set sdata1 = true /\
  exists sdata2 acts2,
    termios_set_get sdata1 0 TERMIO_OP_BRK None (Some d) data e' =
    Some (sdata2, 0, acts2) /\
    forall os, exists sdata3,
      sterm_deferred_op sdata2 os =
      Some (sdata3, [act_done d 0 SERGENSIO_BREAK_ON data; act_free]).
Proof.
  intros Hb Hw Hbrk Hq Hopen Hz.
  destruct (sub_open_success _ _ _ _ Hb Hopen) as (Ho1 & _ & Hw1 & Hq1 & Hc).
  pose proof (sterm_sub_open_frame sdata e) as F. rewrite Hopen in F.
  destruct F as (Hb1 & _). rewrite Hbrk in Hb1.
  split; [exact Hc|]. split; [exact Hb1|].
  rewrite Hw in Hw1.
  destruct (brk_get_queued sdata1 d data e' Ho1 Hw1 Hz)
    as (sdata2 & acts2 & Hg & Hb2 & Hq2).
  exists sdata2, acts2. split; [exact Hg|]. intros os.
  unfold sterm_deferred_op, termios_process.
  rewrite (termios_process_q_brk (termio_q sdata2) sdata2 os eq_refl).
  - rewrite Hq2, Hq1, Hq, Hb2, Hb1. eexists. reflexivity.
  - rewrite Hq2, Hq1, Hq. repeat constructor.
Qed.

(** *** The forced report *)







(** *** The accessor of a synchronous set *)

Lemma dtr_defined termio m val : termios_get_set_dtr termio (Some m) val <> None.
Proof. unfold termios_get_set_dtr. repeat break_goal; discriminate. Qed.

Lemma rts_defined termio m val : termios_get_set_rts termio (Some m) val <> None.
Proof. unfold termios_get_set_rts. repeat break_goal; discriminate. Qed.

(** C10.  A MODEM_CTL submit without completion has no value exactly when
    it reaches the accessor call of the synchronous set (endpoint not
    write-only and open, value not zero, TIOCMGET succeeded): the call goes
    through the queue entry, which was not allocated, whatever accessor was
    passed.  With a completion the DTR and RTS submits always have a value.
    The TERMIO set calls the accessor it was passed: without completion it
    has a value whenever the accessor has one, and a successful set writes
    back the termios the accessor produced. *)
Theorem mctl_set_needs_completion :
  (forall sdata val gs data e,
     termios_set_get sdata val TERMIO_OP_MCTL gs None data e = None <->
     write_only sdata = false /\ open sdata = true /\ val <> 0 /\ sampled e) /\
  (forall sdata val gs d data e,
     gs = termios_get_set_dtr \/ gs = termios_get_set_rts ->
     termios_set_get sdata val TERMIO_OP_MCTL (Some gs) (Some d) data e
     <> None) /\
  (forall sdata val f data e,
     (forall termio, f (Some termio) None val <> None) ->
     termios_set_get sdata val TERMIO_OP_TERMIO (Some f) None data e
     <> None) /\
  (forall sdata val f data e termio r,
     write_only sdata = false -> open sdata = true -> val <> 0 ->
     e_tcgetattr e = sys_ok termio ->
     f (Some termio) None val = Some r -> g_err r = 0 ->
     termios_set_get sdata val TERMIO_OP_TERMIO (Some f) None data e =
     Some (sdata, 0,
           [act_tcgetattr; act_tcsetattr (contents termio (g_termio r))])).
Proof.
  split; [|split; [|split]].
  - intros sdata val gs data e.
    unfold termios_set_get, termios_set, out_unlock, termios_enqueue, sampled.
    destruct (write_only sdata); [split; [discriminate|intros (H & _); discriminate]|].
    destruct (open sdata); cbn [negb];
      [|split; [discriminate|intros (_ & H & _); discriminate]].
    destruct (nonzero val) eqn:Hv.
    + apply nonzero_true in Hv.
      destruct (e_TIOCMGET e) as [mctl|en].
      * split; [intros _; eauto 6|reflexivity].
      * split; [discriminate|intros (_ & _ & _ & m & H); discriminate].
    + apply nonzero_false in Hv.
      split; [discriminate|intros (_ & _ & H & _); contradiction].
  - intros sdata val gs d data e Hgs.
    assert (Hdef : forall m, gs None (Some m) val <> None).
    { intros m. destruct Hgs as [->| ->]; [apply dtr_defined|apply rts_defined]. }
    unfold termios_set_get, termios_set, out_unlock, termios_enqueue,
      sterm_start_deferred_op.
    cbn [getset].
    repeat first [break_hyp | break_goal]; try discriminate;
      match goal with
      | H : _ None (Some ?m) _ = None |- _ => destruct (Hdef m H)
      end.
  - intros sdata val f data e Hdef.
    unfold termios_set_get, termios_set, out_unlock, termios_enqueue.
    repeat first [break_hyp | break_goal]; try discriminate;
      match goal with
      | H : _ (Some ?t) None _ = None |- _ => destruct (Hdef t H)
      end.
  - intros sdata val f data e termio r Hw Ho Hv He Hf Hr.
    apply nonzero_true in Hv.
    unfold termios_set_get, termios_set, out_unlock, termios_enqueue.
    rewrite Hw, Ho, Hv, He, Hf, Hr. reflexivity.
Qed.

End Properties.

(** C1.  On the code, a DTR (an RTS) set with value OFF stores
    [mctl & TIOCM_DTR] ([mctl & TIOCM_RTS]): it keeps the bit it should
    clear and clears every other modem-control bit.  With DTR and RTS both
    raised ([mctl = 6]), DTR OFF leaves DTR raised and drops RTS, and RTS OFF
    leaves RTS raised and drops DTR. *)
Theorem dtr_rts_off_keeps_only_own_bit :
  (forall termio m,
     termios_get_set_dtr (P := linux) termio (Some m) SERGENSIO_DTR_OFF =
     Some {| g_err := 0; g_termio := termio;
             g_mctl := Some (Z.land m TIOCM_DTR);
             g_val := SERGENSIO_DTR_OFF |}) /\
  (forall termio m,
     termios_get_set_rts (P := linux) termio (Some m) SERGENSIO_RTS_OFF =
     Some {| g_err := 0; g_termio := termio;
             g_mctl := Some (Z.land m TIOCM_RTS);
             g_val := SERGENSIO_RTS_OFF |}) /\
  option_map g_mctl
    (termios_get_set_dtr (P := linux) None (Some (Z.lor TIOCM_DTR TIOCM_RTS))
                         SERGENSIO_DTR_OFF) = Some (Some TIOCM_DTR) /\
  option_map g_mctl
    (termios_get_set_rts (P := linux) None (Some (Z.lor TIOCM_DTR TIOCM_RTS))
                         SERGENSIO_RTS_OFF) = Some (Some TIOCM_RTS).
Proof.
  split; [|split; [|split]].
  - intros termio m. apply (termios_get_set_dtr_off (P := linux)); discriminate.
  - intros termio m. apply (termios_get_set_rts_off (P := linux)); discriminate.
  - reflexivity.
  - reflexivity.
Qed.

(** * The properties on concrete endpoints (Linux values) *)

Lemma linux_errno_nonzero : errno_nonzero (P := linux).
Proof. repeat split; discriminate. Defined.

Lemma linux_break_values_ok : break_values_ok (P := linux).
Proof. repeat split; discriminate. Defined.

(** The first tick after the open, CTS raised: the word 0x11 is stored. *)
Lemma termios_timeout_edges_witness :
  handling_modemstate sdata_open = false /\
  e_TIOCMGET (env_ok 0x20 0) = sys_ok 0x20 /\
  last_modemstate (fst (termios_timeout sdata_open (env_ok 0x20 0))) = 0x11 /\
  filter is_modemstate_event (snd (termios_timeout sdata_open (env_ok 0x20 0)))
  = [act_gensio_cb_modemstate true 0x11].
Proof.
  split; [reflexivity|]. split; [reflexivity|].
  pose proof (@termios_timeout_edges linux sdata_open (env_ok 0x20 0) 0x20
                eq_refl eq_refl) as H.
  cbv zeta in H. destruct H as (_ & Hl & Hf & _).
  split; [exact Hl|exact Hf].
Defined.

(** The claim C3 as stated fails: under the mask 0x10 a CTS edge is not
    reported. *)
Lemma cts_mask_0x10_reports_no_edge :
  ~ (forall (sdata : sterm_data (P := linux)) es,
       handling_modemstate sdata = false ->
       sent_first_modemstate sdata = true ->
       0 <= last_modemstate sdata < 256 ->
       modemstate_mask sdata = 0x10 ->
       Forall sampled es ->
       exists sdata' outs,
         run sdata (map c_timeout es) = Some (sdata', outs) /\
         events_per_call outs =
         edge_marks (Z.testbit (last_modemstate sdata) 4) (map cts_level es)).
Proof.
  intros H.
  destruct (H (sdata_subscribed 0x10) [env_ok 0x20 0])
    as (sdata' & outs & Hr & Hev); try reflexivity.
  - vm_compute. split; [intros Hgt; discriminate Hgt|reflexivity].
  - repeat constructor. exists 0x20. reflexivity.
  - vm_compute in Hr. inversion Hr; subst. vm_compute in Hev. discriminate Hev.
Qed.

Lemma cts_polls_sampled : Forall (sampled (P := linux)) cts_cd_polls.
Proof.
  repeat constructor; eexists; reflexivity.
Defined.

(** Under 0x11, from the endpoint whose stored word says CTS is low while
    the line is high: the first tick reports although CTS did not move;
    after it, CTS steady is not reported, CD raised is not, CTS dropped
    is. *)
Lemma cts_edge_events_witness :
  handling_modemstate sdata_cts_resubscribed = false /\
  sent_first_modemstate sdata_cts_resubscribed = true /\
  0 <= last_modemstate sdata_cts_resubscribed < 256 /\
  sampled (env_ok 0x20 0) /\ Forall sampled cts_cd_polls /\
  modemstate_mask sdata_cts_resubscribed = 0x11 /\
  exists sdata' out0 outs,
    run sdata_cts_resubscribed (map c_timeout (env_ok 0x20 0 :: cts_cd_polls))
    = Some (sdata', out0 :: outs) /\
    events_per_call [out0] = [1%nat] /\
    events_per_call outs = [0%nat; 0%nat; 1%nat].
Proof.
  assert (Hl : 0 <= last_modemstate sdata_cts_resubscribed < 256)
    by (vm_compute; split; [intros Hgt; discriminate Hgt|reflexivity]).
  assert (H0 : sampled (P := linux) (env_ok 0x20 0))
    by (exists 0x20; reflexivity).
  split; [reflexivity|]. split; [reflexivity|]. split; [exact Hl|].
  split; [exact H0|]. split; [exact cts_polls_sampled|].
  split; [reflexivity|].
  exact (proj2 (@cts_edge_events linux sdata_cts_resubscribed (env_ok 0x20 0)
                  cts_cd_polls eq_refl eq_refl Hl H0 cts_polls_sampled)
           eq_refl).
Defined.

(** The claim C4 as stated fails: the poll completes when TIOCOUTQ fails,
    although no empty output queue was seen and the budget is not used
    up. *)
Lemma close_completes_when_TIOCOUTQ_fails :
  ~ (forall (sdata : sterm_data (P := linux)) e,
       let '(sdata1, err, _, _) :=
         sterm_check_close_drain sdata GENSIO_LL_CLOSE_STATE_DONE e in
       err = 0 <->
       (termio_q sdata = [] /\ timer_stopped sdata = true /\
        e_TIOCOUTQ e = sys_ok 0) \/
       close_timeouts_left sdata1 = 0).
Proof.
  intros H. specialize (H sdata_draining env_ioctl_fails).
  vm_compute in H. destruct H as [H _].
  destruct (H eq_refl) as [(_ & _ & Hq)|Hc]; discriminate.
Qed.

Lemma close_drain_completion_witness :
  EAGAIN <> 0 /\
  sterm_check_close_drain sdata_draining GENSIO_LL_CLOSE_STATE_DONE
    (env_ok 0 5) =
  (set_close_timeouts_left 199 sdata_draining, EAGAIN, Some (0, 10000),
   [act_TIOCOUTQ]) /\
  (let '(_, err, _, acts) :=
     sterm_check_close_drain sdata_draining GENSIO_LL_CLOSE_STATE_DONE
       (env_ok 0 5) in
   count_actions is_uucp_rm_lock acts = (if err =? 0 then 1%nat else 0%nat)).
Proof.
  assert (Hnz : EAGAIN <> 0) by discriminate.
  split; [exact Hnz|]. split; [reflexivity|].
  pose proof (@close_drain_completion linux sdata_draining (env_ok 0 5) Hnz)
    as (_ & H & _).
  destruct (sterm_check_close_drain sdata_draining
              GENSIO_LL_CLOSE_STATE_DONE (env_ok 0 5)) as [[[s1 err] nt] acts].
  apply H.
Defined.

(** The claim C5 as stated fails at the value zero, which is neither ON nor
    OFF: the submit is a get and returns 0. *)
Lemma break_zero_is_a_get :
  ~ (forall v,
       v <> SERGENSIO_BREAK_ON -> v <> SERGENSIO_BREAK_OFF ->
       exists sdata1 acts,
         termios_set_get sdata_open v TERMIO_OP_BRK None None 0 (env_ok 0 0) =
         Some (sdata1, EINVAL, acts) /\
         break_set sdata1 = break_set sdata_open).
Proof.
  intros H. destruct (H 0) as (sdata1 & acts & Hr & _); try discriminate.
Qed.

Lemma break_latch_witness :
  errno_nonzero /\ break_values_ok /\
  (exists sdata1 acts,
     termios_set_get sdata_open SERGENSIO_BREAK_ON TERMIO_OP_BRK None None 0
       (env_ok 0 0) = Some (sdata1, 0, acts) /\
     break_set sdata1 = true /\
     exists sdata2 acts2,
       termios_set_get sdata1 0 TERMIO_OP_BRK None (Some 7%nat) 0 (env_ok 0 0)
       = Some (sdata2, 0, acts2) /\
       forall os, exists sdata3 before,
         sterm_deferred_op sdata2 os =
         Some (sdata3,
               before ++ [act_done 7 0 SERGENSIO_BREAK_ON 0; act_free])) /\
  (exists acts,
     termios_set_get sdata_open 42 TERMIO_OP_BRK None None 0 (env_ok 0 0) =
     Some (sdata_open, EINVAL, acts) /\
     filter is_os_action acts = []) /\
  (forall cs sdata' outs,
     run sdata_open cs = Some (sdata', outs) ->
     break_set sdata' = last_break_set (break_set sdata_open) cs outs).
Proof.
  split; [exact linux_errno_nonzero|]. split; [exact linux_break_values_ok|].
  pose proof (@break_latch linux linux_errno_nonzero linux_break_values_ok)
    as (Hset & Hinv & Hbad).
  split; [|split].
  - do 2 eexists. split; [reflexivity|].
    destruct (Hset sdata_open SERGENSIO_BREAK_ON None None 0 (env_ok 0 0) _ _
                eq_refl eq_refl (or_introl eq_refl) eq_refl) as [Hb Hget].
    split; [exact Hb|].
    destruct (Hget 7%nat 0 (env_ok 0 0) eq_refl) as (s2 & a2 & Hg & _ & Hall).
    exists s2, a2. split; [exact Hg|]. apply Hall. constructor.
  - apply Hbad; try reflexivity; try discriminate. left. reflexivity.
  - intros cs sdata' outs. apply Hinv.
Defined.

(** Re-opening the endpoint that was closed with BREAK latched. *)
Lemma reopen_keeps_break_latch_witness :
  EBUSY <> 0 /\
  write_only sdata_closed_in_break = false /\
  break_set sdata_closed_in_break = true /\
  termio_q sdata_closed_in_break = [] /\
  snd (fst (sterm_sub_open sdata_closed_in_break (env_ok 0 0))) = 0 /\
  e_zalloc (env_ok 0 0) = true /\
  exists sdata2 acts2,
    termios_set_get (fst (fst (sterm_sub_open sdata_closed_in_break
                                 (env_ok 0 0))))
      0 TERMIO_OP_BRK None (Some 7%nat) 0 (env_ok 0 0) =
    Some (sdata2, 0, acts2) /\
    forall os, exists sdata3,
      sterm_deferred_op sdata2 os =
      Some (sdata3, [act_done 7 0 SERGENSIO_BREAK_ON 0; act_free]).
Proof.
  assert (Hnz : EBUSY <> 0) by discriminate.
  repeat (split; [first [exact Hnz | reflexivity]|]).
  exact (proj2 (proj2
    (@reopen_keeps_break_latch linux sdata_closed_in_break (env_ok 0 0)
       _ _ 7%nat 0 (env_ok 0 0) Hnz eq_refl eq_refl eq_refl eq_refl eq_refl))).
Defined.

(** The claim C7 as stated fails: with a completion the queue entry is
    allocated before the endpoint is found closed. *)
Lemma submit_closed_allocates :
  ~ (forall val o gs dn data e,
       exists acts,
         termios_set_get sdata_alloc val o gs dn data e =
         Some (sdata_alloc, EBUSY, acts) /\
         filter is_os_action acts = [] /\
         filter is_zalloc acts = []).
Proof.
  intros H.
  destruct (H SERGENSIO_BREAK_ON TERMIO_OP_BRK None (Some 7%nat) 0 (env_ok 0 0))
    as (acts & Hr & _ & Hz).
  vm_compute in Hr. inversion Hr; subst. discriminate Hz.
Qed.

Lemma submit_closed_busy_witness :
  EBUSY <> 0 /\ write_only sdata_alloc = false /\ open sdata_alloc = false /\
  termios_set_get sdata_alloc SERGENSIO_BREAK_ON TERMIO_OP_BRK None
    (Some 7%nat) 0 (env_ok 0 0) =
  Some (sdata_alloc, EBUSY, [act_zalloc true; act_free]).
Proof.
  assert (Hnz : EBUSY <> 0) by discriminate.
  split; [exact Hnz|]. split; [reflexivity|]. split; [reflexivity|].
  exact (proj1 (@submit_closed_busy linux sdata_alloc SERGENSIO_BREAK_ON
                  TERMIO_OP_BRK None (Some 7%nat) 0 (env_ok 0 0)
                  Hnz eq_refl eq_refl)).
Defined.



(** A failed poll, then a subscription and a tick with CTS raised. *)
Lemma poll_failure_sticks_witness :
  handling_modemstate sdata_open = false /\
  e_TIOCMGET env_ioctl_fails = sys_err 5%positive /\
  exists sdata' outs,
    run sdata_open [c_timeout env_ioctl_fails; c_modemstate 255;
                    c_timeout (env_ok 0x20 0)] = Some (sdata', outs) /\
    handling_modemstate sdata' = true /\
    filter is_modemstate_event (all_actions outs) = [].
Proof.
  split; [reflexivity|]. split; [reflexivity|].
  eexists. eexists. split; [vm_compute; reflexivity|].
  exact (proj2 (proj2
    (@poll_failure_sticks linux sdata_open env_ioctl_fails 5%positive
       [c_modemstate 255; c_timeout (env_ok 0x20 0)] _ _
       eq_refl eq_refl eq_refl))).
Defined.

(** A DTR set without completion on the open endpoint has no value. *)
Lemma mctl_set_needs_completion_witness :
  termios_set_get sdata_open SERGENSIO_DTR_ON TERMIO_OP_MCTL
    (Some termios_get_set_dtr) None 0 (env_ok 0 0) = None /\
  termios_set_get sdata_open SERGENSIO_DTR_ON TERMIO_OP_MCTL
    (Some termios_get_set_dtr) (Some 7%nat) 0 (env_ok 0 0) <> None.
Proof.
  pose proof (@mctl_set_needs_completion linux) as (Hnone & Hsome & _).
  split.
  - apply Hnone. repeat split; try discriminate. exists 0. reflexivity.
  - apply Hsome. left. reflexivity.
Defined.

(** * Properties of the termios adapter *)

Section AdapterProperties.
Context {P : Platform} {T : TermiosPlatform}.

Ltac split_hyp :=
  match goal with
  | H : context [match ?x with _ => _ end] |- _ => destruct x eqn:?
  end.

Ltac split_goal :=
  match goal with
  | |- context [match ?x with _ => _ end] => destruct x eqn:?
  end.

Ltac inv_some :=
  repeat match goal with
         | H : Some _ = Some _ |- _ => inversion H; clear H; subst
         | H : (_, _) = (_, _) |- _ => inversion H; clear H; subst
         | H : None = Some _ |- _ => discriminate H
         | H : Some _ = None |- _ => discriminate H
         end.

(** Equations between bit operations, bit by bit. *)
Ltac bitwise :=
  apply Z.bits_inj'; intros ?n ?Hn;
  repeat first [ rewrite Z.land_spec | rewrite Z.lor_spec
               | rewrite Z.lnot_spec by assumption | rewrite Z.bits_0 ];
  repeat match goal with
         | |- context [Z.testbit ?x ?n] => destruct (Z.testbit x n) eqn:?
         end;
  try reflexivity.

Lemma disjoint_bits a b n :
  Z.land a b = 0 -> Z.testbit a n && Z.testbit b n = false.
Proof. intros H. rewrite <- Z.land_spec, H. apply Z.bits_0. Qed.

Lemma under_mask_bits a mask n :
  Z.land a mask = a -> Z.testbit a n = true -> Z.testbit mask n = true.
Proof.
  intros H Ha. rewrite <- H, Z.land_spec in Ha.
  apply andb_true_iff in Ha. apply Ha.
Qed.

Lemma cflag_replace_cflag clear set t :
  tio_cflag (cflag_replace clear set t) =
  Z.lor (Z.land (tio_cflag t) (Z.lnot clear)) set.
Proof. unfold cflag_replace. rewrite !tio_cflag_set. reflexivity. Qed.

(** After [c &= ~clear; c |= set] with [set] under [clear]: the field is
    [set], the rest is as before. *)
Lemma replaced_field c clear set :
  Z.land set clear = set ->
  Z.land (Z.lor (Z.land c (Z.lnot clear)) set) clear = set.
Proof.
  intros H. apply Z.bits_inj'. intros n Hn.
  rewrite Z.land_spec, Z.lor_spec, Z.land_spec, Z.lnot_spec by assumption.
  destruct (Z.testbit set n) eqn:Hs.
  - rewrite (under_mask_bits _ _ _ H Hs). destruct (Z.testbit c n); reflexivity.
  - destruct (Z.testbit c n), (Z.testbit clear n); reflexivity.
Qed.

Lemma replaced_rest c clear set :
  Z.land set clear = set ->
  Z.land (Z.lor (Z.land c (Z.lnot clear)) set) (Z.lnot clear) =
  Z.land c (Z.lnot clear).
Proof.
  intros H. apply Z.bits_inj'. intros n Hn.
  rewrite !Z.land_spec, Z.lor_spec, Z.land_spec, !Z.lnot_spec by assumption.
  destruct (Z.testbit set n) eqn:Hs.
  - rewrite (under_mask_bits _ _ _ H Hs). destruct (Z.testbit c n); reflexivity.
  - destruct (Z.testbit c n), (Z.testbit clear n); reflexivity.
Qed.

Lemma datasize_set_reads_back t mctl n :
  datasize_codes_ok ->
  5 <= n <= 8 ->
  exists t',
    termios_get_set_datasize (Some t) mctl n = getset_ret 0 (Some t') mctl n /\
    termios_get_set_datasize (Some t') mctl 0 = getset_ret 0 (Some t') mctl n /\
    cflag_outside CSIZE t' = cflag_outside CSIZE t.
Proof.
  intros (H5 & H6 & H7 & H8 & Hnd) Hn.
  inversion Hnd as [|? ? N5 Hnd1]; subst.
  inversion Hnd1 as [|? ? N6 Hnd2]; subst.
  inversion Hnd2 as [|? ? N7 _]; subst.
  cbn [In] in N5, N6, N7.
  assert (E56 : (CS6 =? CS5) = false) by (apply Z.eqb_neq; intuition congruence).
  assert (E57 : (CS7 =? CS5) = false) by (apply Z.eqb_neq; intuition congruence).
  assert (E58 : (CS8 =? CS5) = false) by (apply Z.eqb_neq; intuition congruence).
  assert (E67 : (CS7 =? CS6) = false) by (apply Z.eqb_neq; intuition congruence).
  assert (E68 : (CS8 =? CS6) = false) by (apply Z.eqb_neq; intuition congruence).
  assert (E78 : (CS8 =? CS7) = false) by (apply Z.eqb_neq; intuition congruence).
  assert (Hc : n = 5 \/ n = 6 \/ n = 7 \/ n = 8) by lia.
  unfold termios_get_set_datasize, cflag_outside.
  destruct Hc as [-> | [-> | [-> | ->]]]; cbn [nonzero Z.eqb Pos.eqb negb];
    eexists; (split; [reflexivity|]);
    rewrite cflag_replace_cflag, replaced_field, replaced_rest by assumption;
    rewrite ?Z.eqb_refl, ?E56, ?E57, ?E58, ?E67, ?E68, ?E78;
    split; reflexivity.
Qed.

(** X1.  Data size: setting 5, 6, 7 or 8 succeeds, a get on the result
    reads the same number back, and the bits of [c_cflag] outside CSIZE are
    untouched. *)
Theorem datasize_round_trip t mctl n :
  datasize_codes_ok ->
  5 <= n <= 8 ->
  exists t',
    termios_get_set_datasize (Some t) mctl n = getset_ret 0 (Some t') mctl n /\
    termios_get_set_datasize (Some t') mctl 0 = getset_ret 0 (Some t') mctl n /\
    cflag_outside CSIZE t' = cflag_outside CSIZE t.
Proof. exact (datasize_set_reads_back t mctl n). Qed.

(** Decide the comparisons of the goal from the distinctness facts at
    hand. *)
Ltac nodup_facts :=
  repeat match goal with
         | H : NoDup (_ :: _) |- _ => inversion H; clear H; subst
         | H : NoDup [] |- _ => clear H
         end;
  cbn [In] in *.

Ltac decide_eqb :=
  repeat first
    [ rewrite Z.eqb_refl
    | match goal with
      | |- context [?a =? ?b] =>
          destruct (Z.eqb_spec a b);
          [solve [exfalso; intuition congruence]|]
      end ].

Lemma nonzero_zero : nonzero 0 = false.
Proof. reflexivity. Qed.

Lemma nonzero_true_iff z : nonzero z = true <-> z <> 0.
Proof. unfold nonzero. rewrite negb_true_iff, Z.eqb_neq. reflexivity. Qed.

(** The parity field of [c_cflag] after the set: the three flags hold what
    [val] holds. *)
Lemma parity_field_test c cmspar val x :
  x = PARENB \/ x = PARODD \/ x = cmspar ->
  Z.land (Z.lor (Z.land (Z.land c (Z.lnot (Z.lor PARENB PARODD)))
                        (Z.lnot cmspar)) val) x =
  Z.land val x.
Proof.
  intros [-> | [-> | ->]]; bitwise.
Qed.

Lemma parity_field_rest c cmspar val :
  Z.land val (Z.lor (Z.lor PARENB PARODD) cmspar) = val ->
  Z.land (Z.lor (Z.land (Z.land c (Z.lnot (Z.lor PARENB PARODD)))
                        (Z.lnot cmspar)) val)
         (Z.lnot (Z.lor (Z.lor PARENB PARODD) cmspar)) =
  Z.land c (Z.lnot (Z.lor (Z.lor PARENB PARODD) cmspar)).
Proof.
  intros H. apply Z.bits_inj'. intros n Hn.
  rewrite !Z.land_spec, !Z.lor_spec, !Z.land_spec, !Z.lnot_spec, !Z.lor_spec
    by assumption.
  destruct (Z.testbit val n) eqn:Hv.
  - pose proof (under_mask_bits _ _ _ H Hv) as Hm.
    rewrite !Z.lor_spec in Hm. rewrite Hm.
    destruct (Z.testbit c n), (Z.testbit PARENB n), (Z.testbit PARODD n),
      (Z.testbit cmspar n); reflexivity.
  - destruct (Z.testbit c n), (Z.testbit PARENB n), (Z.testbit PARODD n),
      (Z.testbit cmspar n); reflexivity.
Qed.

Lemma parity_set_reads_back cmspar t mctl v :
  CMSPAR = Some cmspar ->
  parity_consts_ok cmspar ->
  In v [SERGENSIO_PARITY_NONE; SERGENSIO_PARITY_ODD; SERGENSIO_PARITY_EVEN;
        SERGENSIO_PARITY_MARK; SERGENSIO_PARITY_SPACE] ->
  exists t',
    termios_get_set_parity (Some t) mctl v = getset_ret 0 (Some t') mctl v /\
    termios_get_set_parity (Some t') mctl 0 = getset_ret 0 (Some t') mctl v /\
    cflag_outside (Z.lor (Z.lor PARENB PARODD) cmspar) t' =
    cflag_outside (Z.lor (Z.lor PARENB PARODD) cmspar) t.
Proof.
  intros Hc (Nen & Nodd & Ncm & Deo & Dec & Doc & Hnd) Hv.
  nodup_facts.
  assert (Aen : forall a b, Z.land (Z.lor (Z.lor PARENB a) b) PARENB = PARENB)
    by (intros; bitwise).
  assert (Aen2 : forall a, Z.land (Z.lor PARENB a) PARENB = PARENB)
    by (intros; bitwise).
  assert (Aodd : forall b, Z.land (Z.lor (Z.lor PARENB PARODD) b) PARODD = PARODD)
    by (intros; bitwise).
  assert (Aodd2 : Z.land (Z.lor PARENB PARODD) PARODD = PARODD) by bitwise.
  assert (Acm : forall a, Z.land (Z.lor a cmspar) cmspar = cmspar)
    by (intros; bitwise).
  assert (Zeo : Z.land PARENB PARODD = 0) by assumption.
  assert (Zcm : Z.land (Z.lor PARENB PARODD) cmspar = 0).
  { rewrite Z.land_lor_distr_l, Dec, Doc. reflexivity. }
  assert (Zsp : Z.land (Z.lor PARENB cmspar) PARODD = 0).
  { rewrite Z.land_lor_distr_l, Deo, (Z.land_comm cmspar), Doc. reflexivity. }
  apply nonzero_true_iff in Nen, Nodd, Ncm.
  unfold termios_get_set_parity, parity_flags, cflag_outside.
  rewrite Hc.
  assert (Hnz : nonzero v = true).
  { apply nonzero_true_iff. cbn [In] in Hv. intuition congruence. }
  rewrite Hnz.
  cbn [In] in Hv.
  destruct Hv as [<- | [<- | [<- | [<- | [<- | []]]]]]; decide_eqb;
    eexists; (split; [reflexivity|]); rewrite !tio_cflag_set;
    rewrite !parity_field_test by auto;
    rewrite ?Aen, ?Aen2, ?Aodd, ?Aodd2, ?Acm, ?Zeo, ?Zcm, ?Zsp, ?Z.land_0_l,
      ?Z.land_diag, ?Dec, ?Doc, ?Deo;
    rewrite ?Nen, ?Nodd, ?Ncm, ?nonzero_zero;
    cbn [negb];
    (split; [reflexivity|]);
    apply parity_field_rest; bitwise.
Qed.

(** X2.  Parity, on a platform with CMSPAR: setting NONE, ODD, EVEN, MARK
    or SPACE succeeds, a get on the result reads the same value back, and
    the bits of [c_cflag] outside PARENB, PARODD and CMSPAR are untouched. *)
Theorem parity_round_trip cmspar t mctl v :
  CMSPAR = Some cmspar ->
  parity_consts_ok cmspar ->
  In v [SERGENSIO_PARITY_NONE; SERGENSIO_PARITY_ODD; SERGENSIO_PARITY_EVEN;
        SERGENSIO_PARITY_MARK; SERGENSIO_PARITY_SPACE] ->
  exists t',
    termios_get_set_parity (Some t) mctl v = getset_ret 0 (Some t') mctl v /\
    termios_get_set_parity (Some t') mctl 0 = getset_ret 0 (Some t') mctl v /\
    cflag_outside (Z.lor (Z.lor PARENB PARODD) cmspar) t' =
    cflag_outside (Z.lor (Z.lor PARENB PARODD) cmspar) t.
Proof. exact (parity_set_reads_back cmspar t mctl v). Qed.

(** X3.  Parity, on a platform without CMSPAR: MARK and SPACE are rejected
    with EINVAL and the termios is left as it was, while NONE, ODD and EVEN
    still read back as set. *)
Theorem parity_without_cmspar t mctl :
  CMSPAR = None ->
  PARENB <> 0 -> PARODD <> 0 -> Z.land PARENB PARODD = 0 ->
  NoDup [0; SERGENSIO_PARITY_NONE; SERGENSIO_PARITY_ODD;
         SERGENSIO_PARITY_EVEN; SERGENSIO_PARITY_MARK;
         SERGENSIO_PARITY_SPACE] ->
  (forall v,
     v = SERGENSIO_PARITY_MARK \/ v = SERGENSIO_PARITY_SPACE ->
     termios_get_set_parity (Some t) mctl v =
     getset_ret EINVAL (Some t) mctl v) /\
  (forall v,
     In v [SERGENSIO_PARITY_NONE; SERGENSIO_PARITY_ODD;
           SERGENSIO_PARITY_EVEN] ->
     exists t',
       termios_get_set_parity (Some t) mctl v = getset_ret 0 (Some t') mctl v /\
       termios_get_set_parity (Some t') mctl 0 = getset_ret 0 (Some t') mctl v).
Proof.
  intros Hc Nen Nodd Deo Hnd. nodup_facts.
  apply nonzero_true_iff in Nen, Nodd.
  assert (Tst : forall c val x,
             x = PARENB \/ x = PARODD ->
             Z.land (Z.lor (Z.land c (Z.lnot (Z.lor PARENB PARODD))) val) x =
             Z.land val x).
  { intros c val x [-> | ->]; bitwise. }
  assert (Aen : Z.land (Z.lor PARENB PARODD) PARENB = PARENB) by bitwise.
  assert (Aodd : Z.land (Z.lor PARENB PARODD) PARODD = PARODD) by bitwise.
  split.
  - intros v Hv.
    assert (Hnz : nonzero v = true).
    { apply nonzero_true_iff. intuition congruence. }
    unfold termios_get_set_parity, parity_flags. rewrite Hc, Hnz.
    destruct Hv as [-> | ->]; decide_eqb; reflexivity.
  - intros v Hv. cbn [In] in Hv.
    assert (Hnz : nonzero v = true).
    { apply nonzero_true_iff. intuition congruence. }
    unfold termios_get_set_parity, parity_flags. rewrite Hc, Hnz.
    destruct Hv as [<- | [<- | [<- | []]]]; decide_eqb;
      eexists; (split; [reflexivity|]); rewrite !tio_cflag_set;
      rewrite !Tst by auto;
      rewrite ?Aen, ?Aodd, ?Z.land_0_l, ?Z.land_diag, ?Deo;
      rewrite ?Nen, ?Nodd, ?nonzero_zero; reflexivity.
Qed.

Lemma stopbits_set_reads_back t mctl :
  CSTOPB <> 0 ->
  (forall n, n = 1 \/ n = 2 ->
     exists t',
       termios_get_set_stopbits (Some t) mctl n =
       getset_ret 0 (Some t') mctl n /\
       termios_get_set_stopbits (Some t') mctl 0 =
       getset_ret 0 (Some t') mctl n /\
       cflag_outside CSTOPB t' = cflag_outside CSTOPB t) /\
  (forall n, n <> 0 -> n <> 1 -> n <> 2 ->
     termios_get_set_stopbits (Some t) mctl n =
     getset_ret EINVAL (Some t) mctl n).
Proof.
  intros Hs. apply nonzero_true_iff in Hs. split.
  - intros n [-> | ->]; unfold termios_get_set_stopbits, cflag_outside;
      cbn [nonzero Z.eqb Pos.eqb negb];
      eexists; (split; [reflexivity|]); rewrite !tio_cflag_set.
    + assert (E : Z.land (Z.land (tio_cflag t) (Z.lnot CSTOPB)) CSTOPB = 0)
        by bitwise.
      rewrite E. cbn [Z.eqb negb]. split; [reflexivity|]. bitwise.
    + assert (E : Z.land (Z.lor (tio_cflag t) CSTOPB) CSTOPB = CSTOPB)
        by bitwise.
      rewrite E. fold (nonzero CSTOPB). rewrite Hs.
      split; [reflexivity|]. bitwise.
  - intros n H0 H1 H2. apply nonzero_true_iff in H0.
    apply Z.eqb_neq in H1, H2. unfold termios_get_set_stopbits.
    rewrite H0, H1, H2. reflexivity.
Qed.

(** X4.  Stop bits: setting 1 or 2 succeeds, a get on the result reads the
    same number back, and the bits outside CSTOPB are untouched; any other
    set value is rejected with EINVAL and the termios is left as it was. *)
Theorem stopbits_round_trip t mctl :
  CSTOPB <> 0 ->
  (forall n, n = 1 \/ n = 2 ->
     exists t',
       termios_get_set_stopbits (Some t) mctl n =
       getset_ret 0 (Some t') mctl n /\
       termios_get_set_stopbits (Some t') mctl 0 =
       getset_ret 0 (Some t') mctl n /\
       cflag_outside CSTOPB t' = cflag_outside CSTOPB t) /\
  (forall n, n <> 0 -> n <> 1 -> n <> 2 ->
     termios_get_set_stopbits (Some t) mctl n =
     getset_ret EINVAL (Some t) mctl n).
Proof. exact (stopbits_set_reads_back t mctl). Qed.

Lemma field_test_under c clear set x :
  Z.land set clear = set -> Z.land x clear = x ->
  Z.land (Z.lor (Z.land c (Z.lnot clear)) set) x = Z.land set x.
Proof.
  intros Hs Hx. apply Z.bits_inj'. intros n Hn.
  rewrite !Z.land_spec, Z.lor_spec, Z.land_spec, Z.lnot_spec by assumption.
  destruct (Z.testbit x n) eqn:Ex.
  - rewrite (under_mask_bits _ _ _ Hx Ex).
    destruct (Z.testbit c n), (Z.testbit set n); reflexivity.
  - rewrite !andb_false_r. reflexivity.
Qed.

Lemma flowcontrol_set_reads_back t mctl v :
  flow_consts_ok ->
  In v [SERGENSIO_FLOWCONTROL_NONE; SERGENSIO_FLOWCONTROL_XON_XOFF;
        SERGENSIO_FLOWCONTROL_RTS_CTS] ->
  exists t',
    termios_get_set_flowcontrol (Some t) mctl v =
    getset_ret 0 (Some t') mctl v /\
    termios_get_set_flowcontrol (Some t') mctl 0 =
    getset_ret 0 (Some t') mctl v /\
    cflag_outside (Z.lor (Z.lor IXON IXOFF) CRTSCTS) t' =
    cflag_outside (Z.lor (Z.lor IXON IXOFF) CRTSCTS) t.
Proof.
  intros (Nrts & Nxoff & Dis & Hnd) Hv. nodup_facts.
  set (clear := Z.lor (Z.lor IXON IXOFF) CRTSCTS).
  assert (Ux : Z.land (Z.lor IXON IXOFF) clear = Z.lor IXON IXOFF)
    by (unfold clear; bitwise).
  assert (Ur : Z.land CRTSCTS clear = CRTSCTS) by (unfold clear; bitwise).
  assert (U0 : Z.land 0 clear = 0) by apply Z.land_0_l.
  assert (Nx : nonzero (Z.lor IXON IXOFF) = true).
  { apply nonzero_true_iff. intros E. apply Nxoff.
    apply Z.lor_eq_0_iff in E. apply E. }
  apply nonzero_true_iff in Nrts.
  assert (Dis' : Z.land CRTSCTS (Z.lor IXON IXOFF) = 0)
    by (rewrite Z.land_comm; exact Dis).
  assert (Hnz : nonzero v = true).
  { apply nonzero_true_iff. cbn [In] in Hv. intuition congruence. }
  unfold termios_get_set_flowcontrol, cflag_outside. fold clear.
  rewrite Hnz. cbn [In] in Hv.
  destruct Hv as [<- | [<- | [<- | []]]]; decide_eqb;
    eexists; (split; [reflexivity|]);
    rewrite cflag_replace_cflag, !field_test_under, replaced_rest
      by assumption;
    rewrite ?Z.land_0_l, ?Z.land_diag, ?Dis, ?Dis';
    rewrite ?Nx, ?Nrts, ?nonzero_zero; split; reflexivity.
Qed.

(** X5.  Flow control: setting NONE, XON/XOFF or RTS/CTS succeeds from any
    prior setting, a get on the result reads the same value back (the modes
    exclude each other), and the bits of [c_cflag] outside IXON, IXOFF and
    CRTSCTS are untouched. *)
Theorem flowcontrol_round_trip t mctl v :
  flow_consts_ok ->
  In v [SERGENSIO_FLOWCONTROL_NONE; SERGENSIO_FLOWCONTROL_XON_XOFF;
        SERGENSIO_FLOWCONTROL_RTS_CTS] ->
  exists t',
    termios_get_set_flowcontrol (Some t) mctl v =
    getset_ret 0 (Some t') mctl v /\
    termios_get_set_flowcontrol (Some t') mctl 0 =
    getset_ret 0 (Some t') mctl v /\
    cflag_outside (Z.lor (Z.lor IXON IXOFF) CRTSCTS) t' =
    cflag_outside (Z.lor (Z.lor IXON IXOFF) CRTSCTS) t.
Proof. exact (flowcontrol_set_reads_back t mctl v). Qed.

Lemma iflowcontrol_set_reads_back t mctl :
  IXOFF <> 0 ->
  NoDup [0; SERGENSIO_FLOWCONTROL_NONE; SERGENSIO_FLOWCONTROL_XON_XOFF] ->
  (forall v,
     v = SERGENSIO_FLOWCONTROL_NONE \/ v = SERGENSIO_FLOWCONTROL_XON_XOFF ->
     exists t',
       termios_get_set_iflowcontrol (Some t) mctl v =
       getset_ret 0 (Some t') mctl v /\
       termios_get_set_iflowcontrol (Some t') mctl 0 =
       getset_ret 0 (Some t') mctl v /\
       cflag_outside IXOFF t' = cflag_outside IXOFF t) /\
  (forall v,
     v <> 0 -> v <> SERGENSIO_FLOWCONTROL_NONE ->
     v <> SERGENSIO_FLOWCONTROL_XON_XOFF ->
     termios_get_set_iflowcontrol (Some t) mctl v =
     getset_ret EINVAL (Some t) mctl v).
Proof.
  intros Nxoff Hnd. nodup_facts. apply nonzero_true_iff in Nxoff.
  split.
  - intros v Hv.
    assert (Hnz : nonzero v = true).
    { apply nonzero_true_iff. intuition congruence. }
    unfold termios_get_set_iflowcontrol, cflag_outside. rewrite Hnz.
    destruct Hv as [-> | ->]; decide_eqb;
      eexists; (split; [reflexivity|]);
      rewrite cflag_replace_cflag, replaced_field, replaced_rest
        by (apply Z.land_diag || apply Z.land_0_l);
      rewrite ?Nxoff, ?nonzero_zero; split; reflexivity.
  - intros v Hv0 Hv1 Hv2. apply nonzero_true_iff in Hv0.
    apply Z.eqb_neq in Hv1, Hv2. unfold termios_get_set_iflowcontrol.
    rewrite Hv0, Hv1, Hv2. reflexivity.
Qed.

(** X6.  Input flow control: setting NONE or XON/XOFF succeeds and reads
    back, only IXOFF being written; any other set value (RTS/CTS included)
    is rejected with EINVAL and the termios is left as it was. *)
Theorem iflowcontrol_round_trip t mctl :
  IXOFF <> 0 ->
  NoDup [0; SERGENSIO_FLOWCONTROL_NONE; SERGENSIO_FLOWCONTROL_XON_XOFF] ->
  (forall v,
     v = SERGENSIO_FLOWCONTROL_NONE \/ v = SERGENSIO_FLOWCONTROL_XON_XOFF ->
     exists t',
       termios_get_set_iflowcontrol (Some t) mctl v =
       getset_ret 0 (Some t') mctl v /\
       termios_get_set_iflowcontrol (Some t') mctl 0 =
       getset_ret 0 (Some t') mctl v /\
       cflag_outside IXOFF t' = cflag_outside IXOFF t) /\
  (forall v,
     v <> 0 -> v <> SERGENSIO_FLOWCONTROL_NONE ->
     v <> SERGENSIO_FLOWCONTROL_XON_XOFF ->
     termios_get_set_iflowcontrol (Some t) mctl v =
     getset_ret EINVAL (Some t) mctl v).
Proof. exact (iflowcontrol_set_reads_back t mctl). Qed.

(** ** The operation queue *)

(** X7.  A submit is all or nothing.  When it returns an error the endpoint
    is exactly as before, nothing was queued, the runner was not scheduled
    and the entry it may have allocated is freed; no tcsetattr was
    issued.  When it returns 0 the queue
    has grown by exactly the entry of the completion (at its end), nothing
    was freed, and the runner was scheduled exactly when the entry went into
    an empty queue whose runner was not pending. *)
Theorem submit_all_or_nothing sdata val o gs dn data e sdata1 ret acts :
  errno_nonzero ->
  termios_set_get sdata val o gs dn data e = Some (sdata1, ret, acts) ->
  (ret <> 0 ->
   sdata1 = sdata /\
   filter is_run acts = [] /\
   length (filter is_free acts) =
   length (filter (fun a => match a with act_zalloc ok => ok | _ => false end)
                  acts) /\
   filter (fun a => match a with act_tcsetattr _ => true | _ => false end) acts
   = []) /\
  (ret = 0 ->
   termio_q sdata1 = termio_q sdata ++ queued_entry o gs dn data /\
   filter is_free acts = [] /\
   filter is_run acts =
   match termio_q sdata, dn, deferred_op_pending sdata with
   | [], Some _, false => [act_run]
   | _, _, _ => []
   end).
Proof.
  intros (E1 & E2 & E3 & E4 & _) H.
  unfold termios_set_get, termios_set, out_unlock, termios_enqueue,
    sterm_start_deferred_op in H.
  split; intros Hret.
  - repeat split_hyp; inv_some; try contradiction;
      try (exfalso; apply Hret; reflexivity);
      repeat split; try reflexivity;
      try match goal with
          | H : nonzero ?z = false |- _ =>
              apply nonzero_false in H; contradiction
          end.
  - subst ret.
    repeat split_hyp; inv_some; try contradiction; try discriminate;
      try match goal with
          | H : nonzero ?z = true, H' : ?z = 0 |- _ =>
              rewrite H' in H; discriminate H
          end;
      cbn [termio_q deferred_op_pending set_break_set set_termio_q
           set_deferred_op_pending queued_entry] in *;
      repeat match goal with
             | H : termio_q _ = _ |- _ => rewrite H in *; clear H
             | H : deferred_op_pending _ = _ |- _ => rewrite H in *; clear H
             end;
      rewrite ?app_nil_r; repeat split; try reflexivity;
      destruct (termio_q _); reflexivity.
Qed.

Lemma process_one_entry sdata e qe next sdata1 acts :
  termio_q sdata = qe :: next ->
  termios_process_one sdata e = Some (sdata1, acts) ->
  sdata1 = set_termio_q next sdata /\
  completions acts = [(done qe, cb_data qe)] /\
  filter is_free acts = [act_free] /\
  filter is_device_write acts = [] /\
  filter is_run acts = [].
Proof.
  intros Hq H. unfold termios_process_one, termios_get in H. rewrite Hq in H.
  repeat split_hyp; inv_some; repeat split.
Qed.

Lemma completions_app a1 a2 :
  completions (a1 ++ a2) = completions a1 ++ completions a2.
Proof. unfold completions. apply flat_map_app. Qed.

Lemma process_q_fifo q : forall sdata os sdata1 acts,
  termio_q sdata = q ->
  termios_process_q q sdata os = Some (sdata1, acts) ->
  sdata1 = set_termio_q [] sdata /\
  completions acts = map (fun qe => (done qe, cb_data qe)) q /\
  length (filter is_free acts) = length q /\
  filter is_device_write acts = [] /\
  filter is_run acts = [].
Proof.
  induction q as [|qe q IH]; intros sdata os sdata1 acts Hq H;
    cbn [termios_process_q] in H.
  - inv_some. repeat split. destruct sdata1. cbn in Hq. subst. reflexivity.
  - destruct (termios_process_one sdata (os 0%nat)) as [[s1 a1]|] eqn:H1;
      [|discriminate].
    destruct (termios_process_q q s1 _) as [[s2 a2]|] eqn:H2; [|discriminate].
    inv_some.
    destruct (process_one_entry _ _ _ _ _ _ Hq H1) as (-> & C1 & F1 & W1 & R1).
    destruct (IH (set_termio_q q sdata) _ _ _ eq_refl H2)
      as (-> & C2 & F2 & W2 & R2).
    rewrite completions_app, !filter_app, length_app, C1, C2, F1, F2, W1, W2,
      R1, R2.
    repeat split.
Qed.

Lemma deferred_op_facts sdata os sdata1 acts :
  sterm_deferred_op sdata os = Some (sdata1, acts) ->
  sdata1 = set_deferred_op_pending false (set_termio_q [] sdata) /\
  completions acts =
  map (fun qe => (done qe, cb_data qe)) (termio_q sdata) /\
  length (filter is_free acts) = length (termio_q sdata) /\
  filter is_device_write acts = [] /\
  filter is_run acts = [].
Proof.
  unfold sterm_deferred_op, termios_process. intros H.
  destruct (termios_process_q (termio_q sdata) sdata os) as [[s1 a1]|] eqn:Hp;
    [|discriminate].
  inv_some.
  destruct (process_q_fifo _ _ _ _ _ eq_refl Hp) as (-> & C & F & W & R).
  repeat split; assumption.
Qed.

(** The accessors have a value on the arguments the queue passes them. *)
Lemma termio_accessor_defined f t val :
  In (Some f)
     [Some termios_get_set_baud; Some termios_get_set_datasize;
      Some termios_get_set_parity; Some termios_get_set_stopbits;
      Some termios_get_set_flowcontrol; Some termios_get_set_iflowcontrol] ->
  f (Some t) None val <> None.
Proof.
  cbn [In]. intros [E | [E | [E | [E | [E | [E | []]]]]]];
    injection E as <-;
    unfold termios_get_set_baud, termios_get_set_datasize,
      termios_get_set_parity, termios_get_set_stopbits,
      termios_get_set_flowcontrol, termios_get_set_iflowcontrol, getset_ret;
    repeat split_goal; discriminate.
Qed.

Lemma mctl_accessor_defined f m val :
  In (Some f) [Some termios_get_set_dtr; Some termios_get_set_rts] ->
  f None (Some m) val <> None.
Proof.
  cbn [In]. intros [E | [E | []]]; injection E as <-;
    unfold termios_get_set_dtr, termios_get_set_rts;
    repeat split_goal; discriminate.
Qed.

Lemma process_q_defined q : forall sdata os,
  termio_q sdata = q -> Forall well_paired q ->
  termios_process_q q sdata os <> None.
Proof.
  induction q as [|qe q IH]; intros sdata os Hq Hw; cbn [termios_process_q].
  - discriminate.
  - inversion Hw as [|? ? Hqe Hw']; subst.
    destruct (termios_process_one sdata (os 0%nat)) as [[s1 a1]|] eqn:H1.
    + destruct (process_one_entry _ _ _ _ _ _ Hq H1) as (-> & _).
      specialize (IH (set_termio_q q sdata) (fun i => os (S i)) eq_refl Hw').
      destruct (termios_process_q q _ _) as [[s2 a2]|]; [discriminate|].
      contradiction.
    + exfalso. unfold termios_process_one, termios_get in H1.
      rewrite Hq in H1. unfold well_paired in Hqe.
      destruct (op qe).
      * destruct (e_tcgetattr (os 0%nat)) as [t|en]; [|discriminate].
        destruct (getset qe) as [f|] eqn:Hg;
          [|cbn [In] in Hqe; intuition discriminate].
        pose proof (termio_accessor_defined f t 0 Hqe) as Hd.
        destruct (f (Some t) None 0); [discriminate|contradiction].
      * destruct (e_TIOCMGET (os 0%nat)) as [m|en]; [|discriminate].
        destruct (getset qe) as [f|] eqn:Hg;
          [|cbn [In] in Hqe; intuition discriminate].
        pose proof (mctl_accessor_defined f m 0 Hqe) as Hd.
        destruct (f None (Some m) 0); [discriminate|contradiction].
      * discriminate.
Qed.

(** X8.  On a queue whose entries pair the kind of the operation with an
    accessor of that kind (the queues the dispatcher builds), the deferred
    runner returns, whatever the device answers: it has called the
    completion of every queued entry exactly once, in queue order, freed
    every entry, written nothing to the device, and leaves the queue empty
    and the runner not pending; nothing else of the endpoint changes. *)
Theorem runner_completes_fifo sdata os :
  Forall well_paired (termio_q sdata) ->
  exists acts,
    sterm_deferred_op sdata os =
    Some (set_deferred_op_pending false (set_termio_q [] sdata), acts) /\
    completions acts =
    map (fun qe => (done qe, cb_data qe)) (termio_q sdata) /\
    length (filter is_free acts) = length (termio_q sdata) /\
    filter is_device_write acts = [] /\
    filter is_run acts = [].
Proof.
  intros Hq.
  destruct (sterm_deferred_op sdata os) as [[sdata1 acts]|] eqn:E.
  - destruct (deferred_op_facts _ _ _ _ E) as (-> & C & F & W & R).
    exists acts. repeat split; assumption.
  - exfalso. unfold sterm_deferred_op, termios_process in E.
    pose proof (process_q_defined (termio_q sdata) sdata os eq_refl Hq) as Hd.
    destruct (termios_process_q (termio_q sdata) sdata os) as [[s1 a1]|];
      [discriminate E|contradiction].
Qed.

Lemma set_get_keeps_pairing sdata val o gs dn data e sdata1 ret acts :
  well_paired {| op := o; getset := gs; done := 0; cb_data := 0 |} ->
  Forall well_paired (termio_q sdata) ->
  termios_set_get sdata val o gs dn data e = Some (sdata1, ret, acts) ->
  Forall well_paired (termio_q sdata1).
Proof.
  intros Hw Hq H.
  unfold termios_set_get, termios_set, out_unlock, termios_enqueue,
    sterm_start_deferred_op in H.
  repeat split_hyp; inv_some;
    cbn [termio_q set_break_set set_termio_q set_deferred_op_pending] in *;
    repeat match goal with
           | H : termio_q _ = _ |- _ => rewrite H in *; clear H
           end;
    try match goal with
        | H : nonzero ?z = true, H' : nonzero ?z = false |- _ =>
            rewrite H in H'; discriminate H'
        end;
    first [ exact Hq
          | apply Forall_app; split; [exact Hq|]; constructor;
            [exact Hw|constructor]
          | constructor; [exact Hw|constructor]
          | apply (proj2 (Forall_app well_paired (_ :: _) [_])); split;
            [exact Hq|]; constructor; [exact Hw|constructor] ].
Qed.

Lemma dispatcher_keeps_pairing sdata fn val dn data e ce sdata1 ret acts :
  Forall well_paired (termio_q sdata) ->
  sergensio_sterm_func sdata fn val dn data e ce = Some (sdata1, ret, acts) ->
  Forall well_paired (termio_q sdata1).
Proof.
  intros Hq H. unfold sergensio_sterm_func in H.
  destruct (write_only sdata); [inv_some; exact Hq|].
  destruct fn; unfold queued_result, sterm_baud, sterm_datasize,
    sterm_parity, sterm_stopbits, sterm_flowcontrol, sterm_iflowcontrol,
    sterm_sbreak, sterm_dtr, sterm_rts, sterm_modemstate,
    sterm_flowcontrol_state, sterm_flush, sterm_send_break in H;
    repeat split_hyp; inv_some; try exact Hq;
    match goal with
    | E : termios_set_get _ _ _ _ _ _ _ = Some _ |- _ =>
        eapply set_get_keeps_pairing; [|exact Hq|exact E];
        unfold well_paired; cbn [op getset In]; auto 10
    end.
Qed.

(** X9.  Every entry the dispatcher queues pairs the kind of the operation
    with an accessor of that kind: a queue of such entries stays one
    through any dispatcher call, whatever the operation, the value and the
    answers of the device, so the runner that follows never dereferences
    NULL and returns. *)
Theorem dispatcher_queue_is_safe sdata fn val dn data e ce sdata1 ret acts :
  Forall well_paired (termio_q sdata) ->
  sergensio_sterm_func sdata fn val dn data e ce = Some (sdata1, ret, acts) ->
  Forall well_paired (termio_q sdata1) /\
  forall os, exists sdata2 acts2,
    sterm_deferred_op sdata1 os = Some (sdata2, acts2).
Proof.
  intros Hq H.
  pose proof (dispatcher_keeps_pairing _ _ _ _ _ _ _ _ _ _ Hq H) as Hq1.
  split; [exact Hq1|].
  intros os. unfold sterm_deferred_op, termios_process.
  pose proof (process_q_defined (termio_q sdata1) sdata1 os eq_refl Hq1) as Hd.
  destruct (termios_process_q (termio_q sdata1) sdata1 os) as [[s1 a1]|];
    [eauto|contradiction].
Qed.

Lemma set_get_runner_scheduled sdata val o gs dn data e sdata1 ret acts :
  runner_scheduled sdata ->
  termios_set_get sdata val o gs dn data e = Some (sdata1, ret, acts) ->
  runner_scheduled sdata1.
Proof.
  unfold runner_scheduled. intros Hinv H.
  unfold termios_set_get, termios_set, out_unlock, termios_enqueue,
    sterm_start_deferred_op in H.
  repeat split_hyp; inv_some;
    cbn [termio_q deferred_op_pending set_break_set set_termio_q
         set_deferred_op_pending] in *;
    first [ exact Hinv
          | right; reflexivity
          | right; assumption
          | destruct Hinv as [Hi|Hi]; [congruence|right; exact Hi] ].
Qed.

Lemma do_call_runner_scheduled sdata c sdata1 out :
  runner_scheduled sdata ->
  do_call sdata c = Some (sdata1, out) ->
  runner_scheduled sdata1.
Proof.
  intros Hinv H. destruct c; cbn [do_call] in H.
  - unfold sterm_sub_open, sub_open_out_uucp, sub_open_out, sterm_modemstate
      in H.
    repeat split_hyp; inv_some; exact Hinv.
  - unfold sterm_check_close_drain, out_eagain, out_rm_uucp in H.
    repeat split_hyp; inv_some; exact Hinv.
  - inv_some. exact Hinv.
  - destruct (termios_set_get sdata val o gs dn data e) as [[[s1 r] a]|] eqn:E;
      [|discriminate].
    inv_some. apply (set_get_runner_scheduled _ _ _ _ _ _ _ _ _ _ Hinv E).
  - unfold termios_process_one in H.
    destruct (termio_q sdata) as [|qe next] eqn:Hq.
    + inv_some. exact Hinv.
    + destruct (termios_get _ qe e) as [[[err v] a]|]; [|discriminate].
      inv_some. destruct Hinv as [Hi|Hi]; [congruence|right; exact Hi].
  - destruct (sterm_deferred_op sdata os) as [[s1 a]|] eqn:E; [|discriminate].
    inv_some. apply deferred_op_facts in E. destruct E as (-> & _).
    left. reflexivity.
  - unfold sterm_modemstate in H. inv_some. exact Hinv.
  - unfold termios_timeout in H.
    repeat split_hyp; inv_some; exact Hinv.
Qed.

(** X10.  From the allocated endpoint on, whatever is called and in
    whatever order, a queue that holds entries has its runner scheduled:
    no completion is left waiting for a runner that nobody started. *)
Theorem queue_never_stranded cs : forall sdata sdata' outs,
  runner_scheduled sdata ->
  run sdata cs = Some (sdata', outs) ->
  runner_scheduled sdata'.
Proof.
  induction cs as [|c cs IH]; intros sdata sdata' outs Hinv H; cbn [run] in H.
  - inv_some. exact Hinv.
  - destruct (do_call sdata c) as [[s1 out]|] eqn:Hc; [|discriminate].
    destruct (run s1 cs) as [[s2 outs']|] eqn:Hr; [|discriminate].
    inv_some.
    apply (IH _ _ _ (do_call_runner_scheduled _ _ _ _ Hinv Hc) Hr).
Qed.

(** ** The dispatcher *)

Lemma termio_set_get_defined sdata val f dn data e :
  (forall t, f (Some t) None val <> None) ->
  termios_set_get sdata val TERMIO_OP_TERMIO (Some f) dn data e <> None.
Proof.
  intros Hdef.
  unfold termios_set_get, termios_set, out_unlock, termios_enqueue,
    sterm_start_deferred_op.
  repeat first [split_hyp | split_goal]; try discriminate;
    try match goal with
        | H : _ (Some ?t) None _ = None |- _ => destruct (Hdef t H)
        end.
Qed.

Lemma brk_set_get_defined sdata val gs dn data e :
  termios_set_get sdata val TERMIO_OP_BRK gs dn data e <> None.
Proof.
  unfold termios_set_get, termios_set, out_unlock, termios_enqueue,
    sterm_start_deferred_op.
  repeat first [split_hyp | split_goal]; discriminate.
Qed.

Lemma mctl_set_get_null sdata val f dn data e :
  (forall m, f None (Some m) val <> None) ->
  termios_set_get sdata val TERMIO_OP_MCTL (Some f) dn data e = None <->
  write_only sdata = false /\ dn = None /\ open sdata = true /\ val <> 0 /\
  sampled e.
Proof.
  intros Hdef.
  unfold termios_set_get, termios_set, out_unlock, termios_enqueue,
    sterm_start_deferred_op, sampled.
  cbn [getset].
  destruct (write_only sdata);
    [split; [discriminate|intros (H & _); discriminate]|].
  destruct dn as [d|].
  - split; [|intros (_ & H & _); discriminate].
    intros Hn. exfalso. revert Hn. cbn [getset].
    repeat first [split_hyp | split_goal]; try discriminate;
      try match goal with
          | H : _ None (Some ?m) _ = None |- _ => destruct (Hdef m H)
          end.
  - destruct (open sdata); cbn [negb];
      [|split; [discriminate|intros (_ & _ & H & _); discriminate]].
    destruct (nonzero val) eqn:Hv.
    + apply nonzero_true_iff in Hv.
      destruct (e_TIOCMGET e) as [mctl|en].
      * split; [intros _; eauto 8|reflexivity].
      * split; [discriminate|intros (_ & _ & _ & _ & m & H); discriminate].
    + apply nonzero_false in Hv.
      split; [discriminate|intros (_ & _ & _ & H & _); contradiction].
Qed.

(** X11.  Through the dispatcher a NULL pointer is dereferenced in exactly
    one situation: a DTR or RTS set (value not zero) without completion on
    an open, non-write-only endpoint whose TIOCMGET succeeds.  Every other
    operation, with or without completion, returns. *)
Theorem dispatcher_null_dereference sdata fn val dn data e ce :
  sergensio_sterm_func sdata fn val dn data e ce = None <->
  write_only sdata = false /\
  (fn = SERGENSIO_FUNC_DTR \/ fn = SERGENSIO_FUNC_RTS) /\
  dn = None /\ open sdata = true /\ val <> 0 /\ sampled e.
Proof.
  unfold sergensio_sterm_func.
  destruct (write_only sdata) eqn:Hw;
    [split; [discriminate|intros (H & _); discriminate]|].
  assert (Hother : forall r : option (sterm_data * Z * list action),
             r <> None -> fn <> SERGENSIO_FUNC_DTR ->
             fn <> SERGENSIO_FUNC_RTS ->
             queued_result r = None <->
             false = false /\
             (fn = SERGENSIO_FUNC_DTR \/ fn = SERGENSIO_FUNC_RTS) /\
             dn = None /\ open sdata = true /\ val <> 0 /\ sampled e).
  { intros r Hr N1 N2. destruct r as [[[s1 err] acts]|]; [|contradiction].
    cbn. split; [discriminate|]. intros (_ & [H|H] & _); contradiction. }
  assert (Hmctl : forall f,
             (forall m, f None (Some m) val <> None) ->
             fn = SERGENSIO_FUNC_DTR \/ fn = SERGENSIO_FUNC_RTS ->
             queued_result
               (termios_set_get sdata val TERMIO_OP_MCTL (Some f) dn data e)
             = None <->
             false = false /\
             (fn = SERGENSIO_FUNC_DTR \/ fn = SERGENSIO_FUNC_RTS) /\
             dn = None /\ open sdata = true /\ val <> 0 /\ sampled e).
  { intros f Hdef Hfn.
    pose proof (mctl_set_get_null sdata val f dn data e Hdef) as Hn.
    rewrite Hw in Hn.
    destruct (termios_set_get sdata val TERMIO_OP_MCTL (Some f) dn data e)
      as [[[s1 err] acts]|]; cbn.
    - split; [discriminate|]. intros (_ & _ & H). exfalso.
      assert (Hnone : Some (s1, err, acts) = None) by (apply Hn; tauto).
      discriminate Hnone.
    - split; [|reflexivity]. intros _.
      destruct (proj1 Hn eq_refl) as (_ & H). tauto. }
  destruct fn;
    try (apply Hother; [|discriminate|discriminate];
         first [ apply termio_set_get_defined; intros t;
                 apply termio_accessor_defined; cbn [In]; auto 10
               | apply brk_set_get_defined ]);
    try (apply Hmctl; [|auto]; intros m; apply mctl_accessor_defined;
         cbn [In]; auto);
    try (unfold sterm_modemstate, sterm_flowcontrol_state, sterm_flush,
           sterm_send_break;
         repeat split_goal;
         (split; [discriminate|intros (_ & [H|H] & _); discriminate H])).
Qed.

Lemma set_get_frame sdata val o gs dn data e sdata1 ret acts :
  termios_set_get sdata val o gs dn data e = Some (sdata1, ret, acts) ->
  open sdata1 = open sdata /\ fd sdata1 = fd sdata /\
  write_only sdata1 = write_only sdata /\
  default_termios sdata1 = default_termios sdata /\
  timer_stopped sdata1 = timer_stopped sdata /\
  close_timeouts_left sdata1 = close_timeouts_left sdata /\
  last_modemstate sdata1 = last_modemstate sdata /\
  handling_modemstate sdata1 = handling_modemstate sdata /\
  sent_first_modemstate sdata1 = sent_first_modemstate sdata.
Proof.
  unfold termios_set_get, termios_set, out_unlock, termios_enqueue,
    sterm_start_deferred_op.
  intros H. repeat split_hyp; inv_some; repeat split;
    cbn [open write_only set_break_set set_termio_q set_deferred_op_pending]
      in *;
    congruence.
Qed.

(** X12.  The dispatcher on a write-only endpoint, or asked for the
    signature, the line state or an unknown operation, returns ENOTSUP: it
    calls nothing and changes nothing.  No operation it performs touches the
    life-cycle and poller fields of the endpoint: [open], [fd],
    [write_only], [default_termios], [timer_stopped],
    [close_timeouts_left], [last_modemstate], [handling_modemstate] and
    [sent_first_modemstate] are as before. *)
Theorem dispatcher_frame sdata fn val dn data e ce sdata1 ret acts :
  sergensio_sterm_func sdata fn val dn data e ce = Some (sdata1, ret, acts) ->
  (write_only sdata = true \/ fn = SERGENSIO_FUNC_SIGNATURE \/
   fn = SERGENSIO_FUNC_LINESTATE \/ fn = SERGENSIO_FUNC_other ->
   sdata1 = sdata /\ ret = ENOTSUP /\ acts = []) /\
  open sdata1 = open sdata /\ fd sdata1 = fd sdata /\
  write_only sdata1 = write_only sdata /\
  default_termios sdata1 = default_termios sdata /\
  timer_stopped sdata1 = timer_stopped sdata /\
  close_timeouts_left sdata1 = close_timeouts_left sdata /\
  last_modemstate sdata1 = last_modemstate sdata /\
  handling_modemstate sdata1 = handling_modemstate sdata /\
  sent_first_modemstate sdata1 = sent_first_modemstate sdata.
Proof.
  intros H. unfold sergensio_sterm_func in H.
  destruct (write_only sdata) eqn:Hw.
  - inv_some. rewrite Hw. repeat split.
  - destruct fn;
      unfold queued_result, sterm_baud, sterm_datasize, sterm_parity,
        sterm_stopbits, sterm_flowcontrol, sterm_iflowcontrol, sterm_sbreak,
        sterm_dtr, sterm_rts, sterm_modemstate, sterm_flowcontrol_state,
        sterm_flush, sterm_send_break in H;
      try match type of H with
          | context [termios_set_get ?s ?v ?o ?g ?d ?c ?e] =>
              destruct (termios_set_get s v o g d c e) as [[[s1 r] a]|] eqn:E;
              [|discriminate];
              apply set_get_frame in E; rewrite Hw in E
          end;
      repeat split_hyp; inv_some;
      (split; [intros [Hc|[Hc|[Hc|Hc]]]; try discriminate Hc; repeat split|]);
      first [ exact E
            | repeat split; cbn [write_only set_modemstate_mask];
              first [reflexivity | assumption] ].
Qed.

(** ** Set, then read back through the queue *)



(** X14.  Raising DTR or RTS through the dispatcher with a completion, on
    an open endpoint with an empty queue: the call reads the modem lines,
    writes them back with the line's bit set and every other bit as read,
    and returns 0; when the runner then reads those lines, the completion is
    called once, without error, with ON. *)
Theorem modem_line_raised sdata fn d data e ce m :
  SERGENSIO_DTR_ON <> 0 -> SERGENSIO_RTS_ON <> 0 ->
  TIOCM_DTR <> 0 -> TIOCM_RTS <> 0 ->
  fn = SERGENSIO_FUNC_DTR \/ fn = SERGENSIO_FUNC_RTS ->
  open sdata = true -> write_only sdata = false -> termio_q sdata = [] ->
  e_zalloc e = true -> e_TIOCMGET e = sys_ok m -> e_TIOCMSET e = sys_ok tt ->
  let flag := match fn with SERGENSIO_FUNC_DTR => TIOCM_DTR | _ => TIOCM_RTS end in
  let on := match fn with
            | SERGENSIO_FUNC_DTR => SERGENSIO_DTR_ON
            | _ => SERGENSIO_RTS_ON
            end in
  exists sdata1,
    sergensio_sterm_func sdata fn on (Some d) data e ce =
    Some (sdata1, 0,
          set_trace sdata act_TIOCMGET (act_TIOCMSET (Z.lor m flag))) /\
    forall os, e_TIOCMGET (os 0%nat) = sys_ok (Z.lor m flag) ->
      exists sdata2,
        sterm_deferred_op sdata1 os =
        Some (sdata2, [act_TIOCMGET; act_done d 0 on data; act_free]).
Proof.
  intros Hd Hr Fd Fr Hfn Ho Hw Hq Hz Hg Hs.
  apply nonzero_true_iff in Hd, Hr.
  assert (Ad : nonzero (Z.land (Z.lor m TIOCM_DTR) TIOCM_DTR) = true).
  { apply nonzero_true_iff.
    assert (E : Z.land (Z.lor m TIOCM_DTR) TIOCM_DTR = TIOCM_DTR) by bitwise.
    rewrite E. exact Fd. }
  assert (Ar : nonzero (Z.land (Z.lor m TIOCM_RTS) TIOCM_RTS) = true).
  { apply nonzero_true_iff.
    assert (E : Z.land (Z.lor m TIOCM_RTS) TIOCM_RTS = TIOCM_RTS) by bitwise.
    rewrite E. exact Fr. }
  unfold sergensio_sterm_func, sterm_dtr, sterm_rts, termios_set_get,
    termios_set, out_unlock, termios_enqueue, sterm_start_deferred_op,
    set_trace, termios_get_set_dtr, termios_get_set_rts.
  destruct Hfn as [-> | ->]; cbv zeta;
    rewrite Ho, Hw, Hz, Hg, Hs; cbn [negb getset];
    rewrite ?Hd, ?Hr, ?Z.eqb_refl;
    cbn [g_err g_mctl nonzero Z.eqb negb contents];
    rewrite Hq;
    cbn [termio_q set_termio_q deferred_op_pending];
    destruct (deferred_op_pending sdata); cbn [queued_result app];
    eexists; (split; [reflexivity|]); intros os Hos;
    unfold sterm_deferred_op, termios_process, termios_process_q,
      termios_process_one, termios_get;
    cbn [termio_q set_termio_q set_deferred_op_pending op getset done cb_data];
    rewrite Hos; cbn [nonzero Z.eqb negb]; fold (nonzero (Z.land (Z.lor m TIOCM_DTR) TIOCM_DTR));
    fold (nonzero (Z.land (Z.lor m TIOCM_RTS) TIOCM_RTS));
    rewrite ?Ad, ?Ar; cbn; eexists; reflexivity.
Qed.

(** ** The poller under particular masks *)

Lemma levels_high cur k :
  Z.land cur 0xF0 = cur -> 8 <= k -> Z.testbit cur k = false.
Proof.
  intros Hc Hk. destruct (Z.testbit cur k) eqn:E; [|reflexivity].
  apply (levels_testbit _ _ Hc) in E. lia.
Qed.

Lemma levels_low cur k :
  Z.land cur 0xF0 = cur -> k < 4 -> Z.testbit cur k = false.
Proof.
  intros Hc Hk. destruct (Z.testbit cur k) eqn:E; [|reflexivity].
  apply (levels_testbit _ _ Hc) in E. lia.
Qed.

Lemma byte_mask_bit k : 0 <= k -> Z.testbit 0xFF k = (k <? 8).
Proof.
  intros Hk. change 0xFF with (Z.ones 8).
  apply Z.testbit_ones_nonneg; lia.
Qed.

(** Under the mask 0xFF the word stored by a tick holds the sampled levels,
    so the next tick compares against them. *)
Lemma full_mask_word cur1 cur2 last0 :
  Z.land cur1 0xF0 = cur1 -> Z.land cur2 0xF0 = cur2 -> 0 <= last0 < 256 ->
  Z.land
    (Z.lor cur2
       (Z.shiftr
          (Z.lxor cur2
             (Z.land (Z.lor cur1 (Z.shiftr (Z.lxor cur1 last0) 4)) 0xFF)) 4))
    0xFF =
  Z.lor cur2 (Z.shiftr (Z.lxor cur2 cur1) 4).
Proof.
  intros H1 H2 Hl. apply Z.bits_inj'. intros n Hn.
  rewrite Z.land_spec, !Z.lor_spec, !Z.shiftr_spec, !Z.lxor_spec, Z.land_spec,
    Z.lor_spec, Z.shiftr_spec, Z.lxor_spec, !byte_mask_bit by lia.
  rewrite (levels_high cur1 (n + 4 + 4)) by (assumption || lia).
  rewrite (testbit_high_256 last0 (n + 4 + 4)) by lia.
  cbn [xorb]. rewrite orb_false_r.
  destruct (Z.ltb_spec n 8) as [Hlt|Hge].
  - rewrite andb_true_r. f_equal. f_equal.
    destruct (Z.ltb_spec (n + 4) 8) as [Hlt4|Hge4].
    + apply andb_true_r.
    + rewrite (levels_high cur1 (n + 4)) by (assumption || lia). reflexivity.
  - rewrite andb_false_r.
    rewrite (levels_high cur2 n), (levels_high cur2 (n + 4)),
      (levels_high cur1 (n + 4)) by (assumption || lia).
    reflexivity.
Qed.

Lemma full_mask_change v1 v2 :
  let cur1 := sampled_levels v1 in
  let cur2 := sampled_levels v2 in
  let word := Z.lor cur2 (Z.shiftr (Z.lxor cur2 cur1) 4) in
  nonzero (Z.land word 0xf) = negb (cur2 =? cur1) /\
  Z.land word 0xF0 = cur2.
Proof.
  destruct (sampled_levels_cases v1) as (a1 & b1 & c1 & d1 & _ & _ & _ & _ & E1).
  destruct (sampled_levels_cases v2) as (a2 & b2 & c2 & d2 & _ & _ & _ & _ & E2).
  cbv zeta. rewrite E1, E2.
  destruct a1, b1, c1, d1, a2, b2, c2, d2; split; reflexivity.
Qed.

(** X15.  With every signal subscribed (mask 0xFF, the mask an open
    installs), a tick that follows another reports exactly when the sampled
    levels differ from those of the tick before; the word it stores and
    reports has the new levels in its top nibble and, in its bottom nibble,
    one bit per line that changed. *)
Theorem full_mask_reports_changes sdata e1 e2 v1 v2 :
  handling_modemstate sdata = false ->
  modemstate_mask sdata = 0xFF ->
  0 <= last_modemstate sdata < 256 ->
  e_TIOCMGET e1 = sys_ok v1 -> e_TIOCMGET e2 = sys_ok v2 ->
  let sdata1 := fst (termios_timeout sdata e1) in
  let cur1 := sampled_levels v1 in
  let cur2 := sampled_levels v2 in
  let word := Z.lor cur2 (Z.shiftr (Z.lxor cur2 cur1) 4) in
  last_modemstate (fst (termios_timeout sdata1 e2)) = word /\
  Z.land word 0xF0 = cur2 /\
  filter is_modemstate_event (snd (termios_timeout sdata1 e2)) =
  (if cur2 =? cur1 then [] else [act_gensio_cb_modemstate false word]).
Proof.
  intros Hh Hm Hl He1 He2 sdata1 cur1 cur2 word.
  pose proof (termios_timeout_sampled sdata e1 v1 Hh He1) as T1.
  cbv zeta in T1.
  assert (Hs1 : sdata1 = fst (termios_timeout sdata e1)) by reflexivity.
  rewrite T1 in Hs1. cbn [fst] in Hs1.
  assert (Hh1 : handling_modemstate sdata1 = false) by (rewrite Hs1; reflexivity).
  pose proof (termios_timeout_sampled sdata1 e2 v2 Hh1 He2) as T2.
  cbv zeta in T2. rewrite T2. cbn [fst snd last_modemstate
    set_handling_modemstate set_sent_first_modemstate set_last_modemstate].
  assert (Hw : Z.land
                 (Z.lor (sampled_levels v2)
                    (Z.shiftr
                       (Z.lxor (sampled_levels v2) (last_modemstate sdata1)) 4))
                 (modemstate_mask sdata1) = word).
  { rewrite Hs1. cbn [last_modemstate modemstate_mask
      set_handling_modemstate set_sent_first_modemstate set_last_modemstate].
    rewrite Hm. apply full_mask_word; try assumption;
      apply sampled_levels_bits. }
  rewrite Hw.
  destruct (full_mask_change v1 v2) as [Hc Hhi].
  fold cur1 cur2 word in Hc, Hhi.
  split; [reflexivity|]. split; [exact Hhi|].
  assert (Hsf : sent_first_modemstate sdata1 = true) by (rewrite Hs1; reflexivity).
  rewrite Hsf, Hc. cbn [negb orb].
  destruct (cur2 =? cur1), (nonzero (modemstate_mask sdata1)); reflexivity.
Qed.

Lemma testbit_high_16 x k : 0 <= x < 16 -> 4 <= k -> Z.testbit x k = false.
Proof.
  intros Hx Hk. destruct (Z.eq_dec x 0) as [->|Hnz].
  - apply Z.bits_0.
  - apply Z.bits_above_log2; [lia|].
    assert (Z.log2 x < 4); [|lia].
    apply Z.log2_lt_pow2; lia.
Qed.

Lemma nibble_of_bits x :
  0 <= x -> (forall k, 4 <= k -> Z.testbit x k = false) -> 0 <= x < 16.
Proof.
  intros Hx Hhigh.
  assert (Hm : x = x mod 2 ^ 4).
  { apply Z.bits_inj'. intros n Hn.
    destruct (Z_lt_le_dec n 4) as [Hlt|Hge].
    - rewrite Z.mod_pow2_bits_low by lia. reflexivity.
    - rewrite Z.mod_pow2_bits_high by lia. apply Hhigh. exact Hge. }
  rewrite Hm. apply Z.mod_pos_bound. reflexivity.
Qed.

Lemma no_level_bits mask k :
  Z.land mask 0xF0 = 0 -> 4 <= k < 8 -> Z.testbit mask k = false.
Proof.
  intros Hm Hk.
  assert (E : Z.testbit (Z.land mask 0xF0) k = false)
    by (rewrite Hm; apply Z.bits_0).
  rewrite Z.land_spec in E.
  assert (k = 4 \/ k = 5 \/ k = 6 \/ k = 7) as [-> | [-> | [-> | ->]]] by lia;
    cbn in E; rewrite andb_true_r in E; exact E.
Qed.

Lemma change_only_word cur last mask :
  Z.land cur 0xF0 = cur -> 0 <= last < 16 -> Z.land mask 0xF0 = 0 ->
  Z.land (Z.lor cur (Z.shiftr (Z.lxor cur last) 4)) mask =
  Z.land (Z.shiftr cur 4) mask.
Proof.
  intros Hc Hl Hm. apply Z.bits_inj'. intros n Hn.
  rewrite !Z.land_spec, Z.lor_spec, !Z.shiftr_spec, Z.lxor_spec by lia.
  rewrite (testbit_high_16 last (n + 4)) by lia.
  rewrite xorb_false_r.
  destruct (Z_lt_le_dec n 4) as [H4|H4].
  - rewrite (levels_low cur n) by assumption. reflexivity.
  - destruct (Z_lt_le_dec n 8) as [H8|H8].
    + rewrite (no_level_bits mask n) by (assumption || lia).
      rewrite !andb_false_r. reflexivity.
    + rewrite (levels_high cur n), (levels_high cur (n + 4))
        by (assumption || lia).
      reflexivity.
Qed.

(** A tick under a mask without level bit, the stored word holding no
    level and a report sent: it reports the subscribed lines that are
    high. *)
Lemma change_only_tick sdata e val :
  handling_modemstate sdata = false ->
  sent_first_modemstate sdata = true ->
  Z.land (modemstate_mask sdata) 0xF0 = 0 ->
  0 <= last_modemstate sdata < 16 ->
  e_TIOCMGET e = sys_ok val ->
  let word := Z.land (Z.shiftr (sampled_levels val) 4) (modemstate_mask sdata) in
  last_modemstate (fst (termios_timeout sdata e)) = word /\
  0 <= word < 16 /\
  filter is_modemstate_event (snd (termios_timeout sdata e)) =
  (if nonzero word then [act_gensio_cb_modemstate false word] else []).
Proof.
  intros Hh Hs Hm Hl He word.
  destruct (sampled_levels_bits val) as (_ & _ & _ & _ & Hcur).
  pose proof (termios_timeout_sampled sdata e val Hh He) as Ht.
  cbv zeta in Ht. rewrite Ht, Hs.
  rewrite (change_only_word _ _ _ Hcur Hl Hm). fold word.
  assert (Hr : 0 <= word < 16).
  { apply nibble_of_bits.
    - apply Z.land_nonneg. left. apply Z.shiftr_nonneg.
      rewrite <- Hcur. apply Z.land_nonneg. right. discriminate.
    - intros k Hk. unfold word. rewrite Z.land_spec, Z.shiftr_spec by lia.
      rewrite (levels_high _ (k + 4) Hcur) by lia. reflexivity. }
  assert (Hw : Z.land word 0xf = word).
  { change 0xf with (Z.ones 4). rewrite Z.land_ones by lia.
    apply Z.mod_small. exact Hr. }
  rewrite Hw. cbn [fst snd last_modemstate set_handling_modemstate
    set_sent_first_modemstate set_last_modemstate negb orb].
  split; [reflexivity|]. split; [exact Hr|].
  destruct (nonzero word), (nonzero (modemstate_mask sdata)); reflexivity.
Qed.

(** Under a mask without level bit the word a sampling tick stores holds no
    level. *)
Lemma change_only_stored cur last mask :
  Z.land cur 0xF0 = cur -> 0 <= last < 256 -> Z.land mask 0xF0 = 0 ->
  0 <= Z.land (Z.lor cur (Z.shiftr (Z.lxor cur last) 4)) mask < 16.
Proof.
  intros Hc Hl Hm.
  assert (Hcur : 0 <= cur).
  { rewrite <- Hc. apply Z.land_nonneg. right. discriminate. }
  apply nibble_of_bits.
  - apply Z.land_nonneg. left. apply Z.lor_nonneg. split; [exact Hcur|].
    apply Z.shiftr_nonneg. apply Z.lxor_nonneg. split; intros _; lia.
  - intros k Hk.
    rewrite Z.land_spec, Z.lor_spec, Z.shiftr_spec, Z.lxor_spec by lia.
    destruct (Z_lt_le_dec k 8) as [H8|H8].
    + rewrite (no_level_bits mask k) by (assumption || lia).
      apply andb_false_r.
    + rewrite (levels_high cur k), (levels_high cur (k + 4))
        by (assumption || lia).
      rewrite (testbit_high_256 last (k + 4)) by lia. reflexivity.
Qed.

(** X16.  Under a mask that holds change bits but no level bit (0x01 to
    0x0F) the word a sampling tick stores holds no level, so the next tick
    finds every raised line changed: of two consecutive sampling ticks under
    such a mask, the second reports exactly when a subscribed line is high
    at that tick, whatever the first one sampled, and the word it reports is
    the subscribed levels shifted into the bottom nibble.  (The first tick
    under the mask is still measured against the word stored before.) *)
Theorem change_bits_alone_report_levels sdata e1 e2 v1 v2 :
  handling_modemstate sdata = false ->
  Z.land (modemstate_mask sdata) 0xF0 = 0 ->
  0 <= last_modemstate sdata < 256 ->
  e_TIOCMGET e1 = sys_ok v1 -> e_TIOCMGET e2 = sys_ok v2 ->
  let sdata1 := fst (termios_timeout sdata e1) in
  let word := Z.land (Z.shiftr (sampled_levels v2) 4) (modemstate_mask sdata) in
  0 <= last_modemstate sdata1 < 16 /\
  last_modemstate (fst (termios_timeout sdata1 e2)) = word /\
  0 <= word < 16 /\
  filter is_modemstate_event (snd (termios_timeout sdata1 e2)) =
  (if nonzero word then [act_gensio_cb_modemstate false word] else []).
Proof.
  intros Hh Hm Hl He1 He2 sdata1 word.
  destruct (sampled_levels_bits v1) as (_ & _ & _ & _ & Hcur1).
  pose proof (termios_timeout_sampled sdata e1 v1 Hh He1) as T1.
  cbv zeta in T1.
  assert (Hs1 : sdata1 = fst (termios_timeout sdata e1)) by reflexivity.
  rewrite T1 in Hs1. cbn [fst] in Hs1.
  assert (Hh1 : handling_modemstate sdata1 = false)
    by (rewrite Hs1; reflexivity).
  assert (Hsf1 : sent_first_modemstate sdata1 = true)
    by (rewrite Hs1; reflexivity).
  assert (Hm1 : modemstate_mask sdata1 = modemstate_mask sdata)
    by (rewrite Hs1; reflexivity).
  assert (Hl1 : 0 <= last_modemstate sdata1 < 16).
  { rewrite Hs1.
    cbn [last_modemstate set_handling_modemstate set_sent_first_modemstate
         set_last_modemstate].
    apply change_only_stored; assumption. }
  split; [exact Hl1|].
  assert (Hm1' : Z.land (modemstate_mask sdata1) 0xF0 = 0)
    by (rewrite Hm1; exact Hm).
  pose proof (change_only_tick sdata1 e2 v2 Hh1 Hsf1 Hm1' Hl1 He2) as H2.
  cbv zeta in H2. rewrite Hm1 in H2. exact H2.
Qed.

(** ** The open *)

(** X17.  Every call of the open tries the UUCP lock once.  When it returns
    0 the lock is kept, [fd] is the new descriptor, nothing was closed, the
    endpoint is open and a forced report is due.  When it fails the lock is
    released exactly if it had been acquired, [fd] is -1 afterwards, the
    descriptor the endpoint held at that point (the new one, or one left
    from an earlier open when the lock was refused) is closed, and [open],
    the mask and the queue are as before. *)
Theorem sub_open_outcome sdata e sdata1 ret acts :
  EBUSY <> 0 ->
  sterm_sub_open sdata e = (sdata1, ret, acts) ->
  length (filter is_uucp_mk_lock acts) = 1%nat /\
  (ret = 0 ->
   e_uucp_mk_lock e = 0 /\
   filter is_uucp_rm_lock acts = [] /\ filter is_close acts = [] /\
   fd sdata1 = e_open e /\ fd sdata1 <> -1 /\
   open sdata1 = true /\ sent_first_modemstate sdata1 = false /\
   timer_stopped sdata1 = false) /\
  (ret <> 0 ->
   filter is_uucp_rm_lock acts =
   (if e_uucp_mk_lock e =? 0 then [act_uucp_rm_lock] else []) /\
   fd sdata1 = -1 /\
   filter is_close acts =
   (let held := if e_uucp_mk_lock e =? 0 then e_open e else fd sdata in
    if held =? -1 then [] else [act_close held]) /\
   open sdata1 = open sdata /\
   modemstate_mask sdata1 = modemstate_mask sdata /\
   termio_q sdata1 = termio_q sdata).
Proof.
  intros Hb H.
  unfold sterm_sub_open, sub_open_out_uucp, sub_open_out, sterm_modemstate
    in H.
  cbn [fd set_fd set_timer_stopped write_only set_open
       set_sent_first_modemstate] in H.
  destruct (e_uucp_mk_lock e >? 0) eqn:Hgt.
  { assert (Hz : (e_uucp_mk_lock e =? 0) = false)
      by (apply Z.eqb_neq; apply Z.gtb_lt in Hgt; lia).
    rewrite Hz. cbv zeta.
    destruct (fd sdata =? -1) eqn:Hfd; inv_some;
      (split; [reflexivity|]); (split; [intros E; contradiction|]);
      intros _; repeat split; try reflexivity; apply Z.eqb_eq; exact Hfd. }
  destruct (e_uucp_mk_lock e <? 0) eqn:Hlt.
  { assert (Hz : (e_uucp_mk_lock e =? 0) = false)
      by (apply Z.eqb_neq; apply Z.ltb_lt in Hlt; lia).
    rewrite Hz. cbv zeta.
    destruct (fd sdata =? -1) eqn:Hfd; inv_some;
      (split; [reflexivity|]); (split; [intros E; discriminate E|]);
      intros _; repeat split; try reflexivity; apply Z.eqb_eq; exact Hfd. }
  assert (Hz : (e_uucp_mk_lock e =? 0) = true).
  { apply Z.eqb_eq. rewrite Z.gtb_ltb in Hgt.
    apply Z.ltb_ge in Hgt. apply Z.ltb_ge in Hlt. lia. }
  rewrite Hz. cbv zeta.
  destruct (e_open e =? -1) eqn:Hfd.
  - inv_some. split; [reflexivity|].
    split; [intros E; discriminate E|]. intros _.
    repeat split; try reflexivity. apply Z.eqb_eq. exact Hfd.
  - apply Z.eqb_eq in Hz. apply Z.eqb_neq in Hfd.
    destruct (write_only sdata) eqn:Hw.
    + inv_some. split; [reflexivity|]. split.
      * intros _. repeat split; assumption.
      * intros E. contradiction E. reflexivity.
    + destruct (e_tcsetattr e) as [u|en]; inv_some; (split; [reflexivity|]).
      * split.
        -- intros _. repeat split; assumption.
        -- intros E. contradiction E. reflexivity.
      * split; [intros E; discriminate E|]. intros _.
        repeat split; reflexivity.
Qed.

(** ** The operations that are not queued *)

(** X18.  Flow-control state, flush and send-break bypass the queue: on an
    endpoint that is not write-only, open or not, the dispatcher returns
    with the endpoint unchanged, allocates and queues nothing, calls no
    completion, and makes at most one device call; it returns 0 exactly when
    that call was made and succeeded (send-break reports success whatever
    tcsendbreak answers, and an unknown flush kind is EINVAL without a
    call). *)
Theorem unqueued_controls sdata fn val dn data e ce :
  EINVAL <> 0 ->
  write_only sdata = false ->
  fn = SERGENSIO_FUNC_FLOWCONTROL_STATE \/ fn = SERGENSIO_FUNC_FLUSH \/
  fn = SERGENSIO_FUNC_SEND_BREAK ->
  exists ret acts,
    sergensio_sterm_func sdata fn val dn data e ce = Some (sdata, ret, acts) /\
    filter is_queued_call acts = [] /\
    (length acts <= 1)%nat /\
    (ret = 0 <-> acts <> [] /\ ctl_call_ok fn ce = true).
Proof.
  intros Hinv Hw Hfn. unfold sergensio_sterm_func. rewrite Hw.
  destruct Hfn as [-> | [-> | ->]];
    unfold sterm_flowcontrol_state, sterm_flush, sterm_send_break, ctl_call_ok,
      answered.
  - destruct (e_tcflow ce) as [u|en]; do 2 eexists;
      (split; [reflexivity|]); (split; [reflexivity|]);
      (split; [cbn [length]; lia|]); split.
    + intros _. split; [discriminate|reflexivity].
    + reflexivity.
    + intros E. discriminate E.
    + intros [_ Hb]. discriminate Hb.
  - destruct (if val mod 2 ^ 32 =? SERGIO_FLUSH_RCV_BUFFER then Some TCIFLUSH
              else if val mod 2 ^ 32 =? SERGIO_FLUSH_XMIT_BUFFER
                   then Some TCOFLUSH
                   else if val mod 2 ^ 32 =? SERGIO_FLUSH_RCV_XMIT_BUFFERS
                        then Some TCIOFLUSH else None) as [tval|].
    + destruct (e_tcflush ce) as [u|en]; do 2 eexists;
        (split; [reflexivity|]); (split; [reflexivity|]);
        (split; [cbn [length]; lia|]); split.
      * intros _. split; [discriminate|reflexivity].
      * reflexivity.
      * intros E. discriminate E.
      * intros [_ Hb]. discriminate Hb.
    + do 2 eexists. (split; [reflexivity|]). (split; [reflexivity|]).
      (split; [cbn [length]; lia|]). split.
      * intros E. contradiction.
      * intros [Ha _]. contradiction Ha. reflexivity.
  - do 2 eexists. (split; [reflexivity|]). (split; [reflexivity|]).
    (split; [cbn [length]; lia|]). split.
    + intros _. split; [discriminate|reflexivity].
    + reflexivity.
Qed.

End AdapterProperties.

(** * The properties of the adapter at the Linux values *)

Lemma linux_datasize_codes_ok :
  datasize_codes_ok (T := linux_termios_platform).
Proof.
  unfold datasize_codes_ok. repeat split; try reflexivity.
  repeat constructor; cbn [In]; intuition discriminate.
Defined.

Lemma linux_parity_consts_ok :
  parity_consts_ok (T := linux_termios_platform) 0x40000000.
Proof.
  unfold parity_consts_ok. repeat split; try discriminate; try reflexivity.
  repeat constructor; cbn [In]; intuition discriminate.
Defined.

Lemma linux_flow_consts_ok : flow_consts_ok (T := linux_termios_platform).
Proof.
  unfold flow_consts_ok. repeat split; try discriminate; try reflexivity.
  repeat constructor; cbn [In]; intuition discriminate.
Defined.

(** Seven data bits set on the raw 8-bit termios: [c_cflag] goes from 0xbd
    to 0xad. *)
Lemma datasize_round_trip_witness :
  datasize_codes_ok (T := linux_termios_platform) /\ 5 <= 7 <= 8 /\
  exists t',
    termios_get_set_datasize (Some raw_9600) None 7 =
    getset_ret 0 (Some t') None 7 /\
    termios_get_set_datasize (Some t') None 0 = getset_ret 0 (Some t') None 7 /\
    cflag_outside CSIZE t' = cflag_outside CSIZE raw_9600.
Proof.
  split; [exact linux_datasize_codes_ok|]. split; [lia|].
  apply (@datasize_round_trip linux linux_termios_platform raw_9600 None 7).
  - exact linux_datasize_codes_ok.
  - lia.
Defined.

(** MARK parity on the raw termios. *)
Lemma parity_round_trip_witness :
  CMSPAR (TermiosPlatform := linux_termios_platform) = Some 0x40000000 /\
  parity_consts_ok (T := linux_termios_platform) 0x40000000 /\
  exists t',
    termios_get_set_parity (Some raw_9600) None SERGENSIO_PARITY_MARK =
    getset_ret 0 (Some t') None SERGENSIO_PARITY_MARK /\
    termios_get_set_parity (Some t') None 0 =
    getset_ret 0 (Some t') None SERGENSIO_PARITY_MARK.
Proof.
  split; [reflexivity|]. split; [exact linux_parity_consts_ok|].
  destruct (@parity_round_trip linux linux_termios_platform 0x40000000
              raw_9600 None SERGENSIO_PARITY_MARK eq_refl
              linux_parity_consts_ok)
    as (t' & Hs & Hg & _).
  - cbn [In]. right. right. right. left. reflexivity.
  - exists t'. split; [exact Hs|exact Hg].
Defined.

(** Without CMSPAR a set of SPACE parity is refused and a set of EVEN reads
    back. *)
Lemma parity_without_cmspar_witness :
  CMSPAR (TermiosPlatform := linux_termios_no_cmspar) = None /\
  termios_get_set_parity (T := linux_termios_no_cmspar) (Some raw_9600) None
    SERGENSIO_PARITY_SPACE =
  getset_ret EINVAL (Some raw_9600) None SERGENSIO_PARITY_SPACE /\
  exists t',
    termios_get_set_parity (T := linux_termios_no_cmspar) (Some raw_9600) None
      SERGENSIO_PARITY_EVEN =
    getset_ret 0 (Some t') None SERGENSIO_PARITY_EVEN /\
    termios_get_set_parity (T := linux_termios_no_cmspar) (Some t') None 0 =
    getset_ret 0 (Some t') None SERGENSIO_PARITY_EVEN.
Proof.
  split; [reflexivity|].
  assert (Hnd : NoDup [0; SERGENSIO_PARITY_NONE; SERGENSIO_PARITY_ODD;
                       SERGENSIO_PARITY_EVEN; SERGENSIO_PARITY_MARK;
                       SERGENSIO_PARITY_SPACE
                         (TermiosPlatform := linux_termios_no_cmspar)]).
  { repeat constructor; cbn [In]; intuition discriminate. }
  assert (Hen : PARENB (TermiosPlatform := linux_termios_no_cmspar) <> 0)
    by discriminate.
  assert (Hodd : PARODD (TermiosPlatform := linux_termios_no_cmspar) <> 0)
    by discriminate.
  destruct (@parity_without_cmspar linux linux_termios_no_cmspar raw_9600 None
              eq_refl Hen Hodd eq_refl Hnd) as [Hrej Hacc].
  split.
  - apply Hrej. right. reflexivity.
  - apply Hacc. cbn [In]. right. right. left. reflexivity.
Defined.

(** Two stop bits read back; three are refused. *)
Lemma stopbits_round_trip_witness :
  CSTOPB (TermiosPlatform := linux_termios_platform) <> 0 /\
  (exists t',
     termios_get_set_stopbits (Some raw_9600) None 2 =
     getset_ret 0 (Some t') None 2 /\
     termios_get_set_stopbits (Some t') None 0 =
     getset_ret 0 (Some t') None 2) /\
  termios_get_set_stopbits (Some raw_9600) None 3 =
  getset_ret EINVAL (Some raw_9600) None 3.
Proof.
  assert (Hc : CSTOPB (TermiosPlatform := linux_termios_platform) <> 0)
    by discriminate.
  split; [exact Hc|].
  destruct (@stopbits_round_trip linux linux_termios_platform raw_9600 None Hc)
    as [Hacc Hrej].
  split.
  - destruct (Hacc 2) as (t' & Hs & Hg & _); [right; reflexivity|].
    exists t'. split; [exact Hs|exact Hg].
  - apply Hrej; discriminate.
Defined.

(** RTS/CTS flow control on the raw termios. *)
Lemma flowcontrol_round_trip_witness :
  flow_consts_ok (T := linux_termios_platform) /\
  exists t',
    termios_get_set_flowcontrol (Some raw_9600) None
      SERGENSIO_FLOWCONTROL_RTS_CTS =
    getset_ret 0 (Some t') None SERGENSIO_FLOWCONTROL_RTS_CTS /\
    termios_get_set_flowcontrol (Some t') None 0 =
    getset_ret 0 (Some t') None SERGENSIO_FLOWCONTROL_RTS_CTS.
Proof.
  split; [exact linux_flow_consts_ok|].
  destruct (@flowcontrol_round_trip linux linux_termios_platform raw_9600 None
              SERGENSIO_FLOWCONTROL_RTS_CTS linux_flow_consts_ok)
    as (t' & Hs & Hg & _).
  - cbn [In]. right. right. left. reflexivity.
  - exists t'. split; [exact Hs|exact Hg].
Defined.

(** XON/XOFF input flow control reads back; RTS/CTS is refused. *)
Lemma iflowcontrol_round_trip_witness :
  IXOFF (TermiosPlatform := linux_termios_platform) <> 0 /\
  (exists t',
     termios_get_set_iflowcontrol (Some raw_9600) None
       SERGENSIO_FLOWCONTROL_XON_XOFF =
     getset_ret 0 (Some t') None SERGENSIO_FLOWCONTROL_XON_XOFF /\
     termios_get_set_iflowcontrol (Some t') None 0 =
     getset_ret 0 (Some t') None SERGENSIO_FLOWCONTROL_XON_XOFF) /\
  termios_get_set_iflowcontrol (Some raw_9600) None
    SERGENSIO_FLOWCONTROL_RTS_CTS =
  getset_ret EINVAL (Some raw_9600) None SERGENSIO_FLOWCONTROL_RTS_CTS.
Proof.
  assert (Hx : IXOFF (TermiosPlatform := linux_termios_platform) <> 0)
    by discriminate.
  assert (Hnd : NoDup [0; SERGENSIO_FLOWCONTROL_NONE;
                       SERGENSIO_FLOWCONTROL_XON_XOFF
                         (TermiosPlatform := linux_termios_platform)]).
  { repeat constructor; cbn [In]; intuition discriminate. }
  split; [exact Hx|].
  destruct (@iflowcontrol_round_trip linux linux_termios_platform raw_9600 None
              Hx Hnd) as [Hacc Hrej].
  split.
  - destruct (Hacc SERGENSIO_FLOWCONTROL_XON_XOFF) as (t' & Hs & Hg & _);
      [right; reflexivity|].
    exists t'. split; [exact Hs|exact Hg].
  - apply Hrej; discriminate.
Defined.

(** A data-size set with a completion on the open endpoint is queued and
    schedules the runner; the same submit on the allocated endpoint, which is
    closed, returns an error and leaves it as it was. *)
Lemma submit_all_or_nothing_witness :
  errno_nonzero (P := linux) /\
  (exists sdata1 acts,
     termios_set_get sdata_open 7 TERMIO_OP_TERMIO
       (Some termios_get_set_datasize) (Some 7%nat) 70 (env_ok 0 0) =
     Some (sdata1, 0, acts) /\
     termio_q sdata1 =
     [ {| op := TERMIO_OP_TERMIO; getset := Some termios_get_set_datasize;
          done := 7%nat; cb_data := 70 |} ] /\
     filter is_run acts = [act_run]) /\
  (exists ret acts,
     termios_set_get sdata_alloc 7 TERMIO_OP_TERMIO
       (Some termios_get_set_datasize) (Some 7%nat) 70 (env_ok 0 0) =
     Some (sdata_alloc, ret, acts) /\
     ret <> 0 /\ filter is_run acts = []).
Proof.
  split; [exact linux_errno_nonzero|]. split.
  - assert (Hc : match termios_set_get sdata_open 7 TERMIO_OP_TERMIO
                         (Some termios_get_set_datasize) (Some 7%nat) 70
                         (env_ok 0 0) with
                 | Some (_, ret, _) => ret =? 0
                 | None => false
                 end = true) by (vm_compute; reflexivity).
    destruct (termios_set_get sdata_open 7 TERMIO_OP_TERMIO
                (Some termios_get_set_datasize) (Some 7%nat) 70 (env_ok 0 0))
      as [[[sdata1 ret] acts]|] eqn:E; [|discriminate Hc].
    apply Z.eqb_eq in Hc. subst ret.
    exists sdata1, acts. split; [reflexivity|].
    destruct (@submit_all_or_nothing linux sdata_open 7 TERMIO_OP_TERMIO
                (Some termios_get_set_datasize) (Some 7%nat) 70 (env_ok 0 0)
                sdata1 0 acts linux_errno_nonzero E) as [_ H0].
    destruct (H0 eq_refl) as (Hq & _ & Hr).
    split; [exact Hq|exact Hr].
  - assert (Hc : match termios_set_get sdata_alloc 7 TERMIO_OP_TERMIO
                         (Some termios_get_set_datasize) (Some 7%nat) 70
                         (env_ok 0 0) with
                 | Some (_, ret, _) => negb (ret =? 0)
                 | None => false
                 end = true) by (vm_compute; reflexivity).
    destruct (termios_set_get sdata_alloc 7 TERMIO_OP_TERMIO
                (Some termios_get_set_datasize) (Some 7%nat) 70 (env_ok 0 0))
      as [[[sdata1 ret] acts]|] eqn:E; [|discriminate Hc].
    apply negb_true_iff, Z.eqb_neq in Hc.
    destruct (@submit_all_or_nothing linux sdata_alloc 7 TERMIO_OP_TERMIO
                (Some termios_get_set_datasize) (Some 7%nat) 70 (env_ok 0 0)
                sdata1 ret acts linux_errno_nonzero E) as [Herr _].
    destruct (Herr Hc) as (Hs & Hr & _). subst sdata1.
    exists ret, acts. split; [reflexivity|]. split; [exact Hc|exact Hr].
Defined.

(** The runner on the two queued operations: completion 7 then
    completion 8. *)
Lemma runner_completes_fifo_witness :
  Forall (well_paired (T := linux_termios_platform)) (termio_q sdata_queued) /\
  exists acts,
    sterm_deferred_op sdata_queued (fun _ => env_ok 0 0) =
    Some (set_deferred_op_pending false (set_termio_q [] sdata_queued), acts) /\
    completions acts = [(7%nat, 70); (8%nat, 80)].
Proof.
  assert (Hq : Forall (well_paired (T := linux_termios_platform))
                 (termio_q sdata_queued)).
  { unfold sdata_queued.
    cbn [termio_q set_termio_q set_deferred_op_pending].
    constructor; [|constructor; [exact I|constructor]].
    unfold well_paired. cbn [op getset In]. auto 10. }
  split; [exact Hq|].
  destruct (@runner_completes_fifo linux linux_termios_platform sdata_queued
              (fun _ => env_ok 0 0) Hq) as (acts & Hr & Hc & _).
  exists acts. split; [exact Hr|exact Hc].
Defined.

(** A parity set through the dispatcher on the queued endpoint: the queue
    stays well paired and the runner returns. *)
Lemma dispatcher_queue_is_safe_witness :
  Forall (well_paired (T := linux_termios_platform)) (termio_q sdata_queued) /\
  exists sdata1 acts,
    sergensio_sterm_func sdata_queued SERGENSIO_FUNC_PARITY
      SERGENSIO_PARITY_EVEN (Some 9%nat) 90 (env_ok 0 0) ctl_env_ok =
    Some (sdata1, 0, acts) /\
    length (termio_q sdata1) = 3%nat /\
    Forall (well_paired (T := linux_termios_platform)) (termio_q sdata1) /\
    exists sdata2 acts2,
      sterm_deferred_op sdata1 (fun _ => env_ok 0 0) = Some (sdata2, acts2).
Proof.
  assert (Hq : Forall (well_paired (T := linux_termios_platform))
                 (termio_q sdata_queued)).
  { unfold sdata_queued.
    cbn [termio_q set_termio_q set_deferred_op_pending].
    constructor; [|constructor; [exact I|constructor]].
    unfold well_paired. cbn [op getset In]. auto 10. }
  split; [exact Hq|].
  assert (Hc : match sergensio_sterm_func sdata_queued SERGENSIO_FUNC_PARITY
                       SERGENSIO_PARITY_EVEN (Some 9%nat) 90 (env_ok 0 0)
                       ctl_env_ok with
               | Some (sdata1, ret, _) =>
                   (ret =? 0) && (length (termio_q sdata1) =? 3)%nat
               | None => false
               end = true) by (vm_compute; reflexivity).
  destruct (sergensio_sterm_func sdata_queued SERGENSIO_FUNC_PARITY
              SERGENSIO_PARITY_EVEN (Some 9%nat) 90 (env_ok 0 0) ctl_env_ok)
    as [[[sdata1 ret] acts]|] eqn:E; [|discriminate Hc].
  apply andb_true_iff in Hc. destruct Hc as [Hr Hl].
  apply Z.eqb_eq in Hr. apply Nat.eqb_eq in Hl. subst ret.
  exists sdata1, acts. split; [reflexivity|]. split; [exact Hl|].
  destruct (@dispatcher_queue_is_safe linux linux_termios_platform
              sdata_queued SERGENSIO_FUNC_PARITY SERGENSIO_PARITY_EVEN
              (Some 9%nat) 90 (env_ok 0 0) ctl_env_ok sdata1 0 acts Hq E)
    as [Hq1 Hrun].
  split; [exact Hq1|]. exact (Hrun (fun _ => env_ok 0 0)).
Defined.

(** After the session the queue holds two entries and the runner is
    scheduled. *)
Lemma queue_never_stranded_witness :
  runner_scheduled sdata_alloc /\
  exists sdata' outs,
    run sdata_alloc queued_session = Some (sdata', outs) /\
    length (termio_q sdata') = 2%nat /\
    runner_scheduled sdata'.
Proof.
  assert (H0 : runner_scheduled sdata_alloc) by (left; reflexivity).
  split; [exact H0|].
  assert (Hc : match run sdata_alloc queued_session with
               | Some (sdata', _) => (length (termio_q sdata') =? 2)%nat
               | None => false
               end = true) by (vm_compute; reflexivity).
  destruct (run sdata_alloc queued_session) as [[sdata' outs]|] eqn:E;
    [|discriminate Hc].
  apply Nat.eqb_eq in Hc.
  exists sdata', outs. split; [reflexivity|]. split; [exact Hc|].
  exact (@queue_never_stranded linux queued_session sdata_alloc sdata' outs
           H0 E).
Defined.

(** The signature is not supported on the open endpoint; a subscription
    through the dispatcher leaves [open] and [fd] alone. *)
Lemma dispatcher_frame_witness :
  sergensio_sterm_func sdata_open SERGENSIO_FUNC_SIGNATURE 0 None 0
    (env_ok 0 0) ctl_env_ok = Some (sdata_open, ENOTSUP, []) /\
  exists sdata1 acts,
    sergensio_sterm_func sdata_open SERGENSIO_FUNC_MODEMSTATE 0x11 None 0
      (env_ok 0 0) ctl_env_ok = Some (sdata1, 0, acts) /\
    modemstate_mask sdata1 = 0x11 /\
    open sdata1 = true /\ fd sdata1 = 3.
Proof.
  split; [reflexivity|].
  eassert (E : sergensio_sterm_func sdata_open SERGENSIO_FUNC_MODEMSTATE 0x11
                 None 0 (env_ok 0 0) ctl_env_ok = Some (_, 0, _))
    by (cbv; reflexivity).
  eexists. eexists. split; [exact E|]. split; [reflexivity|].
  destruct (@dispatcher_frame linux linux_termios_platform sdata_open
              SERGENSIO_FUNC_MODEMSTATE 0x11 None 0 (env_ok 0 0) ctl_env_ok
              _ _ _ E) as (_ & Ho & Hf & _).
  split; [exact Ho|exact Hf].
Defined.


(** DTR raised with RTS already high: TIOCMSET writes 0x006. *)
Lemma modem_line_raised_witness :
  open sdata_open = true /\ write_only sdata_open = false /\
  termio_q sdata_open = [] /\
  exists sdata1,
    sergensio_sterm_func sdata_open SERGENSIO_FUNC_DTR SERGENSIO_DTR_ON
      (Some 7%nat) 70 (env_ok 0x004 0) ctl_env_ok =
    Some (sdata1, 0,
          set_trace sdata_open act_TIOCMGET (act_TIOCMSET 0x006)) /\
    forall os, e_TIOCMGET (os 0%nat) = sys_ok 0x006 ->
      exists sdata2,
        sterm_deferred_op sdata1 os =
        Some (sdata2,
              [act_TIOCMGET; act_done 7 0 SERGENSIO_DTR_ON 70; act_free]).
Proof.
  split; [reflexivity|]. split; [reflexivity|]. split; [reflexivity|].
  assert (H1 : SERGENSIO_DTR_ON (Platform := linux) <> 0) by discriminate.
  assert (H2 : SERGENSIO_RTS_ON (Platform := linux) <> 0) by discriminate.
  assert (H3 : TIOCM_DTR (Platform := linux) <> 0) by discriminate.
  assert (H4 : TIOCM_RTS (Platform := linux) <> 0) by discriminate.
  exact (@modem_line_raised linux linux_termios_platform sdata_open
           SERGENSIO_FUNC_DTR 7%nat 70 (env_ok 0x004 0) ctl_env_ok 0x004
           H1 H2 H3 H4 (or_introl eq_refl) eq_refl eq_refl eq_refl eq_refl
           eq_refl eq_refl).
Defined.

(** CTS high at the first tick, CTS and CD high at the second: the second
    tick reports the levels 0x90 with the change bit of CD, 0x98. *)
Lemma full_mask_reports_changes_witness :
  handling_modemstate sdata_open = false /\
  modemstate_mask sdata_open = 0xFF /\
  0 <= last_modemstate sdata_open < 256 /\
  let sdata1 := fst (termios_timeout sdata_open (env_ok 0x20 0)) in
  last_modemstate (fst (termios_timeout sdata1 (env_ok 0x60 0))) = 0x98 /\
  filter is_modemstate_event (snd (termios_timeout sdata1 (env_ok 0x60 0))) =
  [act_gensio_cb_modemstate false 0x98].
Proof.
  assert (Hr : 0 <= last_modemstate sdata_open < 256)
    by (vm_compute; split; [intros Hgt; discriminate Hgt|reflexivity]).
  split; [reflexivity|]. split; [reflexivity|]. split; [exact Hr|].
  pose proof (@full_mask_reports_changes linux sdata_open (env_ok 0x20 0)
                (env_ok 0x60 0) 0x20 0x60 eq_refl eq_refl Hr eq_refl eq_refl)
    as H.
  cbv zeta in H. destruct H as (Hl & _ & Hf).
  cbv zeta. split; [exact Hl|exact Hf].
Defined.

(** After a tick that saw CTS high under the mask 0xFF, subscribed to the CTS
    change bit alone, with CTS steadily high: the first tick under the new
    mask reports nothing, the second reports the word 0x01 although nothing
    changed. *)
Lemma change_bits_alone_report_levels_witness :
  handling_modemstate sdata_cts_change_only = false /\
  Z.land (modemstate_mask sdata_cts_change_only) 0xF0 = 0 /\
  last_modemstate sdata_cts_change_only = 0x11 /\
  0 <= last_modemstate sdata_cts_change_only < 256 /\
  let sdata1 :=
    fst (termios_timeout sdata_cts_change_only (env_ok 0x20 0)) in
  filter is_modemstate_event
    (snd (termios_timeout sdata_cts_change_only (env_ok 0x20 0))) = [] /\
  filter is_modemstate_event (snd (termios_timeout sdata1 (env_ok 0x20 0))) =
  [act_gensio_cb_modemstate false 0x01].
Proof.
  assert (Hr : 0 <= last_modemstate sdata_cts_change_only < 256)
    by (vm_compute; split; [intros Hgt; discriminate Hgt|reflexivity]).
  split; [reflexivity|]. split; [reflexivity|]. split; [reflexivity|].
  split; [exact Hr|].
  pose proof (@change_bits_alone_report_levels linux sdata_cts_change_only
                (env_ok 0x20 0) (env_ok 0x20 0) 0x20 0x20 eq_refl eq_refl Hr
                eq_refl eq_refl) as H.
  cbv zeta in H. destruct H as (_ & _ & _ & Hf).
  cbv zeta. split; [reflexivity|exact Hf].
Defined.

(** The first open succeeds and keeps the lock; an open whose lock is
    held by another process returns EBUSY and closes nothing. *)
Lemma sub_open_outcome_witness :
  EBUSY (Platform := linux) <> 0 /\
  (exists sdata1 acts,
     sterm_sub_open sdata_alloc (env_ok 0 0) = (sdata1, 0, acts) /\
     fd sdata1 = 3 /\ open sdata1 = true /\
     filter is_uucp_rm_lock acts = []) /\
  (exists sdata1 acts,
     sterm_sub_open sdata_alloc
       {| e_zalloc := true; e_tcgetattr := sys_ok raw_9600;
          e_tcsetattr := sys_ok tt; e_TIOCMGET := sys_ok 0;
          e_TIOCMSET := sys_ok tt; e_BRK := sys_ok tt;
          e_TIOCOUTQ := sys_ok 0; e_uucp_mk_lock := 1234;
          e_errno := 5%positive; e_open := 3;
          e_stop_timer_with_done := 0 |} = (sdata1, EBUSY, acts) /\
     fd sdata1 = -1 /\ open sdata1 = false /\
     filter is_uucp_rm_lock acts = [] /\ filter is_close acts = []).
Proof.
  assert (Hb : EBUSY (Platform := linux) <> 0) by discriminate.
  split; [exact Hb|]. split.
  - eassert (E : sterm_sub_open sdata_alloc (env_ok 0 0) = (_, 0, _))
      by (cbv; reflexivity).
    eexists. eexists. split; [exact E|].
    destruct (@sub_open_outcome linux sdata_alloc (env_ok 0 0) _ _ _ Hb E)
      as (_ & H0 & _).
    destruct (H0 eq_refl) as (_ & Hrm & _ & Hfd & _ & Ho & _).
    split; [exact Hfd|]. split; [exact Ho|exact Hrm].
  - match goal with
    | |- exists s a, sterm_sub_open _ ?e = _ /\ _ =>
        eassert (E : sterm_sub_open sdata_alloc e = (_, EBUSY, _))
          by (cbv; reflexivity)
    end.
    eexists. eexists. split; [exact E|].
    destruct (@sub_open_outcome linux sdata_alloc _ _ _ _ Hb E)
      as (_ & _ & Herr).
    destruct (Herr Hb) as (Hrm & Hfd & Hcl & Ho & _).
    split; [exact Hfd|]. split; [exact Ho|]. split; [exact Hrm|exact Hcl].
Defined.

(** A flush of both buffers on the open endpoint: one tcflush, 0 returned;
    an unknown flush kind: EINVAL, no call. *)
Lemma unqueued_controls_witness :
  EINVAL (Platform := linux) <> 0 /\ write_only sdata_open = false /\
  (exists ret acts,
     sergensio_sterm_func sdata_open SERGENSIO_FUNC_FLUSH
       SERGIO_FLUSH_RCV_XMIT_BUFFERS None 0 (env_ok 0 0) ctl_env_ok =
     Some (sdata_open, ret, acts) /\
     filter is_queued_call acts = [] /\
     (ret = 0 <->
      acts <> [] /\ ctl_call_ok SERGENSIO_FUNC_FLUSH ctl_env_ok = true)).
Proof.
  assert (Hi : EINVAL (Platform := linux) <> 0) by discriminate.
  split; [exact Hi|]. split; [reflexivity|].
  destruct (@unqueued_controls linux linux_termios_platform sdata_open
              SERGENSIO_FUNC_FLUSH SERGIO_FLUSH_RCV_XMIT_BUFFERS None 0
              (env_ok 0 0) ctl_env_ok Hi eq_refl
              (or_intror (or_introl eq_refl)))
    as (ret & acts & Hd & Hq & _ & Hr).
  exists ret, acts. split; [exact Hd|]. split; [exact Hq|exact Hr].
Defined.
